(** * The operation codec of js-stellar-base ([src/operation.js])

    A shallow embedding of the [Operation] class: the ten constructors of
    XDR operations, [operationToObject], [isValidAmount] and the private
    amount and price conversions, together with the fragments of the
    libraries the class calls (bignumber.js, js-xdr's [Hyper], lodash's
    [padEnd] and [trimEnd]).

    Conventions.
    - A JavaScript string is a [string]: a sequence of code units below 256.
    - A JavaScript number is modelled on the integers ([Number n], [n : Z]),
      written and read as the language writes a double of that value;
      fractional numbers, [NaN] and the infinities of the number type are
      outside the model.
    - Code that throws returns [Throw e]; code that returns [v] gives [Ok v].
    - The repository's other modules (account identifiers, assets, the
      continued-fraction approximation) are the fields of the class
      [Collaborators]; the properties the codec relies on are stated apart
      and taken as hypotheses where they are needed. *)

From Stdlib Require Import ZArith NArith Lia String Ascii List Bool.
From stdpp Require Import base strings gmap list.

Local Open Scope string_scope.
Local Open Scope Z_scope.

(** ** Exceptions *)

Inductive exn : Type :=
  | Error (msg : string)
  | TypeError (msg : string).

Inductive result (A : Type) : Type :=
  | Ok (a : A)
  | Throw (e : exn).

Arguments Ok {A} a.
Arguments Throw {A} e.

Definition bind {A B : Type} (r : result A) (k : A -> result B) : result B :=
  match r with
  | Ok a => k a
  | Throw e => Throw e
  end.

Notation "'let*' x ':=' r 'in' k" := (bind r (fun x => k))
  (at level 10, x pattern, r at level 100, k at level 200).

Definition isOk {A : Type} (r : result A) : bool :=
  match r with Ok _ => true | Throw _ => false end.

(** ** Characters and digit strings *)

Definition code (a : ascii) : N := N_of_ascii a.

Definition isDigit (a : ascii) : bool := (48 <=? code a)%N && (code a <=? 57)%N.

Definition isWhitespace (a : ascii) : bool :=
  ((9 <=? code a)%N && (code a <=? 13)%N) || (code a =? 32)%N || (code a =? 160)%N.

(** [\w] of a regular expression. *)
Definition isWordChar (a : ascii) : bool :=
  isDigit a
  || ((65 <=? code a)%N && (code a <=? 90)%N)
  || ((97 <=? code a)%N && (code a <=? 122)%N)
  || (code a =? 95)%N.

Definition digit_val (a : ascii) : N := (code a - 48)%N.

Definition digit_char (d : N) : ascii := ascii_of_N (48 + d).

Fixpoint all_digits (s : string) : bool :=
  match s with
  | EmptyString => true
  | String a r => isDigit a && all_digits r
  end.

(** [\d+] *)
Definition is_digits (s : string) : bool :=
  match s with
  | EmptyString => false
  | _ => all_digits s
  end.

Fixpoint val_acc (s : string) (acc : N) : N :=
  match s with
  | EmptyString => acc
  | String a r => val_acc r (10 * acc + digit_val a)
  end.

(** The number a string of decimal digits denotes. *)
Definition digits_val (s : string) : N := val_acc s 0.

Fixpoint digits_of (fuel : nat) (n : N) (acc : string) : string :=
  let acc' := String (digit_char (n mod 10)) acc in
  match fuel with
  | O => acc'
  | S f => if (n <? 10)%N then acc' else digits_of f (n / 10) acc'
  end.

(** The decimal digits of a natural number, without leading zeros. *)
Definition N_toString (n : N) : string :=
  digits_of (N.to_nat (N.log2 n)) n EmptyString.

Definition Z_toString (z : Z) : string :=
  if z <? 0 then String "-" (N_toString (Z.abs_N z)) else N_toString (Z.abs_N z).

Definition strlen (s : string) : Z := Z.of_nat (String.length s).

(** [k] copies of the character [ch]. *)
Fixpoint replicate_char (k : nat) (ch : ascii) : string :=
  match k with
  | O => EmptyString
  | S k' => String ch (replicate_char k' ch)
  end.

Definition zeros (k : nat) : string := replicate_char k "0".

(** The minus sign a text starts with, if any, and the rest of the text. *)
Definition split_minus (s : string) : bool * string :=
  match s with
  | String a r => if (a =? "-")%char then (true, r) else (false, s)
  | EmptyString => (false, s)
  end.

(** Whether every character of [s] satisfies [q]. *)
Fixpoint string_all (q : ascii -> bool) (s : string) : bool :=
  match s with
  | EmptyString => true
  | String a r => q a && string_all q r
  end.

(** The part of [s] before the first character that satisfies [p], and the
    part after that character when there is one. *)
Fixpoint break (p : ascii -> bool) (s : string) : string * option string :=
  match s with
  | EmptyString => (EmptyString, None)
  | String a r =>
      if p a then (EmptyString, Some r)
      else let '(x, y) := break p r in (String a x, y)
  end.

Fixpoint take (k : nat) (s : string) : string :=
  match k, s with
  | S k', String a r => String a (take k' r)
  | _, _ => EmptyString
  end.

Fixpoint drop (k : nat) (s : string) : string :=
  match k, s with
  | S k', String _ r => drop k' r
  | _, _ => s
  end.

Fixpoint dropWhile (p : ascii -> bool) (s : string) : string :=
  match s with
  | EmptyString => EmptyString
  | String a r => if p a then dropWhile p r else s
  end.

(** [s] without the longest suffix of characters that satisfy [p]. *)
Fixpoint dropWhileEnd (p : ascii -> bool) (s : string) : string :=
  match s with
  | EmptyString => EmptyString
  | String a r =>
      match dropWhileEnd p r with
      | EmptyString => if p a then EmptyString else String a EmptyString
      | r' => String a r'
      end
  end.

(** ** JavaScript numbers

    A number that is an integer is held by its value.  The number type has
    the integers of at most 53 significant bits below [2^1024]
    ([is_double]); the definitions below are meant for these. *)

Definition is_double (n : Z) : bool :=
  let a := Z.abs n in
  (a <? 2 ^ 53) || ((a mod 2 ^ (Z.log2 a - 52) =? 0) && (a <? 2 ^ 1024)).

(** The integers a double [a] above [2^53] is the nearest double of: the
    ends of the interval, and whether they belong to it (ties go to the
    even significand). *)
Definition rounding_interval (a : Z) : Z * Z * bool :=
  let ulp := 2 ^ (Z.log2 a - 52) in
  let m := a / ulp in
  let below := if m =? 2 ^ 52 then ulp / 4 else ulp / 2 in
  (a - below, a + ulp / 2, Z.even m).

(** The multiple of [10^j] in the interval that is nearest to [a], for the
    largest [j] from [j] down that has one. *)
Fixpoint shortest_from (fuel : nat) (j : Z) (a lo hi : Z) (closed : bool) : Z :=
  let p := 10 ^ j in
  let first := if closed then (lo + p - 1) / p else lo / p + 1 in
  let last := if closed then hi / p else (hi - 1) / p in
  if first <=? last then
    let q := a / p in
    let r := a mod p in
    let nearest :=
      if 2 * r <? p then q
      else if p <? 2 * r then q + 1
      else if Z.even q then q else q + 1 in
    Z.max first (Z.min last nearest) * p
  else
    match fuel with
    | O => a
    | S f => shortest_from f (j - 1) a lo hi closed
    end.

(** The decimal the number is written as, without its sign: the number
    itself up to [2^53], and above it the integer of the fewest significant
    digits that the number is the nearest double of (the nearest to the
    number when there are several). *)
Definition Number_value (n : Z) : N :=
  let a := Z.abs n in
  if a <=? 2 ^ 53 then Z.abs_N n
  else
    let '(lo, hi, closed) := rounding_interval a in
    let j := strlen (N_toString (Z.to_N hi)) in
    Z.to_N (shortest_from (Z.to_nat j) j a lo hi closed).

(** [n + ''] and [n.toString()]: the digits of the decimal when it has at
    most 21 of them, and exponent notation from [1e21]. *)
Definition Number_toString (n : Z) : string :=
  let ds := N_toString (Number_value n) in
  let text :=
    if strlen ds <=? 21 then ds
    else
      match dropWhileEnd (Ascii.eqb "0") ds with
      | String a (String _ _ as r) => String a (String "." r)
      | m => m
      end ++ "e+" ++ Z_toString (strlen ds - 1) in
  if n <? 0 then String "-" text else text.


(** ** bignumber.js

    The decimal arithmetic the class relies on, with the library's default
    configuration: [DECIMAL_PLACES = 20], [ROUNDING_MODE = ROUND_HALF_UP],
    [EXPONENTIAL_AT = [-7, 21]], [RANGE = 1e7], [ERRORS = true].

    A finite value [Finite neg c e] is [(-1)^neg * c * 10^e]; the library
    keeps no trailing zero in the coefficient, and so do the operations
    below ([make]).  Zero is [Finite neg 0 0] and keeps its sign.

    The constructor reads decimal literals, the names of the special
    values, surrounding white space, and literals with a radix prefix
    ([0x], [0b], [0o]), which go through the library's base conversion. *)

Module BigNumber.

Inductive t : Type :=
  | NaN
  | Infinity (neg : bool)
  | Finite (neg : bool) (c : N) (e : Z).

Definition MAX_EXP : Z := 10000000.
Definition MIN_EXP : Z := -10000000.
Definition DECIMAL_PLACES : Z := 20.
Definition TO_EXP_NEG : Z := -7.
Definition TO_EXP_POS : Z := 21.
Definition MAX_SAFE_INTEGER : Z := 9007199254740991.

(** Removes the trailing zeros of a non-zero coefficient. *)
Fixpoint strip (fuel : nat) (c : N) (e : Z) : N * Z :=
  match fuel with
  | O => (c, e)
  | S f => if (c mod 10 =? 0)%N then strip f (c / 10)%N (e + 1) else (c, e)
  end.

(** The number of significant digits of a non-zero coefficient. *)
Definition ndigits (c : N) : Z := strlen (N_toString c).

(** The library's [normalise]: no trailing zeros, [Infinity] above the
    exponent range and zero below it. *)
Definition make (neg : bool) (c : N) (e : Z) : t :=
  if (c =? 0)%N then Finite neg 0 0
  else
    let '(c', e') := strip (N.to_nat (N.log2 c)) c e in
    let sci := e' + ndigits c' - 1 in
    if MAX_EXP <? sci then Infinity neg
    else if sci <? MIN_EXP then Finite neg 0 0
    else Finite neg c' e'.

(** [|x| / |y|] rounded half up to [DECIMAL_PLACES] places, as a coefficient
    of [10^-DECIMAL_PLACES]. *)
Definition quotient (c1 : N) (e1 : Z) (c2 : N) (e2 : Z) : N :=
  let k := e1 - e2 + DECIMAL_PLACES in
  let num := if 0 <=? k then Z.of_N c1 * 10 ^ k else Z.of_N c1 in
  let den := if 0 <=? k then Z.of_N c2 else Z.of_N c2 * 10 ^ (- k) in
  Z.to_N ((2 * num + den) / (2 * den)).

(** *** The constructor, on a string *)

Record literal : Type := Literal {
  lit_neg : bool;
  lit_int : string;
  lit_frac : string;
  lit_exp : Z
}.

Definition isDot (a : ascii) : bool := (code a =? 46)%N.
Definition isE (a : ascii) : bool := (code a =? 101)%N || (code a =? 69)%N.

(** The mantissa of a literal: digits, then possibly a dot and further
    digits; or a dot and digits. *)
Definition read_mantissa (s : string) : option (string * string) :=
  match break isDot s with
  | (ip, None) => if is_digits ip then Some (ip, EmptyString) else None
  | (ip, Some fp) =>
      if (is_digits ip && all_digits fp)
         || (match ip with EmptyString => true | _ => false end && is_digits fp)
      then Some (ip, fp)
      else None
  end.

(** The text after the [e]: an optional sign and digits. *)
Definition read_exponent (s : string) : option Z :=
  let '(neg, ds) :=
    match s with
    | String a r =>
        if (a =? "-")%char then (true, r)
        else if (a =? "+")%char then (false, r)
        else (false, s)
    | EmptyString => (false, s)
    end in
  if is_digits ds
  then Some (if neg then - Z.of_N (digits_val ds) else Z.of_N (digits_val ds))
  else None.

(** The library's [isNumeric] pattern (an optional minus sign, a mantissa
    and an optional exponent after [e] or [E]), with the parts it matched. *)
Definition isNumeric (s : string) : option literal :=
  let '(neg, body) := split_minus s in
  let '(m, ex) := break isE body in
  match read_mantissa m,
        match ex with None => Some 0 | Some x => read_exponent x end with
  | Some (ip, fp), Some e => Some (Literal neg ip fp e)
  | _, _ => None
  end.

Definition of_literal (l : literal) : t :=
  make (lit_neg l)
       (digits_val (lit_int l ++ lit_frac l))
       (lit_exp l - strlen (lit_frac l)).

(** The replacement of [whitespaceOrPlus] in [parseNumeric]: leading white
    space, with a plus sign after it when a word character or a dot follows
    the sign, and trailing white space are removed. *)
Definition strip_whitespaceOrPlus (s : string) : string :=
  let lead :=
    match dropWhile isWhitespace s with
    | String "+" (String a r as rest) =>
        if isWordChar a || isDot a then rest else String "+" rest
    | s' => s'
    end in
  dropWhileEnd isWhitespace lead.

Definition not_a_number (s : string) : exn :=
  Error ("new BigNumber() not a number: " ++ s).

(** *** The constructor, on a literal in another base

    [new BigNumber(str, b)] for a base [b] of at most 36, where the case of
    a letter does not matter. *)

(** The place of a character in the library's [ALPHABET]. *)
Definition alphabet_index (a : ascii) : option N :=
  if isDigit a then Some (code a - 48)%N
  else if (97 <=? code a)%N && (code a <=? 122)%N then Some (code a - 87)%N
  else if (65 <=? code a)%N && (code a <=? 90)%N then Some (code a - 55)%N
  else None.

Definition isBaseDigit (b : N) (a : ascii) : bool :=
  match alphabet_index a with
  | Some d => (d <? b)%N
  | None => false
  end.

Definition is_base_digits (b : N) (s : string) : bool :=
  match s with
  | EmptyString => false
  | _ => string_all (isBaseDigit b) s
  end.

Fixpoint base_val_acc (b : N) (s : string) (acc : N) : N :=
  match s with
  | EmptyString => acc
  | String a r =>
      base_val_acc b r (b * acc + match alphabet_index a with Some d => d | None => 0 end)
  end.

(** The number a string of digits of base [b] denotes. *)
Definition base_val (b : N) (s : string) : N := base_val_acc b s 0.

(** The pattern of a number in base [b]: an optional minus sign, digits,
    and possibly a dot with digits after it; with the parts it matched. *)
Definition isBaseNumeric (b : N) (s : string) : option (bool * string * option string) :=
  let '(neg, body) := split_minus s in
  let '(ip, fp) := break isDot body in
  if is_base_digits b ip
     && match fp with
        | Some f => is_base_digits b f
        | None => true
        end
  then Some (neg, ip, fp)
  else None.

(** [convertBase]: an integer is converted exactly; a number with a
    fraction is the quotient of its digits, read as an integer, by the power
    of the base, rounded half up to [DECIMAL_PLACES] places. *)
Definition of_base_literal (b : N) (neg : bool) (ip : string) (fp : option string) : t :=
  match fp with
  | None => make neg (base_val b ip) 0
  | Some f =>
      make neg (quotient (base_val b (ip ++ f)) 0 (b ^ N.of_nat (String.length f)) 0)
           (- DECIMAL_PLACES)
  end.

(** The base a prefix letter stands for. *)
Definition radix_of (a : ascii) : option N :=
  if (code a =? 120)%N || (code a =? 88)%N then Some 16%N
  else if (code a =? 98)%N || (code a =? 66)%N then Some 2%N
  else if (code a =? 111)%N || (code a =? 79)%N then Some 8%N
  else None.

(** The library's [basePrefix] pattern: an optional minus sign, a zero and
    a prefix letter, before a word character followed by word characters
    and dots up to the end.  The sign, the base and the text after the
    prefix. *)
Definition basePrefix (s : string) : option (bool * N * string) :=
  let '(neg, body) := split_minus s in
  match body with
  | String "0" (String p (String a r as rest)) =>
      if isWordChar a && string_all (fun c => isWordChar c || isDot c) r
      then match radix_of p with
           | Some base => Some (neg, base, rest)
           | None => None
           end
      else None
  | _ => None
  end.

(** The replacement of [dotAfter]: [1.] becomes [1]. *)
Definition dotAfter (s : string) : string :=
  match break isDot s with
  | (String a r, Some EmptyString) => String a r
  | _ => s
  end.

(** The replacement of [dotBefore]: [.1] becomes [0.1]. *)
Definition dotBefore (s : string) : string :=
  match s with
  | String "." (String a r as rest) =>
      if string_all (fun c => negb (isDot c)) rest then String "0" s else s
  | _ => s
  end.

Definition not_a_base_number (b : N) (s : string) : exn :=
  Error ("new BigNumber() not a base " ++ N_toString b ++ " number: " ++ s).

(** What [parseNumeric] starts again on, for a text that is no number of
    base [b]: the text without white space around it, without a prefix of
    this very base and with a dot at an end repaired. *)
Definition base_retry (b : N) (str : string) : string :=
  let s := strip_whitespaceOrPlus str in
  let s :=
    match basePrefix s with
    | Some (neg, base, rest) =>
        if (base =? b)%N then (if neg then String "-" rest else rest) else s
    | None => s
    end in
  dotBefore (dotAfter s).

(** [new BigNumber(str, b)]: a text that is no number of base [b] goes to
    [parseNumeric], which knows the special values and starts again on
    [base_retry], unless that is the text itself.  Two rounds more than
    the text has characters are enough ([of_string_base_fuel]). *)
Fixpoint of_string_base (fuel : nat) (b : N) (str : string) : result t :=
  match isBaseNumeric b str with
  | Some (neg, ip, fp) => Ok (of_base_literal b neg ip fp)
  | None =>
      let s := strip_whitespaceOrPlus str in
      if (s =? "Infinity")%string then Ok (Infinity false)
      else if (s =? "-Infinity")%string then Ok (Infinity true)
      else if (s =? "NaN")%string || (s =? "-NaN")%string then Ok NaN
      else if (base_retry b str =? str)%string then Throw (not_a_base_number b str)
      else
        match fuel with
        | S f => of_string_base f b (base_retry b str)
        | O => Throw (not_a_base_number b str)
        end
  end.

(** [new BigNumber(str)] *)
Definition of_string (str : string) : result t :=
  match isNumeric str with
  | Some l => Ok (of_literal l)
  | None =>
      let s := strip_whitespaceOrPlus str in
      if (s =? "Infinity")%string then Ok (Infinity false)
      else if (s =? "-Infinity")%string then Ok (Infinity true)
      else if (s =? "NaN")%string || (s =? "-NaN")%string then Ok NaN
      else
        match basePrefix s with
        | Some (neg, base, rest) =>
            let s' := if neg then String "-" rest else rest in
            of_string_base (String.length s' + 2) base s'
        | None =>
            if (s =? str)%string then Throw (not_a_number str)
            else
              match isNumeric s with
              | Some l => Ok (of_literal l)
              | None => Throw (not_a_number s)
              end
        end
  end.

(** [new BigNumber(n)] for a number [n]: the decimal the number is written
    as; one with more than 15 significant digits is refused when the number
    is no safe integer. *)
Definition of_number (n : Z) : result t :=
  match make (n <? 0) (Number_value n) 0 with
  | Finite neg c e =>
      if (15 <? ndigits c) && (MAX_SAFE_INTEGER <? Z.abs n)
      then Throw (Error ("new BigNumber() number type has more than 15 significant digits: "
                           ++ Number_toString n))
      else Ok (Finite neg c e)
  | x => Ok x
  end.

(** *** Predicates *)

Definition isZero (x : t) : bool :=
  match x with Finite _ c _ => (c =? 0)%N | _ => false end.

Definition isNegative (x : t) : bool :=
  match x with
  | NaN => false
  | Infinity neg => neg
  | Finite neg _ _ => neg
  end.

Definition isFinite (x : t) : bool :=
  match x with Finite _ _ _ => true | _ => false end.

Definition isNaN (x : t) : bool :=
  match x with NaN => true | _ => false end.

(** [decimalPlaces] is [null] for [NaN] and the infinities. *)
Definition decimalPlaces (x : t) : option Z :=
  match x with
  | Finite _ c e => Some (Z.max 0 (- e))
  | _ => None
  end.

(** *** Arithmetic *)

Definition times (x y : t) : t :=
  match x, y with
  | NaN, _ | _, NaN => NaN
  | Infinity a, Infinity b => Infinity (xorb a b)
  | Infinity a, Finite b c _ | Finite a c _, Infinity b =>
      if (c =? 0)%N then NaN else Infinity (xorb a b)
  | Finite a c1 e1, Finite b c2 e2 => make (xorb a b) (c1 * c2) (e1 + e2)
  end.

Definition div (x y : t) : t :=
  match x, y with
  | NaN, _ | _, NaN => NaN
  | Infinity _, Infinity _ => NaN
  | Infinity a, Finite b _ _ => Infinity (xorb a b)
  | Finite a _ _, Infinity b => Finite (xorb a b) 0 0
  | Finite a c1 e1, Finite b c2 e2 =>
      if (c2 =? 0)%N then (if (c1 =? 0)%N then NaN else Infinity (xorb a b))
      else if (c1 =? 0)%N then Finite (xorb a b) 0 0
      else make (xorb a b) (quotient c1 e1 c2 e2) (- DECIMAL_PLACES)
  end.

(** The order of two magnitudes [c1 * 10^e1] and [c2 * 10^e2]. *)
Definition compare_abs (c1 : N) (e1 : Z) (c2 : N) (e2 : Z) : comparison :=
  let m := Z.min e1 e2 in
  Z.compare (Z.of_N c1 * 10 ^ (e1 - m)) (Z.of_N c2 * 10 ^ (e2 - m)).

(** The library's [compare]: [null] ([None]) when either side is [NaN]. *)
Definition compare (x y : t) : option comparison :=
  match x, y with
  | NaN, _ | _, NaN => None
  | Infinity a, Infinity b =>
      Some (if Bool.eqb a b then Eq else if a then Lt else Gt)
  | Infinity a, Finite _ _ _ => Some (if a then Lt else Gt)
  | Finite _ _ _, Infinity b => Some (if b then Gt else Lt)
  | Finite a c1 e1, Finite b c2 e2 =>
      if (c1 =? 0)%N then
        Some (if (c2 =? 0)%N then Eq else if b then Gt else Lt)
      else if (c2 =? 0)%N then Some (if a then Lt else Gt)
      else if negb (Bool.eqb a b) then Some (if a then Lt else Gt)
      else Some (if a then CompOpp (compare_abs c1 e1 c2 e2)
                 else compare_abs c1 e1 c2 e2)
  end.

Definition greaterThan (x y : t) : bool :=
  match compare x y with Some Gt => true | _ => false end.

(** *** toString *)

Definition toExponential (ds : string) (sci : Z) : string :=
  match ds with
  | String a (String _ _ as r) => String a (String "." r)
  | _ => ds
  end ++ (if sci <? 0 then "e" else "e+") ++ Z_toString sci.

Definition toFixedPoint (ds : string) (sci : Z) : string :=
  if sci <? 0 then "0." ++ zeros (Z.to_nat (- sci - 1)) ++ ds
  else
    let len := strlen ds in
    if len <? sci + 1 then ds ++ zeros (Z.to_nat (sci + 1 - len))
    else if sci + 1 <? len
      then take (Z.to_nat (sci + 1)) ds ++ "." ++ drop (Z.to_nat (sci + 1)) ds
    else ds.

Definition toString (x : t) : string :=
  match x with
  | NaN => "NaN"
  | Infinity neg => if neg then "-Infinity" else "Infinity"
  | Finite neg c e =>
      let ds := N_toString c in
      let sci := e + strlen ds - 1 in
      let str :=
        if (sci <=? TO_EXP_NEG) || (TO_EXP_POS <=? sci)
        then toExponential ds sci
        else toFixedPoint ds sci in
      if neg && negb (c =? 0)%N then String "-" str else str
  end.

(** The texts [isNumeric] accepts: a sign, digits, a point with digits after
    it, an exponent. *)
Definition decimal_text (neg : bool) (ip fp : string) (dot : bool) (ex : option Z) : string :=
  (if neg then "-" else EmptyString)
  ++ ip
  ++ (if dot then String "." fp else EmptyString)
  ++ match ex with
     | Some z => String "e" (if z <? 0 then Z_toString z else String "+" (Z_toString z))
     | None => EmptyString
     end.

(** *** Well-formed values

    What the constructor and the arithmetic return: a coefficient without
    trailing zeros and an exponent within the range, or the zero
    [Finite neg 0 0]. *)

Definition wf (x : t) : Prop :=
  match x with
  | Finite _ c e =>
      (c = 0%N /\ e = 0)
      \/ (c <> 0%N /\ (c mod 10)%N <> 0%N /\ MIN_EXP <= e + ndigits c - 1 <= MAX_EXP)
  | _ => True
  end.

End BigNumber.

(** ** js-xdr: 64-bit integers

    [Hyper] is a signed and [UnsignedHyper] an unsigned 64-bit integer, held
    here by its value.  [fromString] accepts decimal digits only (with a
    minus sign for [Hyper]) and wraps around like the [Long] it extends. *)

Module Hyper.

Definition t : Type := Z.

Definition MAX_VALUE : Z := 9223372036854775807.
Definition MIN_VALUE : Z := -9223372036854775808.

Definition wrap (z : Z) : Z := (z + 2 ^ 63) mod 2 ^ 64 - 2 ^ 63.

Definition invalid (s : string) : exn := Error ("Invalid hyper string: " ++ s).

Definition fromString (s : string) : result t :=
  let '(neg, ds) := split_minus s in
  if is_digits ds
  then Ok (wrap (if neg then - Z.of_N (digits_val ds) else Z.of_N (digits_val ds)))
  else Throw (invalid s).

Definition toString (h : t) : string := Z_toString h.

End Hyper.

Module UnsignedHyper.

Definition t : Type := Z.

Definition MAX_VALUE : Z := 18446744073709551615.

Definition wrap (z : Z) : Z := z mod 2 ^ 64.

Definition fromString (s : string) : result t :=
  if is_digits s then Ok (wrap (Z.of_N (digits_val s)))
  else Throw (Error ("Invalid hyper string: " ++ s)).

Definition toString (h : t) : string := Z_toString h.

End UnsignedHyper.

(** ** lodash *)

Definition NUL : ascii := ascii_of_N 0.

(** [padEnd(string, length, chars)] for a one-character [chars], as every
    call of the class has it. *)
Definition padEnd (s : string) (len : nat) (ch : ascii) : string :=
  s ++ replicate_char (len - String.length s) ch.

(** [trimEnd(string, chars)] for a one-character [chars]. *)
Definition trimEnd (s : string) (ch : ascii) : string :=
  dropWhileEnd (Ascii.eqb ch) s.

(** ** The collaborators of the class

    The modules of the repository the class imports: [strkey] (with
    [Account] and [Keypair] on top of it), [Asset] and
    [util/continued_fraction].

    - [decodeCheck s] is the public key [decodeCheck("accountId", s)]
      yields when it is a 32-byte key, that is when
      [Account.isValidAccountId(s)] holds; [Keypair.fromAccountId] wraps
      the same key, and [encodeCheck k] is its address
      [encodeCheck("accountId", k.ed25519())].
    - [toXdrObject] and [fromOperation] are the two conversions of [Asset].
    - [best_r x] is the pair of integers [parseInt] reads from the two
      strings [best_r(x)] returns. *)

Class Collaborators : Type := {
  AccountID : Type;
  Asset : Type;
  XdrAsset : Type;
  decodeCheck : string -> option AccountID;
  encodeCheck : AccountID -> string;
  toXdrObject : Asset -> XdrAsset;
  fromOperation : XdrAsset -> Asset;
  best_r : BigNumber.t -> result (Z * Z)
}.




(** ** JavaScript values *)

#[warnings="-register-all"]
Inductive value `{Collaborators} : Type :=
  | Undefined
  | Null
  | Bool (b : bool)
  | Number (n : Z)
  | Str (s : string)
  | Big (x : BigNumber.t)
  | AssetObj (a : Asset)
  | Obj (fields : gmap string value)
  | Arr (items : list value).

Section Values.
Context `{Collaborators}.

Definition isString (v : value) : bool :=
  match v with Str _ => true | _ => false end.

Definition isUndefined (v : value) : bool :=
  match v with Undefined => true | _ => false end.

(** The truth value of a condition. *)
Definition truthy (v : value) : bool :=
  match v with
  | Undefined | Null => false
  | Bool b => b
  | Number n => negb (n =? 0)
  | Str s => negb (s =? EmptyString)%string
  | _ => true
  end.

(** [v + ''] *)
Fixpoint js_toString (v : value) : string :=
  match v with
  | Undefined => "undefined"
  | Null => "null"
  | Bool b => if b then "true" else "false"
  | Number n => Number_toString n
  | Str s => s
  | Big x => BigNumber.toString x
  | AssetObj _ | Obj _ => "[object Object]"
  | Arr items =>
      String.concat ","
        (List.map (fun i => match i with
                            | Undefined | Null => EmptyString
                            | _ => js_toString i
                            end) items)
  end.

(** The object [{n: n, d: d}]. *)
Definition ratio_object (n d : Z) : value :=
  Obj (<["n" := Number n]> (<["d" := Number d]> ∅)).

(** [v.toString()] *)
Definition method_toString (v : value) : result string :=
  match v with
  | Undefined => Throw (TypeError "Cannot read property 'toString' of undefined")
  | Null => Throw (TypeError "Cannot read property 'toString' of null")
  | _ => Ok (js_toString v)
  end.

(** [v.k] for a property [k] that is no method of a built-in prototype. *)
Definition prop (v : value) (k : string) : result value :=
  match v with
  | Undefined => Throw (TypeError ("Cannot read property '" ++ k ++ "' of undefined"))
  | Null => Throw (TypeError ("Cannot read property '" ++ k ++ "' of null"))
  | Obj fields => Ok (default Undefined (fields !! k))
  | _ => Ok Undefined
  end.

(** [new BigNumber(v)] *)
Definition BigNumber_new (v : value) : result BigNumber.t :=
  match v with
  | Big x => Ok x
  | Number n => BigNumber.of_number n
  | _ => BigNumber.of_string (js_toString v)
  end.

(** [Account.isValidAccountId(v)] *)
Definition isValidAccountId (v : value) : bool :=
  match v with
  | Str s => match decodeCheck s with Some _ => true | None => false end
  | _ => false
  end.

(** [Keypair.fromAccountId(v).xdrAccountId()] *)
Definition xdrAccountId (v : value) : result AccountID :=
  match v with
  | Str s =>
      match decodeCheck s with
      | Some k => Ok k
      | None => Throw (Error "invalid encoded string")
      end
  | _ => Throw (TypeError "encoded argument must be of type String")
  end.

End Values.

(** ** The XDR structures

    The generated classes of [stellar-xdr_generated]: a structure is the
    record of its attributes, a union its arm. *)

Module xdr.

Module Price.
Record t : Type := new { n : Z; d : Z }.
End Price.

Module CreateAccountOp.
Record t `{Collaborators} : Type := new {
  destination : AccountID;
  startingBalance : Hyper.t
}.
End CreateAccountOp.

Module PaymentOp.
Record t `{Collaborators} : Type := new {
  destination : AccountID;
  asset : XdrAsset;
  amount : Hyper.t
}.
End PaymentOp.

Module PathPaymentOp.
Record t `{Collaborators} : Type := new {
  sendAsset : XdrAsset;
  sendMax : Hyper.t;
  destination : AccountID;
  destAsset : XdrAsset;
  destAmount : Hyper.t;
  path : list XdrAsset
}.
End PathPaymentOp.

Module ChangeTrustOp.
Record t `{Collaborators} : Type := new {
  line : XdrAsset;
  limit : Hyper.t
}.
End ChangeTrustOp.

Module AllowTrustOpAsset.
Inductive t : Type :=
  | assetTypeCreditAlphanum4 (assetCode4 : string)
  | assetTypeCreditAlphanum12 (assetCode12 : string).

Definition value (a : t) : string :=
  match a with
  | assetTypeCreditAlphanum4 c => c
  | assetTypeCreditAlphanum12 c => c
  end.
End AllowTrustOpAsset.

Module AllowTrustOp.
Record t `{Collaborators} : Type := new {
  trustor : AccountID;
  asset : AllowTrustOpAsset.t;
  authorize : bool
}.
End AllowTrustOp.

Module Signer.
Record t `{Collaborators} : Type := new {
  pubKey : AccountID;
  weight : option Z
}.
End Signer.

Module SetOptionsOp.
Record t `{Collaborators} : Type := new {
  inflationDest : option AccountID;
  clearFlags : option Z;
  setFlags : option Z;
  masterWeight : option Z;
  lowThreshold : option Z;
  medThreshold : option Z;
  highThreshold : option Z;
  homeDomain : option string;
  signer : option Signer.t
}.
End SetOptionsOp.

Module ManageOfferOp.
Record t `{Collaborators} : Type := new {
  selling : XdrAsset;
  buying : XdrAsset;
  amount : Hyper.t;
  price : Price.t;
  offerId : UnsignedHyper.t
}.
End ManageOfferOp.

Module CreatePassiveOfferOp.
Record t `{Collaborators} : Type := new {
  selling : XdrAsset;
  buying : XdrAsset;
  amount : Hyper.t;
  price : Price.t
}.
End CreatePassiveOfferOp.

(** The union of the operation bodies: the name of the discriminant
    ([body.switch().name]) and the value of the arm ([body.value()]).  A
    body read from the wire may carry a discriminant this class does not
    know. *)
Module OperationBody.

Inductive arm `{Collaborators} : Type :=
  | CreateAccount (op : CreateAccountOp.t)
  | Payment (op : PaymentOp.t)
  | PathPayment (op : PathPaymentOp.t)
  | ChangeTrust (op : ChangeTrustOp.t)
  | AllowTrust (op : AllowTrustOp.t)
  | SetOptions (op : SetOptionsOp.t)
  | ManageOffer (op : ManageOfferOp.t)
  | CreatePassiveOffer (op : CreatePassiveOfferOp.t)
  | Destination (account : AccountID)
  | Void.

Record t `{Collaborators} : Type := new {
  switch : string;
  value : arm
}.

Section Arms.
Context `{Collaborators}.

Definition createAccount (op : CreateAccountOp.t) : t := new _ "createAccount" (CreateAccount op).
Definition payment (op : PaymentOp.t) : t := new _ "payment" (Payment op).
Definition pathPayment (op : PathPaymentOp.t) : t := new _ "pathPayment" (PathPayment op).
Definition changeTrust (op : ChangeTrustOp.t) : t := new _ "changeTrust" (ChangeTrust op).
Definition allowTrust (op : AllowTrustOp.t) : t := new _ "allowTrust" (AllowTrust op).
Definition setOption (op : SetOptionsOp.t) : t := new _ "setOption" (SetOptions op).
Definition manageOffer (op : ManageOfferOp.t) : t := new _ "manageOffer" (ManageOffer op).
Definition createPassiveOffer (op : CreatePassiveOfferOp.t) : t :=
  new _ "createPassiveOffer" (CreatePassiveOffer op).
Definition accountMerge (account : AccountID) : t := new _ "accountMerge" (Destination account).
Definition inflation : t := new _ "inflation" Void.

End Arms.
End OperationBody.

Module Operation.
Record t `{Collaborators} : Type := new {
  sourceAccount : option AccountID;
  body : OperationBody.t
}.
End Operation.

End xdr.

(** ** The options of the constructors

    One record per constructor, with the fields its documentation lists.  A
    field the constructor inspects (is it a string, is it undefined, is it
    truthy) is a [value]; an optional field of a documented type is an
    [option], [None] standing for [undefined]. *)

Module CreateAccountOpts.
Record t `{Collaborators} : Type := new {
  destination : value;
  startingBalance : value;
  source : value
}.
End CreateAccountOpts.

Module PaymentOpts.
Record t `{Collaborators} : Type := new {
  destination : value;
  asset : option Asset;
  amount : value;
  source : value
}.
End PaymentOpts.

Module PathPaymentOpts.
Record t `{Collaborators} : Type := new {
  sendAsset : option Asset;
  sendMax : value;
  destination : value;
  destAsset : option Asset;
  destAmount : value;
  path : option (list Asset);
  source : value
}.
End PathPaymentOpts.

Module ChangeTrustOpts.
Record t `{Collaborators} : Type := new {
  asset : option Asset;
  limit : value;
  source : value
}.
End ChangeTrustOpts.

Module AllowTrustOpts.
Record t `{Collaborators} : Type := new {
  trustor : value;
  assetCode : string;
  authorize : bool;
  source : value
}.
End AllowTrustOpts.

Module SignerOpts.
Record t `{Collaborators} : Type := new {
  address : value;
  weight : option Z
}.
End SignerOpts.

Module SetOptionsOpts.
Record t `{Collaborators} : Type := new {
  inflationDest : value;
  clearFlags : option Z;
  setFlags : option Z;
  masterWeight : option Z;
  lowThreshold : option Z;
  medThreshold : option Z;
  highThreshold : option Z;
  signer : option SignerOpts.t;
  homeDomain : value;
  source : value
}.
End SetOptionsOpts.

Module ManageOfferOpts.
Record t `{Collaborators} : Type := new {
  selling : option Asset;
  buying : option Asset;
  amount : value;
  price : value;
  offerId : value;
  source : value
}.
End ManageOfferOpts.

Module CreatePassiveOfferOpts.
Record t `{Collaborators} : Type := new {
  selling : option Asset;
  buying : option Asset;
  amount : value;
  price : value;
  source : value
}.
End CreatePassiveOfferOpts.

Module AccountMergeOpts.
Record t `{Collaborators} : Type := new {
  destination : value;
  source : value
}.
End AccountMergeOpts.

Module InflationOpts.
Record t `{Collaborators} : Type := new {
  source : value
}.
End InflationOpts.

(** ** The class [Operation] *)

Definition ONE : Z := 10000000.
Definition MAX_INT64 : string := "9223372036854775807".

(** [scaled x n]: the decimal [x] times [ONE] is the integer [n]. *)
Definition scaled (x : BigNumber.t) (n : Z) : Prop :=
  match x with
  | BigNumber.Finite neg c e =>
      let v := if neg then - Z.of_N c else Z.of_N c in
      if 0 <=? e + 7 then n = v * 10 ^ (e + 7) else v = n * 10 ^ (- (e + 7))
  | _ => False
  end.

Module Operation.
Section Class.
Context `{Collaborators}.

(** The value of a [BigNumber] literal of the class; the constructor does
    not throw on any of them. *)
Definition big (v : value) : BigNumber.t :=
  match BigNumber_new v with
  | Ok x => x
  | Throw _ => BigNumber.NaN
  end.

(** [x > 7] for the outcome [x] of [decimalPlaces], where [null > 7] is
    false. *)
Definition exceeds (x : option Z) (k : Z) : bool :=
  match x with
  | Some n => k <? n
  | None => false
  end.

Definition isValidAmount (value : value) (allowZero : bool) : bool :=
  if negb (isString value) then false
  else
    match BigNumber_new value with
    | Throw _ => false
    | Ok amount =>
        (* == 0 *)
        if negb allowZero && BigNumber.isZero amount then false
        (* < 0 *)
        else if BigNumber.isNegative amount then false
        (* > Max value *)
        else if BigNumber.greaterThan
                  (BigNumber.times amount (big (Number ONE)))
                  (big (Str (BigNumber.toString (big (Str MAX_INT64)))))
          then false
        (* Decimal places (max 7) *)
        else if exceeds (BigNumber.decimalPlaces amount) 7 then false
        (* Infinity *)
        else if negb (BigNumber.isFinite amount) then false
        (* NaN *)
        else if BigNumber.isNaN amount then false
        else true
    end.

Definition _toXDRAmount (value : value) : result Hyper.t :=
  let* x := BigNumber_new value in
  let amount := BigNumber.times x (big (Number ONE)) in
  Hyper.fromString (BigNumber.toString amount).

Definition _fromXDRAmount (value : Hyper.t) : result string :=
  let* x := BigNumber_new (Str (Hyper.toString value)) in
  Ok (BigNumber.toString (BigNumber.div x (big (Number ONE)))).

Definition _fromXDRPrice (price : xdr.Price.t) : result string :=
  let* n := BigNumber_new (Number (xdr.Price.n price)) in
  let* d := BigNumber_new (Number (xdr.Price.d price)) in
  Ok (BigNumber.toString (BigNumber.div n d)).

(** An attribute of [xdr.Price] is a 32-bit integer: the structure is built
    from numbers. *)
Definition int32_attribute (v : value) : result Z :=
  match v with
  | Number n => Ok n
  | _ => Throw (TypeError "XDR Write Error: not a number")
  end.

Definition _toXDRPrice (price : value) : result xdr.Price.t :=
  let* n := prop price "n" in
  let* d := prop price "d" in
  let* xdrObject :=
    if truthy n && truthy d then
      let* n := int32_attribute n in
      let* d := int32_attribute d in
      Ok (xdr.Price.new n d)
    else
      let* price := BigNumber_new price in
      let* approx := best_r price in
      Ok (xdr.Price.new (fst approx) (snd approx)) in
  if (xdr.Price.n xdrObject <? 0) || (xdr.Price.d xdrObject <? 0)
  then Throw (Error "price must be positive")
  else Ok xdrObject.

(** The [sourceAccount] attribute [setSourceAccount] sets, if any. *)
Definition setSourceAccount (source : value) : result (option AccountID) :=
  if truthy source then
    if negb (isValidAccountId source) then Throw (Error "Source address is invalid")
    else
      let* account := xdrAccountId source in
      Ok (Some account)
  else Ok None.

Definition createAccount (opts : CreateAccountOpts.t) : result xdr.Operation.t :=
  if negb (isValidAccountId (CreateAccountOpts.destination opts))
  then Throw (Error "destination is invalid")
  else if negb (isValidAmount (CreateAccountOpts.startingBalance opts) false)
  then Throw (TypeError
    "startingBalance argument must be of type String and represent a positive number")
  else
    let* destination := xdrAccountId (CreateAccountOpts.destination opts) in
    let* startingBalance := _toXDRAmount (CreateAccountOpts.startingBalance opts) in
    let createAccount := xdr.CreateAccountOp.new _ destination startingBalance in
    let body := xdr.OperationBody.createAccount createAccount in
    let* sourceAccount := setSourceAccount (CreateAccountOpts.source opts) in
    Ok (xdr.Operation.new _ sourceAccount body).

Definition payment (opts : PaymentOpts.t) : result xdr.Operation.t :=
  if negb (isValidAccountId (PaymentOpts.destination opts))
  then Throw (Error "destination is invalid")
  else
    match PaymentOpts.asset opts with
    | None => Throw (Error "Must provide an asset for a payment operation")
    | Some asset =>
        if negb (isValidAmount (PaymentOpts.amount opts) false)
        then Throw (TypeError
          "amount argument must be of type String and represent a positive number")
        else
          let* destination := xdrAccountId (PaymentOpts.destination opts) in
          let asset := toXdrObject asset in
          let* amount := _toXDRAmount (PaymentOpts.amount opts) in
          let payment := xdr.PaymentOp.new _ destination asset amount in
          let body := xdr.OperationBody.payment payment in
          let* sourceAccount := setSourceAccount (PaymentOpts.source opts) in
          Ok (xdr.Operation.new _ sourceAccount body)
    end.

Definition pathPayment (opts : PathPaymentOpts.t) : result xdr.Operation.t :=
  match PathPaymentOpts.sendAsset opts with
  | None => Throw (Error "Must specify a send asset")
  | Some sendAsset =>
      if negb (isValidAmount (PathPaymentOpts.sendMax opts) false)
      then Throw (TypeError
        "sendMax argument must be of type String and represent a positive number")
      else if negb (isValidAccountId (PathPaymentOpts.destination opts))
      then Throw (Error "destination is invalid")
      else
        match PathPaymentOpts.destAsset opts with
        | None => Throw (Error "Must provide a destAsset for a payment operation")
        | Some destAsset =>
            if negb (isValidAmount (PathPaymentOpts.destAmount opts) false)
            then Throw (TypeError
              "destAmount argument must be of type String and represent a positive number")
            else
              let sendAsset := toXdrObject sendAsset in
              let* sendMax := _toXDRAmount (PathPaymentOpts.sendMax opts) in
              let* destination := xdrAccountId (PathPaymentOpts.destination opts) in
              let destAsset := toXdrObject destAsset in
              let* destAmount := _toXDRAmount (PathPaymentOpts.destAmount opts) in
              let path := match PathPaymentOpts.path opts with
                          | Some path => path
                          | None => []
                          end in
              let path := List.map toXdrObject path in
              let payment :=
                xdr.PathPaymentOp.new _ sendAsset sendMax destination destAsset destAmount path in
              let body := xdr.OperationBody.pathPayment payment in
              let* sourceAccount := setSourceAccount (PathPaymentOpts.source opts) in
              Ok (xdr.Operation.new _ sourceAccount body)
        end
  end.

Definition changeTrust (opts : ChangeTrustOpts.t) : result xdr.Operation.t :=
  match ChangeTrustOpts.asset opts with
  | None => Throw (TypeError "Cannot read property 'toXdrObject' of undefined")
  | Some asset =>
      let line := toXdrObject asset in
      if negb (isUndefined (ChangeTrustOpts.limit opts))
         && negb (isValidAmount (ChangeTrustOpts.limit opts) true)
      then Throw (TypeError "limit argument must be of type String and represent a number")
      else
        let* limit :=
          if truthy (ChangeTrustOpts.limit opts)
          then _toXDRAmount (ChangeTrustOpts.limit opts)
          else Hyper.fromString (BigNumber.toString (big (Str MAX_INT64))) in
        (* [attributes.source] is no attribute of the structure *)
        let changeTrustOP := xdr.ChangeTrustOp.new _ line limit in
        let body := xdr.OperationBody.changeTrust changeTrustOP in
        let* sourceAccount := setSourceAccount (ChangeTrustOpts.source opts) in
        Ok (xdr.Operation.new _ sourceAccount body)
  end.

Definition allowTrust (opts : AllowTrustOpts.t) : result xdr.Operation.t :=
  if negb (isValidAccountId (AllowTrustOpts.trustor opts))
  then Throw (Error "trustor is invalid")
  else
    let* trustor := xdrAccountId (AllowTrustOpts.trustor opts) in
    let assetCode := AllowTrustOpts.assetCode opts in
    let* asset :=
      if (String.length assetCode <=? 4)%nat then
        let code := padEnd assetCode 4 NUL in
        Ok (xdr.AllowTrustOpAsset.assetTypeCreditAlphanum4 code)
      else if (String.length assetCode <=? 12)%nat then
        let code := padEnd assetCode 12 NUL in
        Ok (xdr.AllowTrustOpAsset.assetTypeCreditAlphanum12 code)
      else Throw (Error "Asset code must be 12 characters at max.") in
    let allowTrustOp := xdr.AllowTrustOp.new _ trustor asset (AllowTrustOpts.authorize opts) in
    let body := xdr.OperationBody.allowTrust allowTrustOp in
    let* sourceAccount := setSourceAccount (AllowTrustOpts.source opts) in
    Ok (xdr.Operation.new _ sourceAccount body).

(** [!isUndefined(w) && (w < 0 || w > 255)] *)
Definition out_of_range (w : option Z) : bool :=
  match w with
  | Some w => (w <? 0) || (255 <? w)
  | None => false
  end.

Definition setOptions (opts : SetOptionsOpts.t) : result xdr.Operation.t :=
  let* inflationDest :=
    if truthy (SetOptionsOpts.inflationDest opts) then
      if negb (isValidAccountId (SetOptionsOpts.inflationDest opts))
      then Throw (Error "inflationDest is invalid")
      else
        let* account := xdrAccountId (SetOptionsOpts.inflationDest opts) in
        Ok (Some account)
    else Ok None in
  if out_of_range (SetOptionsOpts.masterWeight opts)
  then Throw (Error "masterWeight value must be between 0 and 255")
  else if out_of_range (SetOptionsOpts.lowThreshold opts)
  then Throw (Error "lowThreshold value must be between 0 and 255")
  else if out_of_range (SetOptionsOpts.medThreshold opts)
  then Throw (Error "medThreshold value must be between 0 and 255")
  else if out_of_range (SetOptionsOpts.highThreshold opts)
  then Throw (Error "highThreshold value must be between 0 and 255")
  else
    let* homeDomain :=
      match SetOptionsOpts.homeDomain opts with
      | Undefined => Ok None
      | Str s => Ok (Some s)
      | _ => Throw (TypeError "homeDomain argument must be of type String")
      end in
    let* signer :=
      match SetOptionsOpts.signer opts with
      | Some signer =>
          if negb (isValidAccountId (SignerOpts.address signer))
          then Throw (Error "signer.address is invalid")
          else if out_of_range (SignerOpts.weight signer)
          then Throw (Error "signer.weight value must be between 0 and 255")
          else
            let* pubKey := xdrAccountId (SignerOpts.address signer) in
            Ok (Some (xdr.Signer.new _ pubKey (SignerOpts.weight signer)))
      | None => Ok None
      end in
    let setOptionsOp :=
      xdr.SetOptionsOp.new _ inflationDest
        (SetOptionsOpts.clearFlags opts) (SetOptionsOpts.setFlags opts)
        (SetOptionsOpts.masterWeight opts) (SetOptionsOpts.lowThreshold opts)
        (SetOptionsOpts.medThreshold opts) (SetOptionsOpts.highThreshold opts)
        homeDomain signer in
    let body := xdr.OperationBody.setOption setOptionsOp in
    let* sourceAccount := setSourceAccount (SetOptionsOpts.source opts) in
    Ok (xdr.Operation.new _ sourceAccount body).

(** [opts.selling.toXdrObject()] *)
Definition method_toXdrObject (asset : option Asset) : result XdrAsset :=
  match asset with
  | Some asset => Ok (toXdrObject asset)
  | None => Throw (TypeError "Cannot read property 'toXdrObject' of undefined")
  end.

Definition manageOffer (opts : ManageOfferOpts.t) : result xdr.Operation.t :=
  let* selling := method_toXdrObject (ManageOfferOpts.selling opts) in
  let* buying := method_toXdrObject (ManageOfferOpts.buying opts) in
  if negb (isValidAmount (ManageOfferOpts.amount opts) true)
  then Throw (TypeError
    "amount argument must be of type String and represent a positive number or zero")
  else
    let* amount := _toXDRAmount (ManageOfferOpts.amount opts) in
    if isUndefined (ManageOfferOpts.price opts)
    then Throw (TypeError "price argument is required")
    else
      let* price := _toXDRPrice (ManageOfferOpts.price opts) in
      let* offerId :=
        if negb (isUndefined (ManageOfferOpts.offerId opts))
        then method_toString (ManageOfferOpts.offerId opts)
        else Ok "0" in
      let* offerId := UnsignedHyper.fromString offerId in
      let manageOfferOp := xdr.ManageOfferOp.new _ selling buying amount price offerId in
      let body := xdr.OperationBody.manageOffer manageOfferOp in
      let* sourceAccount := setSourceAccount (ManageOfferOpts.source opts) in
      Ok (xdr.Operation.new _ sourceAccount body).

Definition createPassiveOffer (opts : CreatePassiveOfferOpts.t) : result xdr.Operation.t :=
  let* selling := method_toXdrObject (CreatePassiveOfferOpts.selling opts) in
  let* buying := method_toXdrObject (CreatePassiveOfferOpts.buying opts) in
  if negb (isValidAmount (CreatePassiveOfferOpts.amount opts) false)
  then Throw (TypeError
    "amount argument must be of type String and represent a positive number")
  else
    let* amount := _toXDRAmount (CreatePassiveOfferOpts.amount opts) in
    if isUndefined (CreatePassiveOfferOpts.price opts)
    then Throw (TypeError "price argument is required")
    else
      let* price := _toXDRPrice (CreatePassiveOfferOpts.price opts) in
      let createPassiveOfferOp := xdr.CreatePassiveOfferOp.new _ selling buying amount price in
      let body := xdr.OperationBody.createPassiveOffer createPassiveOfferOp in
      let* sourceAccount := setSourceAccount (CreatePassiveOfferOpts.source opts) in
      Ok (xdr.Operation.new _ sourceAccount body).

Definition accountMerge (opts : AccountMergeOpts.t) : result xdr.Operation.t :=
  if negb (isValidAccountId (AccountMergeOpts.destination opts))
  then Throw (Error "destination is invalid")
  else
    let* destination := xdrAccountId (AccountMergeOpts.destination opts) in
    let body := xdr.OperationBody.accountMerge destination in
    let* sourceAccount := setSourceAccount (AccountMergeOpts.source opts) in
    Ok (xdr.Operation.new _ sourceAccount body).

Definition inflation (opts : InflationOpts.t) : result xdr.Operation.t :=
  let body := xdr.OperationBody.inflation in
  let* sourceAccount := setSourceAccount (InflationOpts.source opts) in
  Ok (xdr.Operation.new _ sourceAccount body).

(** [accountIdtoAddress], the local function of [operationToObject]. *)
Definition accountIdtoAddress (accountId : AccountID) : string :=
  encodeCheck accountId.

(** A number attribute that may be undefined. *)
Definition number_or_undefined (x : option Z) : value :=
  match x with
  | Some n => Number n
  | None => Undefined
  end.

(** Calling an accessor the arm does not have. *)
Definition not_a_function {A : Type} : result A :=
  Throw (TypeError "attrs.destination is not a function").

Definition operationToObject (operation : xdr.Operation.t) : result (gmap string value) :=
  let result : gmap string value := ∅ in
  let result :=
    match xdr.Operation.sourceAccount operation with
    | Some account => <["source" := Str (accountIdtoAddress account)]> result
    | None => result
    end in
  let attrs := xdr.OperationBody.value (xdr.Operation.body operation) in
  let name := xdr.OperationBody.switch (xdr.Operation.body operation) in
  if (name =? "createAccount")%string then
    match attrs with
    | xdr.OperationBody.CreateAccount attrs =>
        let result := <["type" := Str "createAccount"]> result in
        let result :=
          <["destination" := Str (accountIdtoAddress (xdr.CreateAccountOp.destination attrs))]>
            result in
        let* startingBalance := _fromXDRAmount (xdr.CreateAccountOp.startingBalance attrs) in
        Ok (<["startingBalance" := Str startingBalance]> result)
    | _ => not_a_function
    end
  else if (name =? "payment")%string then
    match attrs with
    | xdr.OperationBody.Payment attrs =>
        let result := <["type" := Str "payment"]> result in
        let result :=
          <["destination" := Str (accountIdtoAddress (xdr.PaymentOp.destination attrs))]>
            result in
        let result :=
          <["asset" := AssetObj (fromOperation (xdr.PaymentOp.asset attrs))]> result in
        let* amount := _fromXDRAmount (xdr.PaymentOp.amount attrs) in
        Ok (<["amount" := Str amount]> result)
    | _ => not_a_function
    end
  else if (name =? "pathPayment")%string then
    match attrs with
    | xdr.OperationBody.PathPayment attrs =>
        let result := <["type" := Str "pathPayment"]> result in
        let result :=
          <["sendAsset" := AssetObj (fromOperation (xdr.PathPaymentOp.sendAsset attrs))]>
            result in
        let* sendMax := _fromXDRAmount (xdr.PathPaymentOp.sendMax attrs) in
        let result := <["sendMax" := Str sendMax]> result in
        let result :=
          <["destination" := Str (accountIdtoAddress (xdr.PathPaymentOp.destination attrs))]>
            result in
        let result :=
          <["destAsset" := AssetObj (fromOperation (xdr.PathPaymentOp.destAsset attrs))]>
            result in
        let* destAmount := _fromXDRAmount (xdr.PathPaymentOp.destAmount attrs) in
        let result := <["destAmount" := Str destAmount]> result in
        let path := xdr.PathPaymentOp.path attrs in
        Ok (<["path" := Arr (List.map (fun a => AssetObj (fromOperation a)) path)]> result)
    | _ => not_a_function
    end
  else if (name =? "changeTrust")%string then
    match attrs with
    | xdr.OperationBody.ChangeTrust attrs =>
        let result := <["type" := Str "changeTrust"]> result in
        let result :=
          <["line" := AssetObj (fromOperation (xdr.ChangeTrustOp.line attrs))]> result in
        let* limit := _fromXDRAmount (xdr.ChangeTrustOp.limit attrs) in
        Ok (<["limit" := Str limit]> result)
    | _ => not_a_function
    end
  else if (name =? "allowTrust")%string then
    match attrs with
    | xdr.OperationBody.AllowTrust attrs =>
        let result := <["type" := Str "allowTrust"]> result in
        let result :=
          <["trustor" := Str (accountIdtoAddress (xdr.AllowTrustOp.trustor attrs))]> result in
        let assetCode := xdr.AllowTrustOpAsset.value (xdr.AllowTrustOp.asset attrs) in
        let result := <["assetCode" := Str assetCode]> result in
        let result := <["assetCode" := Str (trimEnd assetCode NUL)]> result in
        Ok (<["authorize" := Bool (xdr.AllowTrustOp.authorize attrs)]> result)
    | _ => not_a_function
    end
  else if (name =? "setOption")%string then
    match attrs with
    | xdr.OperationBody.SetOptions attrs =>
        let result := <["type" := Str "setOptions"]> result in
        let result :=
          match xdr.SetOptionsOp.inflationDest attrs with
          | Some account => <["inflationDest" := Str (accountIdtoAddress account)]> result
          | None => result
          end in
        let result :=
          <["clearFlags" := number_or_undefined (xdr.SetOptionsOp.clearFlags attrs)]> result in
        let result :=
          <["setFlags" := number_or_undefined (xdr.SetOptionsOp.setFlags attrs)]> result in
        let result :=
          <["masterWeight" := number_or_undefined (xdr.SetOptionsOp.masterWeight attrs)]>
            result in
        let result :=
          <["lowThreshold" := number_or_undefined (xdr.SetOptionsOp.lowThreshold attrs)]>
            result in
        let result :=
          <["medThreshold" := number_or_undefined (xdr.SetOptionsOp.medThreshold attrs)]>
            result in
        let result :=
          <["highThreshold" := number_or_undefined (xdr.SetOptionsOp.highThreshold attrs)]>
            result in
        let result :=
          <["homeDomain" := match xdr.SetOptionsOp.homeDomain attrs with
                            | Some s => Str s
                            | None => Undefined
                            end]> result in
        Ok (match xdr.SetOptionsOp.signer attrs with
            | Some s =>
                let signer : gmap string value := ∅ in
                let signer :=
                  <["address" := Str (accountIdtoAddress (xdr.Signer.pubKey s))]> signer in
                let signer :=
                  <["weight" := number_or_undefined (xdr.Signer.weight s)]> signer in
                <["signer" := Obj signer]> result
            | None => result
            end)
    | _ => not_a_function
    end
  else if (name =? "manageOffer")%string then
    match attrs with
    | xdr.OperationBody.ManageOffer attrs =>
        let result := <["type" := Str "manageOffer"]> result in
        let result :=
          <["selling" := AssetObj (fromOperation (xdr.ManageOfferOp.selling attrs))]> result in
        let result :=
          <["buying" := AssetObj (fromOperation (xdr.ManageOfferOp.buying attrs))]> result in
        let* amount := _fromXDRAmount (xdr.ManageOfferOp.amount attrs) in
        let result := <["amount" := Str amount]> result in
        let* price := _fromXDRPrice (xdr.ManageOfferOp.price attrs) in
        let result := <["price" := Str price]> result in
        Ok (<["offerId" := Str (UnsignedHyper.toString (xdr.ManageOfferOp.offerId attrs))]>
              result)
    | _ => not_a_function
    end
  else if (name =? "createPassiveOffer")%string then
    match attrs with
    | xdr.OperationBody.CreatePassiveOffer attrs =>
        let result := <["type" := Str "createPassiveOffer"]> result in
        let result :=
          <["selling" := AssetObj (fromOperation (xdr.CreatePassiveOfferOp.selling attrs))]>
            result in
        let result :=
          <["buying" := AssetObj (fromOperation (xdr.CreatePassiveOfferOp.buying attrs))]>
            result in
        let* amount := _fromXDRAmount (xdr.CreatePassiveOfferOp.amount attrs) in
        let result := <["amount" := Str amount]> result in
        let* price := _fromXDRPrice (xdr.CreatePassiveOfferOp.price attrs) in
        Ok (<["price" := Str price]> result)
    | _ => not_a_function
    end
  else if (name =? "accountMerge")%string then
    match attrs with
    | xdr.OperationBody.Destination attrs =>
        let result := <["type" := Str "accountMerge"]> result in
        Ok (<["destination" := Str (accountIdtoAddress attrs)]> result)
    | _ => not_a_function
    end
  else if (name =? "inflation")%string then
    Ok (<["type" := Str "inflation"]> result)
  else Throw (Error "Unknown operation").

End Class.
End Operation.

(** ** Vocabulary of the round trip

    What it means for a field of the options and the field of the decoded
    object to agree. *)

Section Agreement.
Context `{Collaborators}.



(** Two texts of one decimal. *)
Definition same_amount (given : value) (decoded : option value) : Prop :=
  exists s s' x,
    given = Str s /\ decoded = Some (Str s')
    /\ BigNumber.of_string s = Ok x /\ BigNumber.of_string s' = Ok x.

(** The [source] field of the decoded object. *)
Definition source_field (src : option AccountID) : gmap string value :=
  match src with
  | Some account => <["source" := Str (Operation.accountIdtoAddress account)]> ∅
  | None => ∅
  end.

(** A weight or threshold that is present and outside of [0, 255]. *)
Definition outside_range (w : option Z) : Prop :=
  exists n, w = Some n /\ (n < 0 \/ 255 < n).

(** A weight or threshold that is absent, or within [0, 255]. *)
Definition within_range (w : option Z) : Prop :=
  forall n, w = Some n -> 0 <= n <= 255.

(** The ten discriminants [operationToObject] knows. *)
Definition known_operations : list string :=
  ["createAccount"; "payment"; "pathPayment"; "changeTrust"; "allowTrust";
   "setOption"; "manageOffer"; "createPassiveOffer"; "accountMerge"; "inflation"].

(** A 32-bit price, as the XDR structure holds it. *)
Definition int32_price (p : xdr.Price.t) : Prop :=
  - 2 ^ 31 <= xdr.Price.n p < 2 ^ 31 /\ - 2 ^ 31 <= xdr.Price.d p < 2 ^ 31.


(** A 64-bit amount, as the XDR structure holds it. *)
Definition int64_amount (h : Hyper.t) : Prop := Hyper.MIN_VALUE <= h <= Hyper.MAX_VALUE.

(** A body the XDR layer can hold: the arm is the one of the discriminant,
    the amounts are 64-bit and the prices 32-bit integers. *)
Definition representable (body : xdr.OperationBody.t) : Prop :=
  let name := xdr.OperationBody.switch body in
  match xdr.OperationBody.value body with
  | xdr.OperationBody.CreateAccount op =>
      name = "createAccount" /\ int64_amount (xdr.CreateAccountOp.startingBalance op)
  | xdr.OperationBody.Payment op =>
      name = "payment" /\ int64_amount (xdr.PaymentOp.amount op)
  | xdr.OperationBody.PathPayment op =>
      name = "pathPayment" /\ int64_amount (xdr.PathPaymentOp.sendMax op)
      /\ int64_amount (xdr.PathPaymentOp.destAmount op)
  | xdr.OperationBody.ChangeTrust op =>
      name = "changeTrust" /\ int64_amount (xdr.ChangeTrustOp.limit op)
  | xdr.OperationBody.AllowTrust _ => name = "allowTrust"
  | xdr.OperationBody.SetOptions _ => name = "setOption"
  | xdr.OperationBody.ManageOffer op =>
      name = "manageOffer" /\ int64_amount (xdr.ManageOfferOp.amount op)
      /\ int32_price (xdr.ManageOfferOp.price op)
  | xdr.OperationBody.CreatePassiveOffer op =>
      name = "createPassiveOffer" /\ int64_amount (xdr.CreatePassiveOfferOp.amount op)
      /\ int32_price (xdr.CreatePassiveOfferOp.price op)
  | xdr.OperationBody.Destination _ => name = "accountMerge"
  | xdr.OperationBody.Void => name = "inflation"
  end.

End Agreement.

(** ** A reference instance of the collaborators

    Small stand-ins to evaluate the class on concrete options: an address
    is the letter G followed by the key, an asset is its own XDR form, and
    the approximation of a decimal [c * 10^e] is the unreduced ratio of [c]
    and a power of ten. *)

Module Reference.

Definition decode (s : string) : option string :=
  match s with
  | String "G" key => Some key
  | _ => None
  end.

Definition encode (key : string) : string := String "G" key.

Definition ratio (x : BigNumber.t) : result (Z * Z) :=
  match x with
  | BigNumber.Finite neg c e =>
      if (c =? 0)%N then Throw (Error "Couldn't find approximation")
      else
        let n := if neg then - Z.of_N c else Z.of_N c in
        if 0 <=? e then Ok (n * 10 ^ e, 1) else Ok (n, 10 ^ (- e))
  | _ => Throw (Error "Couldn't find approximation")
  end.

#[export] Instance collaborators : Collaborators := {|
  AccountID := string;
  Asset := string;
  XdrAsset := string;
  decodeCheck := decode;
  encodeCheck := encode;
  toXdrObject := fun a => a;
  fromOperation := fun a => a;
  best_r := ratio
|}.

End Reference.

(** * Facts about digit strings *)

Lemma isDigit_digit_char (d : N) : (d < 10)%N -> isDigit (digit_char d) = true.
Proof.
  intros Hd. unfold isDigit, digit_char, code.
  rewrite N_ascii_embedding by lia.
  apply andb_true_intro; split; apply N.leb_le; lia.
Qed.

Lemma digit_val_digit_char (d : N) : (d < 10)%N -> digit_val (digit_char d) = d.
Proof.
  intros Hd. unfold digit_val, digit_char, code.
  rewrite N_ascii_embedding by lia. lia.
Qed.

Lemma all_digits_app (a b : string) :
  all_digits (a ++ b) = all_digits a && all_digits b.
Proof.
  induction a as [|x a IH]; simpl; [reflexivity|].
  rewrite IH. apply andb_assoc.
Qed.

Lemma length_app (a b : string) :
  String.length (a ++ b) = (String.length a + String.length b)%nat.
Proof. induction a as [|x a IH]; simpl; [reflexivity|]. now rewrite IH. Qed.

Lemma app_cons (x : ascii) (a b : string) : String x a ++ b = String x (a ++ b).
Proof. reflexivity. Qed.

Lemma app_empty (b : string) : EmptyString ++ b = b.
Proof. reflexivity. Qed.

Lemma string_app_assoc (a b c : string) : (a ++ b) ++ c = a ++ (b ++ c).
Proof.
  induction a as [|x a IH]; [reflexivity|].
  rewrite !app_cons, IH. reflexivity.
Qed.

Lemma val_acc_app (a b : string) (acc : N) :
  val_acc (a ++ b) acc = val_acc b (val_acc a acc).
Proof. revert acc. induction a as [|x a IH]; intros acc; simpl; [reflexivity|]. apply IH. Qed.

Lemma val_acc_spec (s : string) (acc : N) :
  val_acc s acc = (acc * 10 ^ N.of_nat (String.length s) + digits_val s)%N.
Proof.
  unfold digits_val. revert acc.
  induction s as [|x s IH]; intros acc.
  - simpl. lia.
  - cbn [val_acc String.length]. rewrite IH. rewrite (IH (10 * 0 + digit_val x)%N).
    rewrite Nat2N.inj_succ, N.pow_succ_r'. lia.
Qed.

Lemma digits_val_app (a b : string) :
  digits_val (a ++ b) = (digits_val a * 10 ^ N.of_nat (String.length b) + digits_val b)%N.
Proof. unfold digits_val at 1. rewrite val_acc_app. apply val_acc_spec. Qed.

Lemma digits_of_acc (fuel : nat) (n : N) (acc : string) :
  digits_of fuel n acc = digits_of fuel n EmptyString ++ acc.
Proof.
  revert n acc. induction fuel as [|f IH]; intros n acc; simpl; [reflexivity|].
  destruct (n <? 10)%N; [reflexivity|].
  rewrite IH. rewrite (IH _ (String _ EmptyString)).
  rewrite string_app_assoc. reflexivity.
Qed.

(** What [digits_of] computes, given enough fuel. *)
Lemma digits_of_spec (fuel : nat) (n : N) :
  (n < 2 ^ N.of_nat (S fuel))%N ->
  let s := digits_of fuel n EmptyString in
  all_digits s = true /\ digits_val s = n
  /\ (n < 10 ^ N.of_nat (String.length s))%N
  /\ (0 < n -> 10 ^ N.of_nat (String.length s - 1) <= n)%N
  /\ (1 <= String.length s)%nat.
Proof.
  revert n. induction fuel as [|f IH]; intros n Hn.
  - assert (n < 2)%N by (simpl in Hn; lia).
    cbn [digits_of]. rewrite N.mod_small by lia. cbn [all_digits String.length].
    rewrite isDigit_digit_char by lia.
    unfold digits_val; cbn [val_acc]. rewrite digit_val_digit_char by lia.
    repeat split; simpl; lia.
  - cbn [digits_of]. destruct (N.ltb_spec n 10) as [Hlt|Hge].
    + rewrite N.mod_small by lia. cbn [all_digits String.length].
      rewrite isDigit_digit_char by lia.
      unfold digits_val; cbn [val_acc]. rewrite digit_val_digit_char by lia.
      repeat split; simpl; lia.
    + rewrite digits_of_acc.
      assert (Hdiv : (n / 10 < 2 ^ N.of_nat (S f))%N).
      { rewrite Nat2N.inj_succ, N.pow_succ_r' in Hn.
        apply N.Div0.div_lt_upper_bound. lia. }
      destruct (IH _ Hdiv) as (Ha & Hv & Hub & Hlb & Hlen). clear IH.
      assert (Hm : (n mod 10 < 10)%N) by (apply N.mod_lt; lia).
      pose proof (N.div_mod' n 10) as Hdm.
      assert (Hq : (0 < n / 10)%N) by (apply N.div_str_pos; lia).
      specialize (Hlb Hq).
      revert Ha Hv Hub Hlb Hlen Hm Hdm Hq. clear Hdiv.
      generalize (digits_of f (n / 10) EmptyString) as s.
      generalize (n mod 10)%N as r. generalize (n / 10)%N as q.
      intros q r s Ha Hv Hub Hlb Hlen Hm Hdm Hq.
      rewrite all_digits_app, digits_val_app, length_app, Ha, Hv.
      cbn [all_digits String.length]. rewrite isDigit_digit_char by assumption.
      unfold digits_val at 1; cbn [val_acc]. rewrite digit_val_digit_char by assumption.
      replace (String.length s + 1 - 1)%nat with (S (String.length s - 1)) by lia.
      replace (String.length s + 1)%nat with (S (String.length s)) by lia.
      rewrite !Nat2N.inj_succ, !N.pow_succ_r'.
      repeat split; simpl; lia.
Qed.

Lemma N_toString_fuel (n : N) : (n < 2 ^ N.of_nat (S (N.to_nat (N.log2 n))))%N.
Proof.
  rewrite Nat2N.inj_succ, N2Nat.id.
  destruct n as [|p]; [simpl; lia|].
  apply N.log2_spec. lia.
Qed.

Lemma N_toString_digits (n : N) : all_digits (N_toString n) = true.
Proof. apply (digits_of_spec _ n (N_toString_fuel n)). Qed.

Lemma N_toString_val (n : N) : digits_val (N_toString n) = n.
Proof. apply (digits_of_spec _ n (N_toString_fuel n)). Qed.

Lemma N_toString_length (n : N) : (1 <= String.length (N_toString n))%nat.
Proof. apply (digits_of_spec _ n (N_toString_fuel n)). Qed.

Lemma N_toString_upper (n : N) : (n < 10 ^ N.of_nat (String.length (N_toString n)))%N.
Proof. apply (digits_of_spec _ n (N_toString_fuel n)). Qed.

Lemma N_toString_lower (n : N) :
  (0 < n)%N -> (10 ^ N.of_nat (String.length (N_toString n) - 1) <= n)%N.
Proof. apply (digits_of_spec _ n (N_toString_fuel n)). Qed.

Lemma is_digits_N_toString (n : N) : is_digits (N_toString n) = true.
Proof.
  pose proof (N_toString_length n) as Hl. pose proof (N_toString_digits n) as Hd.
  unfold is_digits. destruct (N_toString n); [simpl in Hl; lia | exact Hd].
Qed.

(** * Facts about bignumber.js *)

Lemma ndigits_pos (c : N) : 1 <= BigNumber.ndigits c.
Proof. unfold BigNumber.ndigits, strlen. pose proof (N_toString_length c). lia. Qed.

Lemma ndigits_upper (c : N) : Z.of_N c < 10 ^ BigNumber.ndigits c.
Proof.
  unfold BigNumber.ndigits, strlen. pose proof (N_toString_upper c) as H.
  rewrite <- nat_N_Z. change 10 with (Z.of_N 10). rewrite <- N2Z.inj_pow. lia.
Qed.

Lemma ndigits_lower (c : N) : (0 < c)%N -> 10 ^ (BigNumber.ndigits c - 1) <= Z.of_N c.
Proof.
  intros Hc. unfold BigNumber.ndigits, strlen.
  pose proof (N_toString_lower c Hc) as H. pose proof (N_toString_length c) as Hl.
  replace (Z.of_nat (String.length (N_toString c)) - 1)
    with (Z.of_N (N.of_nat (String.length (N_toString c) - 1))) by lia.
  change 10 with (Z.of_N 10). rewrite <- N2Z.inj_pow. lia.
Qed.

Lemma strip_spec (fuel : nat) (c : N) (e : Z) :
  c <> 0%N -> (c < 2 ^ N.of_nat (S fuel))%N ->
  forall c' e', BigNumber.strip fuel c e = (c', e') ->
  c' <> 0%N /\ (c' mod 10)%N <> 0%N /\ e <= e' /\ Z.of_N c = Z.of_N c' * 10 ^ (e' - e).
Proof.
  revert c e. induction fuel as [|f IH]; intros c e Hc Hlt c' e' Hs.
  - simpl in Hs. injection Hs as <- <-.
    assert (c = 1%N) by (simpl in Hlt; lia). subst c.
    rewrite Z.sub_diag. repeat split; try lia. discriminate.
  - cbn [BigNumber.strip] in Hs. destruct (N.eqb_spec (c mod 10) 0) as [Hm|Hm].
    + pose proof (N.div_mod' c 10) as Hdm. rewrite Hm in Hdm.
      assert (Hq : (c / 10)%N <> 0%N) by lia.
      assert (Hlt' : (c / 10 < 2 ^ N.of_nat (S f))%N).
      { rewrite Nat2N.inj_succ, N.pow_succ_r' in Hlt.
        apply N.Div0.div_lt_upper_bound. lia. }
      destruct (IH _ _ Hq Hlt' _ _ Hs) as (H1 & H2 & H3 & H4).
      repeat split; try assumption; try lia.
      replace (e' - e) with (Z.succ (e' - (e + 1))) by lia.
      rewrite Z.pow_succ_r by lia.
      revert Hdm H4. generalize (c / 10)%N as q. intros q Hdm H4. lia.
    + injection Hs as <- <-. rewrite Z.sub_diag. repeat split; try assumption; lia.
Qed.

Lemma strip_id (fuel : nat) (c : N) (e : Z) :
  (c mod 10)%N <> 0%N -> BigNumber.strip fuel c e = (c, e).
Proof.
  intros Hm. destruct fuel as [|f]; [reflexivity|].
  cbn [BigNumber.strip]. destruct (N.eqb_spec (c mod 10) 0); [contradiction|reflexivity].
Qed.

(** The three outcomes of [make] on a non-zero coefficient. *)
Lemma make_cases (neg : bool) (c : N) (e : Z) :
  c <> 0%N ->
  exists c' e',
    c' <> 0%N /\ (c' mod 10)%N <> 0%N /\ e <= e' /\ Z.of_N c = Z.of_N c' * 10 ^ (e' - e)
    /\ ((BigNumber.MAX_EXP < e' + BigNumber.ndigits c' - 1
         /\ BigNumber.make neg c e = BigNumber.Infinity neg)
        \/ (e' + BigNumber.ndigits c' - 1 < BigNumber.MIN_EXP
            /\ BigNumber.make neg c e = BigNumber.Finite neg 0 0)
        \/ (BigNumber.MIN_EXP <= e' + BigNumber.ndigits c' - 1 <= BigNumber.MAX_EXP
            /\ BigNumber.make neg c e = BigNumber.Finite neg c' e')).
Proof.
  intros Hc. unfold BigNumber.make.
  destruct (N.eqb_spec c 0) as [|_]; [contradiction|].
  destruct (BigNumber.strip (N.to_nat (N.log2 c)) c e) as [c' e'] eqn:Hs.
  destruct (strip_spec _ _ _ Hc (N_toString_fuel c) _ _ Hs) as (H1 & H2 & H3 & H4).
  exists c', e'. repeat split; try assumption.
  destruct (Z.ltb_spec BigNumber.MAX_EXP (e' + BigNumber.ndigits c' - 1)).
  - left. split; [assumption|reflexivity].
  - destruct (Z.ltb_spec (e' + BigNumber.ndigits c' - 1) BigNumber.MIN_EXP).
    + right; left. split; [assumption|reflexivity].
    + right; right. split; [split; assumption|reflexivity].
Qed.

Lemma make_zero (neg : bool) (e : Z) : BigNumber.make neg 0 e = BigNumber.Finite neg 0 0.
Proof. reflexivity. Qed.

Lemma make_wf (neg : bool) (c : N) (e : Z) : BigNumber.wf (BigNumber.make neg c e).
Proof.
  destruct (N.eq_dec c 0%N) as [->|Hc]; [rewrite make_zero; left; split; reflexivity|].
  destruct (make_cases neg c e Hc) as (c' & e' & H1 & H2 & _ & _ & [[_ ->]|[[_ ->]|[H ->]]]).
  - exact I.
  - left; split; reflexivity.
  - right. repeat split; try assumption; apply H.
Qed.

(** [make] keeps a value that is well formed already. *)
Lemma make_normal (neg : bool) (c : N) (e : Z) :
  c <> 0%N -> (c mod 10)%N <> 0%N ->
  BigNumber.MIN_EXP <= e + BigNumber.ndigits c - 1 <= BigNumber.MAX_EXP ->
  BigNumber.make neg c e = BigNumber.Finite neg c e.
Proof.
  intros Hc Hm [Hlo Hhi]. unfold BigNumber.make.
  destruct (N.eqb_spec c 0) as [|_]; [contradiction|].
  rewrite strip_id by assumption.
  destruct (Z.ltb_spec BigNumber.MAX_EXP (e + BigNumber.ndigits c - 1)); [lia|].
  destruct (Z.ltb_spec (e + BigNumber.ndigits c - 1) BigNumber.MIN_EXP); [lia|].
  reflexivity.
Qed.

Lemma of_string_base_wf (fuel : nat) (b : N) (s : string) (x : BigNumber.t) :
  BigNumber.of_string_base fuel b s = Ok x -> BigNumber.wf x.
Proof.
  revert s. induction fuel as [|fuel IH]; intros s H; cbn [BigNumber.of_string_base] in H;
    (destruct (BigNumber.isBaseNumeric b s) as [[[neg ip] fp]|];
     [injection H as <-; unfold BigNumber.of_base_literal; destruct fp; apply make_wf|]);
    repeat match type of H with
           | (if ?c then _ else _) = _ => destruct c
           end;
    try (injection H as <-; exact I); try discriminate H.
  eapply IH. exact H.
Qed.

Lemma of_string_wf (s : string) (x : BigNumber.t) :
  BigNumber.of_string s = Ok x -> BigNumber.wf x.
Proof.
  unfold BigNumber.of_string, BigNumber.of_literal. intros H.
  destruct (BigNumber.isNumeric s).
  - injection H as <-. apply make_wf.
  - repeat match type of H with
           | (if ?b then _ else _) = _ => destruct b
           end;
    try (injection H as <-; exact I); try discriminate H.
    destruct (BigNumber.basePrefix _) as [[[neg base] rest]|].
    + eapply of_string_base_wf. exact H.
    + destruct (_ =? _)%string; [discriminate H|].
      destruct (BigNumber.isNumeric _); [|discriminate H].
      injection H as <-. apply make_wf.
Qed.

Lemma of_number_wf (n : Z) (x : BigNumber.t) :
  BigNumber.of_number n = Ok x -> BigNumber.wf x.
Proof.
  unfold BigNumber.of_number. intros H.
  pose proof (make_wf (n <? 0) (Number_value n) 0) as Hwf.
  destruct (BigNumber.make (n <? 0) (Number_value n) 0).
  - injection H as <-. exact I.
  - injection H as <-. exact I.
  - destruct (_ && _); [discriminate|]. injection H as <-. exact Hwf.
Qed.

(** A number up to [2^53] is written as its digits. *)
Lemma Number_value_safe (n : Z) : Z.abs n <= 2 ^ 53 -> Number_value n = Z.abs_N n.
Proof.
  intros Hn. unfold Number_value. destruct (Z.leb_spec (Z.abs n) (2 ^ 53)); [reflexivity|lia].
Qed.

Lemma Number_toString_safe (n : Z) : Z.abs n <= 2 ^ 53 -> Number_toString n = Z_toString n.
Proof.
  intros Hn. unfold Number_toString, Z_toString. rewrite Number_value_safe by assumption.
  assert (Hlen : (strlen (N_toString (Z.abs_N n)) <=? 21) = true).
  { apply Z.leb_le. pose proof (N_toString_lower (Z.abs_N n)) as Hlo.
    destruct (N.eq_dec (Z.abs_N n) 0%N) as [->|Hnz]; [vm_compute; discriminate|].
    specialize (Hlo ltac:(lia)). unfold strlen.
    destruct (Z_le_gt_dec (Z.of_nat (String.length (N_toString (Z.abs_N n)))) 21) as [|Hgt];
      [assumption|exfalso].
    assert (Hpow : (10 ^ 21 <= 10 ^ N.of_nat (String.length (N_toString (Z.abs_N n)) - 1))%N).
    { apply N.pow_le_mono_r; lia. }
    change (2 ^ 53) with 9007199254740992 in Hn.
    change (10 ^ 21)%N with 1000000000000000000000%N in Hpow. lia. }
  rewrite Hlen. reflexivity.
Qed.

(** * The base conversion does not run out of rounds *)

Lemma length_dropWhile (p : ascii -> bool) (s : string) :
  (String.length (dropWhile p s) <= String.length s)%nat.
Proof.
  induction s as [|a r IH]; cbn [dropWhile String.length]; [lia|].
  destruct (p a); cbn [String.length]; lia.
Qed.

Lemma dropWhile_same (p : ascii -> bool) (s : string) :
  String.length (dropWhile p s) = String.length s -> dropWhile p s = s.
Proof.
  destruct s as [|a r]; cbn [dropWhile String.length]; [reflexivity|].
  destruct (p a); [|reflexivity].
  pose proof (length_dropWhile p r). lia.
Qed.

Lemma length_dropWhileEnd (p : ascii -> bool) (s : string) :
  (String.length (dropWhileEnd p s) <= String.length s)%nat.
Proof.
  induction s as [|a r IH]; cbn [dropWhileEnd String.length]; [lia|].
  destruct (dropWhileEnd p r) as [|b r'] eqn:Hr.
  - destruct (p a); cbn [String.length]; lia.
  - cbn [String.length] in *. lia.
Qed.

Lemma dropWhileEnd_same (p : ascii -> bool) (s : string) :
  String.length (dropWhileEnd p s) = String.length s -> dropWhileEnd p s = s.
Proof.
  induction s as [|a r IH]; cbn [dropWhileEnd String.length]; [reflexivity|].
  pose proof (length_dropWhileEnd p r) as Hle.
  destruct (dropWhileEnd p r) as [|b r'] eqn:Hr.
  - destruct (p a); cbn [String.length] in *; intros Hlen.
    + lia.
    + destruct r; [reflexivity|cbn [String.length] in Hlen; lia].
  - cbn [String.length] in *. intros Hlen. rewrite IH by lia. reflexivity.
Qed.

Lemma dropWhileEnd_idem (p : ascii -> bool) (s : string) :
  dropWhileEnd p (dropWhileEnd p s) = dropWhileEnd p s.
Proof.
  induction s as [|a r IH]; cbn [dropWhileEnd]; [reflexivity|].
  destruct (dropWhileEnd p r) as [|b r'] eqn:Hr.
  - destruct (p a) eqn:Ha; cbn [dropWhileEnd]; [reflexivity|]. rewrite Ha. reflexivity.
  - cbn [dropWhileEnd] in *. rewrite IH. reflexivity.
Qed.

Lemma length_strip (s : string) :
  (String.length (BigNumber.strip_whitespaceOrPlus s) <= String.length s)%nat
  /\ (String.length (BigNumber.strip_whitespaceOrPlus s) = String.length s ->
      BigNumber.strip_whitespaceOrPlus s = s).
Proof.
  unfold BigNumber.strip_whitespaceOrPlus.
  pose proof (length_dropWhile isWhitespace s) as Hlead.
  pose proof (dropWhile_same isWhitespace s) as Hsame.
  set (lead := match dropWhile isWhitespace s with
               | String "+" (String a r as rest) =>
                   if isWordChar a || BigNumber.isDot a then rest else String "+" rest
               | s' => s'
               end).
  assert (Hl : (String.length lead <= String.length (dropWhile isWhitespace s))%nat
               /\ (String.length lead = String.length (dropWhile isWhitespace s) ->
                   lead = dropWhile isWhitespace s)).
  { unfold lead. destruct (dropWhile isWhitespace s) as [|c t]; [split; [lia|reflexivity]|].
    destruct c as [[] [] [] [] [] [] [] []]; try (split; [lia|reflexivity]).
    destruct t as [|a r]; [split; [lia|reflexivity]|].
    destruct (isWordChar a || BigNumber.isDot a); cbn [String.length];
      split; try lia; reflexivity. }
  destruct Hl as [Hl1 Hl2].
  pose proof (length_dropWhileEnd isWhitespace lead) as He.
  pose proof (dropWhileEnd_same isWhitespace lead) as Hes.
  split; [lia|]. intros Hlen.
  rewrite Hes by lia. rewrite Hl2 by lia. apply Hsame. lia.
Qed.

Lemma isWordChar_not_dot (a : ascii) : isWordChar a = true -> BigNumber.isDot a = false.
Proof. destruct a as [[] [] [] [] [] [] [] []]; vm_compute; congruence. Qed.

Lemma split_minus_cases (s : string) (neg : bool) (body : string) :
  split_minus s = (neg, body) ->
  (neg = true /\ s = String "-" body) \/ (neg = false /\ s = body).
Proof.
  destruct s as [|a r]; cbn [split_minus].
  - intros [= <- <-]. right. split; reflexivity.
  - destruct (Ascii.eqb_spec a "-") as [->|_]; intros [= <- <-];
      [left|right]; split; reflexivity.
Qed.

(** The removal of a prefix leaves the text as it is, or shortens it and
    leaves a text that starts with no dot. *)
Lemma basePrefix_shorter (s : string) (neg : bool) (base : N) (rest : string) :
  BigNumber.basePrefix s = Some (neg, base, rest) ->
  (String.length (if neg then String "-" rest else rest) < String.length s)%nat
  /\ exists a r, (if neg then String "-" rest else rest) = String a r
                 /\ BigNumber.isDot a = false.
Proof.
  unfold BigNumber.basePrefix. destruct (split_minus s) as [neg' body] eqn:Hsplit.
  destruct body as [|z body]; [discriminate|].
  destruct z as [[] [] [] [] [] [] [] []]; try discriminate.
  destruct body as [|p [|a r]]; try discriminate.
  destruct (isWordChar a) eqn:Ha; [|discriminate]. cbn [andb].
  destruct (string_all _ r); [|discriminate].
  destruct (BigNumber.radix_of p); [|discriminate].
  intros [= <- <- <-].
  destruct (split_minus_cases _ _ _ Hsplit) as [[-> ->]|[-> ->]]; cbn [String.length].
  - split; [lia|]. exists "-"%char, (String a r). split; reflexivity.
  - split; [lia|]. exists a, r. split; [reflexivity|apply isWordChar_not_dot, Ha].
Qed.

Lemma break_length (p : ascii -> bool) (s x y : string) :
  break p s = (x, Some y) ->
  String.length s = (String.length x + 1 + String.length y)%nat
  /\ match x with String a _ => p a = false | EmptyString => True end.
Proof.
  revert x y. induction s as [|a r IH]; intros x y; cbn [break]; [discriminate|].
  destruct (p a) eqn:Ha.
  - intros [= <- <-]. cbn [String.length]. split; [lia|exact I].
  - destruct (break p r) as [x' y'] eqn:Hr. intros [= <- ->].
    destruct (IH x' y eq_refl) as [Hlen _]. cbn [String.length]. split; [lia|assumption].
Qed.

Lemma dotAfter_shorter (s : string) :
  BigNumber.dotAfter s = s
  \/ ((String.length (BigNumber.dotAfter s) < String.length s)%nat
      /\ exists a r, BigNumber.dotAfter s = String a r /\ BigNumber.isDot a = false).
Proof.
  unfold BigNumber.dotAfter. destruct (break BigNumber.isDot s) as [x y] eqn:Hb.
  destruct x as [|a r]; [left; reflexivity|].
  destruct y as [[|]|]; try (left; reflexivity).
  destruct (break_length _ _ _ _ Hb) as [Hlen Ha]. right.
  cbn [String.length] in *. split; [lia|]. exists a, r. split; [reflexivity|assumption].
Qed.

Lemma dotBefore_cases (s : string) :
  BigNumber.dotBefore s = s
  \/ exists a r, s = String "." (String a r) /\ BigNumber.dotBefore s = String "0" s.
Proof.
  unfold BigNumber.dotBefore. destruct s as [|c [|a r]]; try (left; reflexivity).
  - destruct c as [[] [] [] [] [] [] [] []]; left; reflexivity.
  - destruct c as [[] [] [] [] [] [] [] []]; try (left; reflexivity).
    destruct (string_all _ _); [|left; reflexivity].
    right. exists a, r. split; reflexivity.
Qed.

(** A round of [parseNumeric] returns the text it was given, or a shorter
    one, or the text with a zero before its leading dot, on which the next
    round stops. *)
Lemma base_retry_cases (b : N) (s : string) :
  BigNumber.base_retry b s = s
  \/ (String.length (BigNumber.base_retry b s) < String.length s)%nat
  \/ BigNumber.base_retry b (BigNumber.base_retry b s) = BigNumber.base_retry b s.
Proof.
  destruct (length_strip s) as [Hstrip Hsame].
  set (t := BigNumber.strip_whitespaceOrPlus s) in *.
  set (u := match BigNumber.basePrefix t with
            | Some (neg, base, rest) =>
                if (base =? b)%N then (if neg then String "-" rest else rest) else t
            | None => t
            end).
  assert (Hr : BigNumber.base_retry b s = BigNumber.dotBefore (BigNumber.dotAfter u))
    by reflexivity.
  assert (Hu : u = t
               \/ ((String.length u < String.length t)%nat
                   /\ exists a r, u = String a r /\ BigNumber.isDot a = false)).
  { unfold u. destruct (BigNumber.basePrefix t) as [[[neg base] rest]|] eqn:Hp;
      [|left; reflexivity].
    destruct (base =? b)%N; [|left; reflexivity].
    right. apply (basePrefix_shorter _ _ _ _ Hp). }
  clearbody u.
  destruct (dotBefore_cases (BigNumber.dotAfter u)) as [Hid|(a & r & Hv & Hw)].
  - rewrite Hr, Hid.
    destruct (dotAfter_shorter u) as [Hv|[Hv _]], Hu as [Hu|[Hu _]].
    + rewrite Hv, Hu. destruct (Nat.eq_dec (String.length t) (String.length s)) as [He|Hne].
      * left. apply Hsame. assumption.
      * right; left. lia.
    + right; left. rewrite Hv. lia.
    + right; left. subst u. lia.
    + right; left. lia.
  - right; right.
    assert (Hvu : BigNumber.dotAfter u = u).
    { destruct (dotAfter_shorter u) as [|[_ (a' & r' & Hv' & Ha')]]; [assumption|].
      rewrite Hv in Hv'. injection Hv' as <- _. discriminate Ha'. }
    rewrite Hvu in Hv, Hw.
    assert (Hut : u = t).
    { destruct Hu as [|[_ (a' & r' & Hu' & Ha')]]; [assumption|].
      rewrite Hu' in Hv. injection Hv as -> _. discriminate Ha'. }
    subst u. rewrite Hr, Hvu, Hw.
    assert (Htrim : dropWhileEnd isWhitespace t = t).
    { unfold t, BigNumber.strip_whitespaceOrPlus. apply dropWhileEnd_idem. }
    clearbody t. subst t.
    unfold BigNumber.base_retry.
    assert (Hs : BigNumber.strip_whitespaceOrPlus (String "0" (String "." (String a r)))
                 = String "0" (String "." (String a r))).
    { unfold BigNumber.strip_whitespaceOrPlus. cbn [dropWhile].
      change (isWhitespace "0") with false. cbv iota.
      change (dropWhileEnd isWhitespace (String "0" (String "." (String a r))))
        with (match dropWhileEnd isWhitespace (String "." (String a r)) with
              | EmptyString => if isWhitespace "0" then EmptyString else String "0" EmptyString
              | r' => String "0" r'
              end).
      rewrite Htrim. reflexivity. }
    rewrite Hs.
    assert (Hp : BigNumber.basePrefix (String "0" (String "." (String a r))) = None).
    { unfold BigNumber.basePrefix. cbn [split_minus].
      change (("0" =? "-")%char) with false. cbv iota.
      change (BigNumber.radix_of ".") with (@None N).
      destruct (isWordChar a && _); reflexivity. }
    rewrite Hp. unfold BigNumber.dotAfter. cbn [break].
    change (BigNumber.isDot "0") with false. change (BigNumber.isDot ".") with true.
    cbv iota. reflexivity.
Qed.

Lemma of_string_base_stuck (b : N) (s : string) (f1 f2 : nat) :
  BigNumber.base_retry b s = s ->
  BigNumber.of_string_base f1 b s = BigNumber.of_string_base f2 b s.
Proof.
  intros Hs. destruct f1, f2; cbn [BigNumber.of_string_base]; rewrite Hs, String.eqb_refl;
    reflexivity.
Qed.

(** Two rounds more than the text has characters are enough: with them
    the constructor never stops for want of fuel. *)
Lemma of_string_base_fuel (b : N) (s : string) (f : nat) :
  (String.length s + 2 <= f)%nat ->
  BigNumber.of_string_base f b s = BigNumber.of_string_base (String.length s + 2) b s.
Proof.
  assert (Hgen : forall (n : nat) (s : string) (f1 f2 : nat),
            (String.length s <= n)%nat ->
            (String.length s + 2 <= f1)%nat -> (String.length s + 2 <= f2)%nat ->
            BigNumber.of_string_base f1 b s = BigNumber.of_string_base f2 b s).
  { clear s f. induction n as [|n IH]; intros s f1 f2 Hn H1 H2;
      (destruct f1 as [|f1]; [lia|]); (destruct f2 as [|f2]; [lia|]);
      cbn [BigNumber.of_string_base];
      (destruct (BigNumber.isBaseNumeric b s); [reflexivity|]);
      repeat match goal with
             | |- (if ?c then Ok _ else _) = (if ?c then Ok _ else _) =>
                 destruct c; [reflexivity|]
             end;
      (destruct (String.eqb_spec (BigNumber.base_retry b s) s) as [|Hne]; [reflexivity|]);
      destruct (base_retry_cases b s) as [Hsame|[Hshort|Hstuck]];
      try contradiction; try (apply of_string_base_stuck, Hstuck).
    - lia.
    - apply IH; lia. }
  intros Hf. apply (Hgen (String.length s)); lia.
Qed.

(** The constructor on literals with a radix prefix, and the text of
    numbers above [2^53]. *)
Example of_string_radix :
  BigNumber.of_string "0x10" = Ok (BigNumber.Finite false 16 0)
  /\ BigNumber.of_string "0b11" = Ok (BigNumber.Finite false 3 0)
  /\ BigNumber.of_string "0o17" = Ok (BigNumber.Finite false 15 0)
  /\ BigNumber.of_string "-0X1f" = Ok (BigNumber.Finite true 31 0)
  /\ BigNumber.of_string "0xff.8" = Ok (BigNumber.Finite false 2555 (-1))
  /\ BigNumber.of_string " 0x10 " = Ok (BigNumber.Finite false 16 0)
  /\ BigNumber.of_string "0x0x10" = Ok (BigNumber.Finite false 16 0)
  /\ BigNumber.of_string "0x10." = Ok (BigNumber.Finite false 16 0)
  /\ BigNumber.of_string "0xInfinity" = Ok (BigNumber.Infinity false)
  /\ BigNumber.of_string "0x0" = Ok (BigNumber.Finite false 0 0)
  /\ BigNumber.of_string "0b0.000000000000000000001"
     = Ok (BigNumber.Finite false 47683715820313 (-20))
  /\ BigNumber.of_string "0xg" = Throw (BigNumber.not_a_base_number 16 "g")
  /\ BigNumber.of_string "0b0x1" = Throw (BigNumber.not_a_base_number 2 "0x1")
  /\ BigNumber.of_string "0x.8" = Throw (BigNumber.not_a_number "0x.8")
  /\ BigNumber.of_string "0x" = Throw (BigNumber.not_a_number "0x").
Proof. repeat split; vm_compute; reflexivity. Qed.

Example Number_toString_doubles :
  Number_toString (2 ^ 53) = "9007199254740992"
  /\ Number_toString (2 ^ 60) = "1152921504606847000"
  /\ Number_toString (2 ^ 63) = "9223372036854776000"
  /\ Number_toString (2 ^ 64) = "18446744073709552000"
  /\ Number_toString (- 2 ^ 63) = "-9223372036854776000"
  /\ Number_toString (10 ^ 21) = "1e+21"
  /\ Number_toString (2 ^ 70) = "1.1805916207174113e+21"
  /\ Number_toString 99999999999999991611392 = "1e+23"
  /\ Number_toString (2 ^ 1024 - 2 ^ 971) = "1.7976931348623157e+308"
  /\ is_double (2 ^ 63) = true
  /\ is_double (2 ^ 53 + 1) = false
  /\ BigNumber.of_number (10 ^ 21) = Ok (BigNumber.Finite false 1 21)
  /\ BigNumber.of_number 99999999999999991611392 = Ok (BigNumber.Finite false 1 23).
Proof. repeat split; vm_compute; reflexivity. Qed.

(** * Amounts *)

Section Amounts.
Context `{Collaborators}.

Lemma big_ONE : Operation.big (Number ONE) = BigNumber.Finite false 1 7.
Proof. vm_compute. reflexivity. Qed.

Lemma big_MAX_INT64 :
  Operation.big (Str (BigNumber.toString (Operation.big (Str MAX_INT64))))
  = BigNumber.Finite false 9223372036854775807 0.
Proof. vm_compute. reflexivity. Qed.

(** Scaling a well-formed decimal by a power of ten. *)
Lemma times_pow10 (neg : bool) (c : N) (e k : Z) :
  BigNumber.wf (BigNumber.Finite neg c e) -> c <> 0%N ->
  BigNumber.times (BigNumber.Finite neg c e) (BigNumber.Finite false 1 k)
  = if BigNumber.MAX_EXP <? e + k + BigNumber.ndigits c - 1 then BigNumber.Infinity neg
    else if e + k + BigNumber.ndigits c - 1 <? BigNumber.MIN_EXP then BigNumber.Finite neg 0 0
    else BigNumber.Finite neg c (e + k).
Proof.
  intros [[? _]|(_ & Hm & _)] Hc; [contradiction|].
  cbn [BigNumber.times]. rewrite xorb_false_r, N.mul_1_r.
  unfold BigNumber.make.
  destruct (N.eqb_spec c 0) as [|_]; [contradiction|].
  rewrite strip_id by assumption. reflexivity.
Qed.

Lemma times_zero (neg : bool) (e k : Z) :
  BigNumber.times (BigNumber.Finite neg 0 e) (BigNumber.Finite false 1 k)
  = BigNumber.Finite neg 0 0.
Proof. cbn [BigNumber.times]. rewrite xorb_false_r. reflexivity. Qed.

Lemma pow10_pos (k : Z) : 0 <= k -> 0 < 10 ^ k.
Proof. intros. apply Z.pow_pos_nonneg; lia. Qed.

(** An integer decimal of twenty digits or more is above the 64-bit range. *)
Lemma large_exceeds (c : N) (k : Z) :
  (0 < c)%N -> 0 <= k -> 19 <= k + BigNumber.ndigits c - 1 ->
  10000000000000000000 <= Z.of_N c * 10 ^ k.
Proof.
  intros Hc Hk Hs.
  pose proof (ndigits_lower c Hc) as Hl. pose proof (ndigits_pos c) as Hp.
  assert (H19 : 10 ^ 19 <= 10 ^ (k + (BigNumber.ndigits c - 1))).
  { apply Z.pow_le_mono_r; lia. }
  rewrite Z.pow_add_r in H19 by lia.
  pose proof (pow10_pos k Hk) as Hk'.
  assert (10 ^ k * 10 ^ (BigNumber.ndigits c - 1) <= Z.of_N c * 10 ^ k) by nia.
  change (10 ^ 19) with 10000000000000000000 in H19. lia.
Qed.

(** The checks of [isValidAmount] on a finite well-formed decimal. *)
Lemma isValidAmount_finite (s : string) (neg : bool) (c : N) (e : Z) (allowZero : bool) :
  BigNumber.of_string s = Ok (BigNumber.Finite neg c e) ->
  Operation.isValidAmount (Str s) allowZero = true <->
  neg = false /\ (c <> 0%N \/ allowZero = true) /\ -7 <= e
  /\ Z.of_N c * 10 ^ (e + 7) <= 9223372036854775807.
Proof.
  intros Hs. pose proof (of_string_wf _ _ Hs) as Hwf.
  unfold Operation.isValidAmount. cbn [isString negb BigNumber_new js_toString].
  rewrite Hs, big_ONE, big_MAX_INT64.
  cbn [BigNumber.isZero BigNumber.isNegative BigNumber.isFinite BigNumber.isNaN
       BigNumber.decimalPlaces Operation.exceeds negb].
  destruct (N.eqb_spec c 0) as [->|Hc].
  - destruct Hwf as [[_ ->]|[? _]]; [|contradiction].
    rewrite times_zero. destruct allowZero, neg; cbn; split;
      try discriminate; try (intros (? & [?|?] & _); congruence); try tauto.
    intros _. repeat split; try lia.
  - rewrite andb_false_r. destruct neg.
    { split; [discriminate|]. intros (? & _); discriminate. }
    rewrite times_pow10 by assumption.
    destruct Hwf as [[? _]|(_ & Hm & Hlo & Hhi)]; [contradiction|].
    assert (Hpos : (0 < c)%N) by lia.
    destruct (Z.ltb_spec BigNumber.MAX_EXP (e + 7 + BigNumber.ndigits c - 1)) as [Hbig|Hbig].
    + cbn. split; [discriminate|]. intros (_ & _ & He & Hle). exfalso.
      assert (19 <= e + 7 + BigNumber.ndigits c - 1) by (unfold BigNumber.MAX_EXP in Hbig; lia).
      pose proof (large_exceeds c (e + 7) Hpos ltac:(lia) ltac:(lia)). lia.
    + destruct (Z.ltb_spec (e + 7 + BigNumber.ndigits c - 1) BigNumber.MIN_EXP) as [Hsm|_].
      { exfalso. lia. }
      unfold BigNumber.greaterThan, BigNumber.compare.
      destruct (N.eqb_spec c 0) as [|_]; [contradiction|].
      cbn [N.eqb Bool.eqb negb].
      unfold BigNumber.compare_abs.
      destruct (Z.ltb_spec 7 (Z.max 0 (- e))) as [Hdp|Hdp].
      * destruct (Z.compare _ _); (split; [discriminate|]); intros (_ & _ & He & _); lia.
      * assert (Hmin : Z.min (e + 7) 0 = 0) by lia. rewrite Hmin, !Z.sub_0_r.
        change (10 ^ 0) with 1. rewrite Z.mul_1_r.
        change (Z.of_N 9223372036854775807) with 9223372036854775807.
        destruct (Z.compare_spec (Z.of_N c * 10 ^ (e + 7)) 9223372036854775807) as [Heq|Hlt|Hgt].
        -- split; [intros _|reflexivity]. repeat split; try lia; now left.
        -- split; [intros _|reflexivity]. repeat split; try lia; now left.
        -- split; [discriminate|]. intros (_ & _ & _ & Hle). lia.
Qed.

Lemma isValidAmount_nonfinite (s : string) (x : BigNumber.t) (allowZero : bool) :
  BigNumber.of_string s = Ok x -> BigNumber.isFinite x = false ->
  Operation.isValidAmount (Str s) allowZero = false.
Proof.
  intros Hs Hx. unfold Operation.isValidAmount.
  cbn [isString negb BigNumber_new js_toString]. rewrite Hs, big_ONE, big_MAX_INT64.
  destruct x as [|[|]|]; try discriminate; destruct allowZero; reflexivity.
Qed.

Lemma isValidAmount_throw (s : string) (e : exn) (allowZero : bool) :
  BigNumber.of_string s = Throw e -> Operation.isValidAmount (Str s) allowZero = false.
Proof.
  intros Hs. unfold Operation.isValidAmount.
  cbn [isString negb BigNumber_new js_toString]. rewrite Hs. reflexivity.
Qed.

Lemma isValidAmount_isString (v : value) (allowZero : bool) :
  Operation.isValidAmount v allowZero = true -> exists s, v = Str s.
Proof.
  unfold Operation.isValidAmount. destruct v; cbn [isString negb]; try discriminate.
  intros _. eexists; reflexivity.
Qed.

(** On a well-formed decimal, [scaled] says that at most seven decimal
    places are in use. *)
Lemma scaled_finite (neg : bool) (c : N) (e : Z) (n : Z) :
  BigNumber.wf (BigNumber.Finite neg c e) ->
  scaled (BigNumber.Finite neg c e) n <->
  -7 <= e /\ n = (if neg then - Z.of_N c else Z.of_N c) * 10 ^ (e + 7).
Proof.
  intros Hwf. unfold scaled. cbv zeta.
  destruct (Z.leb_spec 0 (e + 7)) as [He|He].
  - split; [intros ->; split; [lia|reflexivity]|intros [_ ->]; reflexivity].
  - split; [|intros [? _]; lia]. intros Hv. exfalso.
    destruct Hwf as [[_ ->]|(Hc & Hm & _)]; [lia|].
    apply Hm.
    assert (Hk : 10 ^ (- (e + 7)) = 10 * 10 ^ (- (e + 7) - 1)).
    { rewrite <- Z.pow_succ_r by lia. f_equal. lia. }
    rewrite Hk in Hv.
    assert (Hc10 : Z.of_N c = 10 * Z.abs (n * 10 ^ (- (e + 7) - 1))).
    { destruct neg; lia. }
    apply N2Z.inj. rewrite N2Z.inj_mod. rewrite Hc10.
    rewrite Z.mul_comm. apply Z.mod_mul. lia.
Qed.

Lemma scaled_unique (x : BigNumber.t) (n m : Z) :
  BigNumber.wf x -> scaled x n -> scaled x m -> n = m.
Proof.
  destruct x as [| |neg c e]; try contradiction.
  intros Hwf Hn Hm. apply scaled_finite in Hn, Hm; try assumption.
  destruct Hn as [_ ->], Hm as [_ ->]. reflexivity.
Qed.

Lemma isValidAmount_scaled (s : string) (allowZero : bool) :
  Operation.isValidAmount (Str s) allowZero = true <->
  exists x n,
    BigNumber.of_string s = Ok x /\ BigNumber.isNegative x = false /\ scaled x n
    /\ n <= 9223372036854775807 /\ (allowZero = true \/ n <> 0).
Proof.
  destruct (BigNumber.of_string s) as [x|err] eqn:Hs.
  2:{ rewrite (isValidAmount_throw _ _ _ Hs).
      split; [discriminate|]. intros (x & n & Hx & _). discriminate. }
  pose proof (of_string_wf _ _ Hs) as Hwf.
  destruct x as [|neg|neg c e].
  1,2: rewrite (isValidAmount_nonfinite _ _ _ Hs eq_refl);
       (split; [discriminate|]); intros (x & n & Hx & _ & Hsc & _);
       injection Hx as <-; contradiction.
  rewrite (isValidAmount_finite _ _ _ _ _ Hs). split.
  - intros (-> & Hz & He & Hle).
    exists (BigNumber.Finite false c e), (Z.of_N c * 10 ^ (e + 7)).
    split; [reflexivity|]. split; [reflexivity|].
    split; [apply scaled_finite; [assumption|split; [assumption|reflexivity]]|].
    split; [assumption|].
    destruct Hz as [Hc|Hz]; [right|left; assumption].
    pose proof (pow10_pos (e + 7) ltac:(lia)). nia.
  - intros (x & n & Hx & Hneg & Hsc & Hle & Hz). injection Hx as <-.
    cbn in Hneg. subst neg.
    apply scaled_finite in Hsc; [|assumption]. destruct Hsc as [He ->].
    split; [reflexivity|]. split; [|split; assumption].
    destruct Hz as [Hz|Hz]; [right; assumption|left].
    intros ->. apply Hz. reflexivity.
Qed.

End Amounts.

(** * Decimal texts *)

Lemma normal_unique (c c' : N) (a b : Z) :
  0 <= a -> 0 <= b -> (c mod 10)%N <> 0%N -> (c' mod 10)%N <> 0%N ->
  Z.of_N c * 10 ^ a = Z.of_N c' * 10 ^ b -> c = c' /\ a = b.
Proof.
  assert (Hdiv : forall (x y : N) (p q : Z), 0 <= p -> p < q ->
            Z.of_N x * 10 ^ p = Z.of_N y * 10 ^ q -> (x mod 10)%N = 0%N).
  { intros x y p q Hp Hq Heq.
    replace q with (p + Z.succ (q - p - 1)) in Heq by lia.
    rewrite Z.pow_add_r, Z.pow_succ_r in Heq by lia.
    pose proof (pow10_pos p Hp) as Hpos.
    assert (Hx : Z.of_N x = Z.of_N y * 10 ^ (q - p - 1) * 10) by nia.
    apply N2Z.inj. rewrite N2Z.inj_mod, Hx. apply Z.mod_mul. lia. }
  intros Ha Hb Hc Hc' Heq.
  destruct (Z.lt_trichotomy a b) as [Hlt|[->|Hgt]].
  - exfalso. apply Hc. exact (Hdiv c c' a b Ha Hlt Heq).
  - split; [|reflexivity]. pose proof (pow10_pos b Hb). nia.
  - exfalso. apply Hc'. exact (Hdiv c' c b a Hb Hgt (eq_sym Heq)).
Qed.

(** [make] strips the zeros a power of ten adds to a coefficient. *)
Lemma make_shift (neg : bool) (c : N) (e : Z) (k : N) :
  BigNumber.wf (BigNumber.Finite neg c e) ->
  BigNumber.make neg (c * 10 ^ k) (e - Z.of_N k) = BigNumber.Finite neg c e.
Proof.
  intros [[-> ->]|(Hc & Hm & Hr)]; [reflexivity|].
  assert (Hck : (c * 10 ^ k)%N <> 0%N).
  { apply N.neq_mul_0. split; [assumption|]. apply N.pow_nonzero. discriminate. }
  destruct (make_cases neg _ (e - Z.of_N k) Hck)
    as (c' & e' & H1 & H2 & H3 & H4 & Hcases).
  rewrite N2Z.inj_mul, N2Z.inj_pow in H4. change (Z.of_N 10) with 10 in H4.
  destruct (normal_unique c c' (Z.of_N k) (e' - (e - Z.of_N k))) as [<- He];
    try assumption; try lia.
  assert (e' = e) by lia. subst e'.
  destruct Hcases as [[? _]|[[? _]|[_ ->]]]; try lia. reflexivity.
Qed.

Lemma all_digits_replicate (k : nat) : all_digits (zeros k) = true.
Proof. induction k as [|k IH]; [reflexivity|]. exact IH. Qed.

Lemma length_replicate (k : nat) (ch : ascii) : String.length (replicate_char k ch) = k.
Proof. induction k as [|k IH]; [reflexivity|]. simpl. now rewrite IH. Qed.

Lemma digits_val_zeros (k : nat) : digits_val (zeros k) = 0%N.
Proof.
  unfold digits_val. induction k as [|k IH]; [reflexivity|].
  unfold zeros in *. cbn [replicate_char val_acc]. exact IH.
Qed.

Lemma digits_val_zeros_app (k : nat) (s : string) :
  digits_val (zeros k ++ s) = digits_val s.
Proof. rewrite digits_val_app, digits_val_zeros. lia. Qed.

Lemma digits_val_app_zeros (s : string) (k : nat) :
  digits_val (s ++ zeros k) = (digits_val s * 10 ^ N.of_nat k)%N.
Proof. rewrite digits_val_app, digits_val_zeros. unfold zeros. rewrite length_replicate. lia. Qed.

Lemma take_drop (k : nat) (s : string) : take k s ++ drop k s = s.
Proof.
  revert s. induction k as [|k IH]; intros [|a s]; try reflexivity.
  cbn [take drop]. rewrite app_cons, IH. reflexivity.
Qed.

Lemma all_digits_take (k : nat) (s : string) : all_digits s = true -> all_digits (take k s) = true.
Proof.
  revert s. induction k as [|k IH]; intros [|a s]; try reflexivity.
  cbn [take all_digits]. intros [Ha Hs]%andb_prop. rewrite Ha. apply IH, Hs.
Qed.

Lemma all_digits_drop (k : nat) (s : string) : all_digits s = true -> all_digits (drop k s) = true.
Proof.
  revert s. induction k as [|k IH]; intros [|a s]; try (intros; assumption).
  cbn [drop all_digits]. intros [Ha Hs]%andb_prop. apply IH, Hs.
Qed.

Lemma length_take (k : nat) (s : string) :
  (k <= String.length s)%nat -> String.length (take k s) = k.
Proof.
  revert s. induction k as [|k IH]; intros [|a s]; simpl; try lia.
  intros Hk. rewrite IH; lia.
Qed.

Lemma length_drop (k : nat) (s : string) :
  String.length (drop k s) = (String.length s - k)%nat.
Proof. revert s. induction k as [|k IH]; intros [|a s]; simpl; try lia. apply IH. Qed.

Lemma is_digits_all (s : string) : is_digits s = true -> all_digits s = true.
Proof. destruct s; [discriminate|]. intros Hs; exact Hs. Qed.

Lemma is_digits_app_l (a b : string) :
  is_digits a = true -> all_digits b = true -> is_digits (a ++ b) = true.
Proof.
  destruct a as [|x a]; [discriminate|]. intros Ha Hb.
  rewrite app_cons. unfold is_digits in *. cbn [all_digits] in *.
  rewrite all_digits_app. apply andb_prop in Ha as [-> ->]. exact Hb.
Qed.

(** A digit is none of the characters a literal is split at. *)
Lemma isDigit_not_special (a : ascii) :
  isDigit a = true ->
  BigNumber.isE a = false /\ BigNumber.isDot a = false /\ a <> "-"%char /\ a <> "+"%char.
Proof.
  unfold isDigit, BigNumber.isE, BigNumber.isDot.
  intros [H1 H2]%andb_prop. apply N.leb_le in H1, H2.
  repeat split.
  - apply orb_false_intro; apply N.eqb_neq; lia.
  - apply N.eqb_neq; lia.
  - intros ->. vm_compute in H1. contradiction.
  - intros ->. vm_compute in H1. contradiction.
Qed.

Lemma break_digits (p : ascii -> bool) (a b : string) :
  (forall ch, isDigit ch = true -> p ch = false) ->
  all_digits a = true ->
  break p (a ++ b) = (a ++ fst (break p b), snd (break p b)).
Proof.
  intros Hp. induction a as [|x a IH]; intros Ha.
  - rewrite app_empty. destruct (break p b); reflexivity.
  - cbn [all_digits] in Ha. apply andb_prop in Ha as [Hx Ha].
    rewrite app_cons. cbn [break]. rewrite (Hp _ Hx), (IH Ha). reflexivity.
Qed.

Lemma break_all_digits (p : ascii -> bool) (a : string) :
  (forall ch, isDigit ch = true -> p ch = false) ->
  all_digits a = true -> break p a = (a, None).
Proof.
  intros Hp Ha. pose proof (break_digits p a EmptyString Hp Ha) as Hb.
  assert (Hnil : forall s : string, s ++ EmptyString = s).
  { induction s as [|x s IH]; [reflexivity|]. rewrite app_cons, IH. reflexivity. }
  rewrite !Hnil in Hb. exact Hb.
Qed.

Lemma app_empty_r (s : string) : s ++ EmptyString = s.
Proof. induction s as [|x s IH]; [reflexivity|]. rewrite app_cons, IH. reflexivity. Qed.

Lemma string_all_app (q : ascii -> bool) (a b : string) :
  string_all q (a ++ b) = string_all q a && string_all q b.
Proof.
  induction a as [|x a IH]; [reflexivity|].
  rewrite app_cons. cbn [string_all]. rewrite IH. apply andb_assoc.
Qed.

Lemma string_all_digits (q : ascii -> bool) (s : string) :
  (forall ch, isDigit ch = true -> q ch = true) ->
  all_digits s = true -> string_all q s = true.
Proof.
  intros Hq. induction s as [|x s IH]; [reflexivity|].
  cbn [all_digits string_all]. intros [Hx Hs]%andb_prop.
  rewrite (Hq _ Hx), (IH Hs). reflexivity.
Qed.

Lemma break_stop (p : ascii -> bool) (a : string) (x : ascii) (r : string) :
  string_all (fun ch => negb (p ch)) a = true -> p x = true ->
  break p (a ++ String x r) = (a, Some r).
Proof.
  intros Ha Hx. induction a as [|y a IH].
  - rewrite app_empty. cbn [break]. rewrite Hx. reflexivity.
  - cbn [string_all] in Ha. apply andb_prop in Ha as [Hy Ha].
    rewrite app_cons. cbn [break]. apply negb_true_iff in Hy. rewrite Hy, (IH Ha). reflexivity.
Qed.

Lemma break_none (p : ascii -> bool) (a : string) :
  string_all (fun ch => negb (p ch)) a = true -> break p a = (a, None).
Proof.
  induction a as [|y a IH]; [reflexivity|].
  cbn [string_all]. intros [Hy Ha]%andb_prop.
  cbn [break]. apply negb_true_iff in Hy. rewrite Hy, (IH Ha). reflexivity.
Qed.

Lemma split_minus_digit (x : ascii) (r : string) :
  isDigit x = true -> split_minus (String x r) = (false, String x r).
Proof.
  intros Hx. cbn [split_minus].
  destruct (Ascii.eqb_spec x "-") as [->|_]; [|reflexivity].
  apply isDigit_not_special in Hx. destruct Hx as (_ & _ & Hx & _). contradiction.
Qed.

Lemma split_minus_digits (s : string) :
  is_digits s = true -> split_minus s = (false, s).
Proof.
  destruct s as [|x s]; [discriminate|]. cbn [is_digits all_digits].
  intros [Hx _]%andb_prop. apply split_minus_digit, Hx.
Qed.

Lemma Z_toString_nonneg (z : Z) : 0 <= z -> Z_toString z = N_toString (Z.to_N z).
Proof.
  intros Hz. unfold Z_toString. destruct (Z.ltb_spec z 0); [lia|].
  f_equal. lia.
Qed.

Lemma Z_toString_neg (z : Z) : z < 0 -> Z_toString z = String "-" (N_toString (Z.to_N (- z))).
Proof.
  intros Hz. unfold Z_toString. destruct (Z.ltb_spec z 0); [|lia].
  do 2 f_equal. lia.
Qed.

(** The text of an exponent, as [toExponential] writes it. *)
Lemma read_exponent_text (z : Z) :
  BigNumber.read_exponent (if z <? 0 then Z_toString z else String "+" (Z_toString z)) = Some z.
Proof.
  unfold BigNumber.read_exponent. destruct (Z.ltb_spec z 0) as [Hz|Hz].
  - rewrite (Z_toString_neg z Hz).
    change ("-" =? "-")%char with true. cbv iota.
    rewrite is_digits_N_toString, N_toString_val. f_equal. lia.
  - change ("+" =? "-")%char with false. change ("+" =? "+")%char with true. cbv iota.
    rewrite (Z_toString_nonneg z Hz), is_digits_N_toString, N_toString_val. f_equal. lia.
Qed.

Lemma isNumeric_text (neg : bool) (ip fp : string) (dot : bool) (ex : option Z) :
  is_digits ip = true -> all_digits fp = true -> (dot = false -> fp = EmptyString) ->
  BigNumber.isNumeric (BigNumber.decimal_text neg ip fp dot ex)
  = Some (BigNumber.Literal neg ip fp (match ex with Some z => z | None => 0 end)).
Proof.
  intros Hip Hfp Hdot. unfold BigNumber.isNumeric, BigNumber.decimal_text.
  set (m := ip ++ (if dot then String "." fp else EmptyString)).
  set (x := match ex with Some z => String "e" _ | None => EmptyString end).
  assert (Hbody : split_minus ((if neg then "-" else EmptyString) ++ ip
                               ++ (if dot then String "." fp else EmptyString) ++ x)
                  = (neg, m ++ x)).
  { rewrite <- (string_app_assoc ip). fold m. destruct neg; [reflexivity|].
    rewrite app_empty. unfold m. destruct ip as [|c ip]; [discriminate|].
    rewrite !app_cons. apply split_minus_digit.
    cbn [is_digits all_digits] in Hip. apply andb_prop in Hip as [Hc _]. exact Hc. }
  rewrite Hbody. clear Hbody.
  assert (HnoE : forall ch, isDigit ch = true -> negb (BigNumber.isE ch) = true).
  { intros ch Hch. apply isDigit_not_special in Hch as (-> & _). reflexivity. }
  assert (HnoDot : forall ch, isDigit ch = true -> negb (BigNumber.isDot ch) = true).
  { intros ch Hch. apply isDigit_not_special in Hch as (_ & -> & _). reflexivity. }
  assert (Hm : string_all (fun ch => negb (BigNumber.isE ch)) m = true).
  { unfold m. rewrite string_all_app, (string_all_digits _ ip HnoE (is_digits_all _ Hip)).
    destruct dot; [|reflexivity]. cbn [string_all].
    rewrite (string_all_digits _ fp HnoE Hfp). reflexivity. }
  assert (Hbreak : break BigNumber.isE (m ++ x)
                   = (m, match ex with
                         | Some z => Some (if z <? 0 then Z_toString z
                                           else String "+" (Z_toString z))
                         | None => None
                         end)).
  { unfold x. destruct ex as [z|].
    - apply break_stop; [exact Hm|reflexivity].
    - rewrite app_empty_r. apply break_none, Hm. }
  rewrite Hbreak. clear Hbreak.
  assert (Hmant : BigNumber.read_mantissa m = Some (ip, fp)).
  { unfold BigNumber.read_mantissa, m. destruct dot.
    - rewrite break_stop;
        [|apply (string_all_digits _ ip HnoDot (is_digits_all _ Hip))|reflexivity].
      rewrite Hip, Hfp. reflexivity.
    - rewrite app_empty_r, break_none
        by apply (string_all_digits _ ip HnoDot (is_digits_all _ Hip)).
      rewrite Hip, (Hdot eq_refl). reflexivity. }
  rewrite Hmant. destruct ex as [z|]; [|reflexivity].
  rewrite read_exponent_text. reflexivity.
Qed.

(** The constructor on such a text. *)
Lemma of_string_text (neg : bool) (ip fp : string) (dot : bool) (ex : option Z) :
  is_digits ip = true -> all_digits fp = true -> (dot = false -> fp = EmptyString) ->
  BigNumber.of_string (BigNumber.decimal_text neg ip fp dot ex)
  = Ok (BigNumber.make neg (digits_val (ip ++ fp))
          (match ex with Some z => z | None => 0 end - strlen fp)).
Proof.
  intros Hip Hfp Hdot. unfold BigNumber.of_string.
  rewrite (isNumeric_text neg ip fp dot ex Hip Hfp Hdot). reflexivity.
Qed.

Lemma of_string_text_value (neg : bool) (c : N) (e : Z) (k : N)
    (ip fp : string) (dot : bool) (ex : option Z) :
  BigNumber.wf (BigNumber.Finite neg c e) ->
  is_digits ip = true -> all_digits fp = true -> (dot = false -> fp = EmptyString) ->
  digits_val (ip ++ fp) = (c * 10 ^ k)%N ->
  match ex with Some z => z | None => 0 end - strlen fp = e - Z.of_N k ->
  BigNumber.of_string (BigNumber.decimal_text neg ip fp dot ex)
  = Ok (BigNumber.Finite neg c e).
Proof.
  intros Hwf Hip Hfp Hdot Hv He.
  rewrite of_string_text by assumption. rewrite Hv, He, make_shift by assumption.
  reflexivity.
Qed.

Lemma digits_val_cons_zero (s : string) : digits_val (String "0" s) = digits_val s.
Proof. reflexivity. Qed.

(** The constructor reads back what [toString] writes. *)
Lemma of_string_toString (x : BigNumber.t) :
  BigNumber.wf x -> x <> BigNumber.Finite true 0 0 ->
  BigNumber.of_string (BigNumber.toString x) = Ok x.
Proof.
  destruct x as [|[|]|neg c e]; try (intros; reflexivity).
  intros Hwf Hnz.
  destruct (N.eq_dec c 0%N) as [->|Hc].
  { destruct Hwf as [[_ ->]|[? _]]; [|contradiction].
    destruct neg; [contradiction|reflexivity]. }
  pose proof Hwf as [[? _]|(_ & Hm & Hlo & Hhi)]; [contradiction|].
  unfold BigNumber.ndigits in Hlo, Hhi.
  pose proof (N_toString_digits c) as Hd. pose proof (N_toString_val c) as Hv.
  pose proof (N_toString_length c) as Hl. pose proof (is_digits_N_toString c) as Hnd.
  unfold BigNumber.toString.
  destruct (N.eqb_spec c 0) as [|_]; [contradiction|]. cbn [negb]. rewrite andb_true_r.
  revert Hd Hv Hl Hnd Hlo Hhi. generalize (N_toString c) as ds. intros ds Hd Hv Hl Hnd Hlo Hhi.
  cbv zeta. set (sci := e + strlen ds - 1).
  assert (Hsign : forall str : string,
            (if neg then String "-" str else str)
            = (if neg then "-" else EmptyString) ++ str).
  { intros str. destruct neg; reflexivity. }
  rewrite Hsign. clear Hsign.
  destruct ((sci <=? BigNumber.TO_EXP_NEG) || (BigNumber.TO_EXP_POS <=? sci)) eqn:Hexp.
  - (* exponential notation *)
    clear Hexp. unfold BigNumber.toExponential.
    destruct ds as [|a [|b r]]; [simpl in Hl; lia| |].
    + replace (_ ++ _ ++ _ ++ _)
        with (BigNumber.decimal_text neg (String a EmptyString) EmptyString false (Some sci)).
      2:{ unfold BigNumber.decimal_text. destruct (sci <? 0); reflexivity. }
      apply (of_string_text_value neg c e 0); try assumption; try reflexivity.
      * rewrite app_empty_r, Hv. lia.
      * unfold sci, strlen. simpl. lia.
    + replace (_ ++ _ ++ _ ++ _)
        with (BigNumber.decimal_text neg (String a EmptyString) (String b r) true (Some sci)).
      2:{ unfold BigNumber.decimal_text. destruct (sci <? 0); reflexivity. }
      cbn [all_digits] in Hd. apply andb_prop in Hd as [Ha Hbr].
      apply (of_string_text_value neg c e 0); try assumption.
      * cbn [is_digits all_digits]. rewrite Ha. reflexivity.
      * discriminate.
      * change (String a EmptyString ++ String b r) with (String a (String b r)).
        rewrite Hv. lia.
      * unfold sci, strlen. cbn [String.length]. lia.
  - (* fixed-point notation *)
    clear Hexp. unfold BigNumber.toFixedPoint.
    destruct (Z.ltb_spec sci 0) as [Hneg|Hpos].
    + replace (_ ++ _ ++ _ ++ _)
        with (BigNumber.decimal_text neg "0" (zeros (Z.to_nat (- sci - 1)) ++ ds) true None).
      2:{ unfold BigNumber.decimal_text. rewrite app_empty_r. reflexivity. }
      apply (of_string_text_value neg c e 0); try assumption; try reflexivity.
      * rewrite all_digits_app, all_digits_replicate, Hd. reflexivity.
      * discriminate.
      * rewrite app_cons, app_empty, digits_val_cons_zero, digits_val_zeros_app, Hv. lia.
      * unfold strlen. rewrite length_app. unfold zeros. rewrite length_replicate.
        unfold sci, strlen in *. lia.
    + destruct (Z.ltb_spec (strlen ds) (sci + 1)) as [Hz|Hz].
      * replace (_ ++ _ ++ _)
          with (BigNumber.decimal_text neg (ds ++ zeros (Z.to_nat (sci + 1 - strlen ds)))
                  EmptyString false None).
        2:{ unfold BigNumber.decimal_text. rewrite !app_empty_r. reflexivity. }
        apply (of_string_text_value neg c e (Z.to_N e)); try assumption; try reflexivity.
        -- apply is_digits_app_l; [assumption|apply all_digits_replicate].
        -- rewrite app_empty_r, digits_val_app_zeros, Hv. f_equal. f_equal.
           unfold sci. lia.
        -- unfold sci in Hz. change (strlen EmptyString) with 0. lia.
      * destruct (Z.ltb_spec (sci + 1) (strlen ds)) as [Hf|Hf].
        -- replace (_ ++ _ ++ _ ++ _)
             with (BigNumber.decimal_text neg (take (Z.to_nat (sci + 1)) ds)
                     (drop (Z.to_nat (sci + 1)) ds) true None).
           2:{ unfold BigNumber.decimal_text. rewrite app_empty_r. reflexivity. }
           assert (Hj : (0 < Z.to_nat (sci + 1) <= String.length ds)%nat)
             by (unfold strlen in Hf; lia).
           apply (of_string_text_value neg c e 0); try assumption.
           ++ pose proof (length_take _ ds (proj2 Hj)) as Hlt.
              pose proof (all_digits_take (Z.to_nat (sci + 1)) ds Hd) as Hat.
              unfold is_digits. destruct (take _ ds); [simpl in Hlt; lia|exact Hat].
           ++ apply all_digits_drop, Hd.
           ++ discriminate.
           ++ rewrite take_drop, Hv. lia.
           ++ unfold strlen. rewrite length_drop. unfold sci, strlen in *. lia.
        -- replace ((if neg then "-" else EmptyString) ++ ds)
             with (BigNumber.decimal_text neg ds EmptyString false None).
           2:{ unfold BigNumber.decimal_text. rewrite !app_empty_r. reflexivity. }
           apply (of_string_text_value neg c e 0); try assumption; try reflexivity.
           ++ rewrite app_empty_r, Hv. lia.
           ++ unfold sci in *. change (strlen EmptyString) with 0. lia.
Qed.

(** * Scaling amounts *)

Lemma Hyper_wrap_id (z : Z) :
  Hyper.MIN_VALUE <= z <= Hyper.MAX_VALUE -> Hyper.wrap z = z.
Proof.
  unfold Hyper.MIN_VALUE, Hyper.MAX_VALUE, Hyper.wrap. intros Hz.
  change (2 ^ 63) with 9223372036854775808. change (2 ^ 64) with 18446744073709551616.
  rewrite Z.mod_small; lia.
Qed.

Lemma Hyper_fromString_digits (neg : bool) (ds : string) :
  is_digits ds = true ->
  Hyper.fromString ((if neg then "-" else EmptyString) ++ ds)
  = Ok (Hyper.wrap (if neg then - Z.of_N (digits_val ds) else Z.of_N (digits_val ds))).
Proof.
  intros Hds. unfold Hyper.fromString.
  assert (Hs : split_minus ((if neg then "-" else EmptyString) ++ ds) = (neg, ds)).
  { destruct neg; [reflexivity|]. rewrite app_empty. apply split_minus_digits, Hds. }
  rewrite Hs, Hds. reflexivity.
Qed.

(** The text and the [Hyper] of an integer decimal below [1e21]. *)
Lemma toString_integer (neg : bool) (c : N) (e : Z) :
  BigNumber.wf (BigNumber.Finite neg c e) -> 0 <= e ->
  e + BigNumber.ndigits c - 1 < BigNumber.TO_EXP_POS ->
  Hyper.fromString (BigNumber.toString (BigNumber.Finite neg c e))
  = Ok (Hyper.wrap ((if neg then - Z.of_N c else Z.of_N c) * 10 ^ e)).
Proof.
  intros Hwf He Hsci.
  destruct (N.eq_dec c 0%N) as [->|Hc].
  { destruct Hwf as [[_ ->]|[? _]]; [|contradiction]. destruct neg; reflexivity. }
  unfold BigNumber.toString, BigNumber.ndigits in *.
  pose proof (N_toString_val c) as Hv. pose proof (N_toString_length c) as Hl.
  pose proof (is_digits_N_toString c) as Hnd.
  destruct (N.eqb_spec c 0) as [|_]; [contradiction|]. cbn [negb]. rewrite andb_true_r.
  revert Hv Hl Hnd Hsci. generalize (N_toString c) as ds. intros ds Hv Hl Hnd Hsci.
  cbv zeta. set (sci := e + strlen ds - 1) in *.
  assert (Hfix : (sci <=? BigNumber.TO_EXP_NEG) || (BigNumber.TO_EXP_POS <=? sci) = false).
  { apply orb_false_intro; apply Z.leb_gt; unfold BigNumber.TO_EXP_NEG, sci, strlen in *; lia. }
  rewrite Hfix. unfold BigNumber.toFixedPoint.
  destruct (Z.ltb_spec sci 0) as [Hneg|_]; [unfold sci, strlen in Hneg; lia|].
  assert (Hbody : (if strlen ds <? sci + 1
                   then ds ++ zeros (Z.to_nat (sci + 1 - strlen ds))
                   else if sci + 1 <? strlen ds
                        then take (Z.to_nat (sci + 1)) ds ++ "." ++ drop (Z.to_nat (sci + 1)) ds
                        else ds)
                  = ds ++ zeros (Z.to_nat e)).
  { destruct (Z.ltb_spec (strlen ds) (sci + 1)).
    - do 2 f_equal. unfold sci. lia.
    - destruct (Z.ltb_spec (sci + 1) (strlen ds)); [unfold sci in *; lia|].
      replace e with 0 by (unfold sci in *; lia). symmetry. apply app_empty_r. }
  rewrite Hbody.
  assert (Hsign : forall str : string,
            (if neg then String "-" str else str)
            = (if neg then "-" else EmptyString) ++ str).
  { intros str. destruct neg; reflexivity. }
  rewrite Hsign, Hyper_fromString_digits
    by (apply is_digits_app_l; [assumption|apply all_digits_replicate]).
  rewrite digits_val_app_zeros, Hv, N2Z.inj_mul, N2Z.inj_pow, nat_N_Z, Z2Nat.id by lia.
  change (Z.of_N 10) with 10. do 2 f_equal. destruct neg; lia.
Qed.

Section Scaling.
Context `{Collaborators}.

(** [_toXDRAmount] on a decimal text with at most seven decimal places. *)
Lemma toXDRAmount_scaled (s : string) (x : BigNumber.t) (n : Z) :
  BigNumber.of_string s = Ok x -> scaled x n ->
  Hyper.MIN_VALUE <= n <= Hyper.MAX_VALUE ->
  Operation._toXDRAmount (Str s) = Ok n.
Proof.
  intros Hs Hsc Hn. pose proof (of_string_wf _ _ Hs) as Hwf.
  unfold Operation._toXDRAmount. cbn [BigNumber_new js_toString]. rewrite Hs. cbn [bind].
  rewrite big_ONE.
  destruct x as [| |neg c e]; try contradiction.
  apply scaled_finite in Hsc; [|assumption]. destruct Hsc as [He Hv].
  destruct (N.eq_dec c 0%N) as [->|Hc].
  { rewrite times_zero. subst n. destruct neg; reflexivity. }
  pose proof Hwf as [[? _]|(_ & Hm & Hlo & Hhi)]; [contradiction|].
  assert (Hpos : (0 < c)%N) by lia.
  assert (Hsci : e + 7 + BigNumber.ndigits c - 1 < 19).
  { destruct (Z.lt_ge_cases (e + 7 + BigNumber.ndigits c - 1) 19) as [|Hge]; [assumption|].
    exfalso. pose proof (large_exceeds c (e + 7) Hpos ltac:(lia) ltac:(lia)) as Hbig.
    unfold Hyper.MIN_VALUE, Hyper.MAX_VALUE in Hn. destruct neg; lia. }
  rewrite times_pow10 by assumption.
  destruct (Z.ltb_spec BigNumber.MAX_EXP (e + 7 + BigNumber.ndigits c - 1)) as [Hbig|_].
  { unfold BigNumber.MAX_EXP in Hbig. lia. }
  destruct (Z.ltb_spec (e + 7 + BigNumber.ndigits c - 1) BigNumber.MIN_EXP) as [Hsm|_].
  { pose proof (ndigits_pos c). unfold BigNumber.MIN_EXP in Hsm. lia. }
  rewrite toString_integer.
  - rewrite <- Hv. rewrite Hyper_wrap_id by assumption. reflexivity.
  - right. repeat split; try assumption.
    + pose proof (ndigits_pos c). unfold BigNumber.MIN_EXP. lia.
    + unfold BigNumber.MAX_EXP. lia.
  - lia.
  - unfold BigNumber.TO_EXP_POS. lia.
Qed.

End Scaling.

Lemma of_string_Z_toString (z : Z) :
  BigNumber.of_string (Z_toString z) = Ok (BigNumber.make (z <? 0) (Z.abs_N z) 0).
Proof.
  replace (Z_toString z)
    with (BigNumber.decimal_text (z <? 0) (N_toString (Z.abs_N z)) EmptyString false None).
  2:{ unfold BigNumber.decimal_text, Z_toString. rewrite !app_empty_r.
      destruct (z <? 0); reflexivity. }
  rewrite of_string_text; try reflexivity; [|apply is_digits_N_toString].
  rewrite app_empty_r, N_toString_val. reflexivity.
Qed.

(** Dividing by [ONE] moves the decimal point by seven places. *)
Lemma div_ONE (neg : bool) (c : N) (e : Z) :
  BigNumber.wf (BigNumber.Finite neg c e) -> c <> 0%N -> -13 <= e ->
  BigNumber.MIN_EXP <= e - 7 + BigNumber.ndigits c - 1 ->
  BigNumber.div (BigNumber.Finite neg c e) (BigNumber.Finite false 1 7)
  = BigNumber.Finite neg c (e - 7).
Proof.
  intros Hwf Hc He Hlo. cbn [BigNumber.div]. rewrite xorb_false_r.
  change (1 =? 0)%N with false. cbv iota.
  destruct (N.eqb_spec c 0) as [|_]; [contradiction|].
  unfold BigNumber.quotient, BigNumber.DECIMAL_PLACES.
  destruct (Z.leb_spec 0 (e - 7 + 20)) as [_|Hk]; [|lia].
  change (Z.of_N 1) with 1.
  replace (2 * (Z.of_N c * 10 ^ (e - 7 + 20)) + 1)
    with (Z.of_N c * 10 ^ (e - 7 + 20) * 2 + 1) by lia.
  rewrite Z.mul_1_r, Z.div_add_l by lia. change (1 / 2) with 0. rewrite Z.add_0_r.
  replace (Z.to_N (Z.of_N c * 10 ^ (e - 7 + 20))) with (c * 10 ^ Z.to_N (e + 13))%N.
  2:{ pose proof (pow10_pos (e - 7 + 20) ltac:(lia)) as Hp.
      apply N2Z.inj. rewrite N2Z.inj_mul, N2Z.inj_pow.
      rewrite (Z2N.id (e + 13)) by lia. rewrite Z2N.id by lia.
      change (Z.of_N 10) with 10. do 2 f_equal. lia. }
  replace (Z.opp 20) with (e - 7 - Z.of_N (Z.to_N (e + 13))) by lia.
  apply make_shift.
  destruct Hwf as [[? _]|(_ & Hm & _ & Hhi)]; [contradiction|].
  right. repeat split; try assumption. lia.
Qed.

Section Unscaling.
Context `{Collaborators}.

(** [_fromXDRAmount] writes the decimal whose scaled value is the [Hyper]. *)
Lemma fromXDRAmount_scaled (h : Z) :
  Hyper.MIN_VALUE <= h <= Hyper.MAX_VALUE ->
  exists x,
    Operation._fromXDRAmount h = Ok (BigNumber.toString x)
    /\ BigNumber.wf x /\ scaled x h /\ BigNumber.isNegative x = (h <? 0)
    /\ x <> BigNumber.Finite true 0 0.
Proof.
  intros Hh. unfold Operation._fromXDRAmount, Hyper.toString.
  cbn [BigNumber_new js_toString]. rewrite of_string_Z_toString. cbn [bind]. rewrite big_ONE.
  destruct (Z.eq_dec h 0) as [->|Hnz].
  { exists (BigNumber.Finite false 0 0). repeat split; try reflexivity.
    - left; split; reflexivity.
    - discriminate. }
  assert (Hc : Z.abs_N h <> 0%N) by lia.
  destruct (make_cases (h <? 0) _ 0 Hc) as (c' & e' & H1 & H2 & H3 & H4 & Hcases).
  rewrite Z.sub_0_r in H4.
  assert (Hpos : (0 < c')%N) by lia.
  pose proof (ndigits_pos c') as Hnd.
  assert (Hsci : e' + BigNumber.ndigits c' - 1 < 19).
  { destruct (Z.lt_ge_cases (e' + BigNumber.ndigits c' - 1) 19) as [|Hge]; [assumption|].
    exfalso. pose proof (large_exceeds c' e' Hpos H3 Hge) as Hbig.
    unfold Hyper.MIN_VALUE, Hyper.MAX_VALUE in Hh. lia. }
  destruct Hcases as [[Hbig _]|[[Hsm _]|[_ Hmk]]].
  { unfold BigNumber.MAX_EXP in Hbig. lia. }
  { unfold BigNumber.MIN_EXP in Hsm. lia. }
  rewrite Hmk.
  assert (Hwf : BigNumber.wf (BigNumber.Finite (h <? 0) c' e')).
  { right. repeat split; try assumption;
      unfold BigNumber.MIN_EXP, BigNumber.MAX_EXP; lia. }
  rewrite div_ONE; try assumption; try lia; [|unfold BigNumber.MIN_EXP; lia].
  exists (BigNumber.Finite (h <? 0) c' (e' - 7)).
  assert (Hwf' : BigNumber.wf (BigNumber.Finite (h <? 0) c' (e' - 7))).
  { right. repeat split; try assumption;
      unfold BigNumber.MIN_EXP, BigNumber.MAX_EXP; lia. }
  repeat split; try assumption; try reflexivity.
  - apply scaled_finite; [assumption|]. split; [lia|].
    replace (e' - 7 + 7) with e' by lia.
    destruct (Z.ltb_spec h 0); lia.
  - intros Heq. injection Heq as _ Heq _. contradiction.
Qed.

Lemma scaled_inj (x y : BigNumber.t) (n : Z) :
  BigNumber.wf x -> BigNumber.wf y -> scaled x n -> scaled y n ->
  BigNumber.isNegative x = BigNumber.isNegative y -> x = y.
Proof.
  destruct x as [| |a c e], y as [| |b c' e']; try contradiction.
  intros Hx Hy Hsx Hsy Hneg. cbn in Hneg. subst b.
  apply scaled_finite in Hsx, Hsy; try assumption.
  destruct Hsx as [He Hn], Hsy as [He' Hn']. subst n.
  destruct Hx as [[-> ->]|(Hc & Hm & _)], Hy as [[-> ->]|(Hc' & Hm' & _)].
  - reflexivity.
  - exfalso. pose proof (pow10_pos (e' + 7) ltac:(lia)). destruct a; nia.
  - exfalso. pose proof (pow10_pos (e + 7) ltac:(lia)). destruct a; nia.
  - assert (Heq : Z.of_N c * 10 ^ (e + 7) = Z.of_N c' * 10 ^ (e' + 7))
      by (destruct a; lia).
    destruct (normal_unique c c' (e + 7) (e' + 7)) as [-> He2]; try assumption; try lia.
    replace e' with e by lia. reflexivity.
Qed.

End Unscaling.

(** * The specification of [isValidAmount] and of the amount scaling *)

Section AmountTheorems.
Context `{Collaborators}.

Lemma scaled_positive_sign (x : BigNumber.t) (n : Z) :
  BigNumber.wf x -> scaled x n -> 0 < n -> BigNumber.isNegative x = false.
Proof.
  destruct x as [| |neg c e]; try contradiction.
  intros Hwf Hsc Hn. apply scaled_finite in Hsc as [He ->]; [|assumption].
  destruct neg; [|reflexivity].
  pose proof (pow10_pos (e + 7) ltac:(lia)). nia.
Qed.

(** [isValidAmount] returns true exactly on the strings that the decimal
    library reads (a decimal literal or one with a radix prefix, white
    space around it) as a finite number that carries no minus sign, with at
    most seven decimal places, whose value scaled by [ONE] is at most
    [9223372036854775807], and that is not zero unless [allowZero] is set.
    A decimal that scales to the ceiling passes and one that scales to the
    ceiling plus one fails; the text [0] passes exactly when [allowZero] is
    set. *)
Theorem isValidAmount_spec :
  (forall (v : value) (allowZero : bool),
     Operation.isValidAmount v allowZero = true <->
     exists s x n,
       v = Str s /\ BigNumber.of_string s = Ok x /\ BigNumber.isNegative x = false
       /\ scaled x n /\ n <= 9223372036854775807 /\ (allowZero = true \/ n <> 0))
  /\ (forall s x allowZero,
        BigNumber.of_string s = Ok x -> scaled x 9223372036854775807 ->
        Operation.isValidAmount (Str s) allowZero = true)
  /\ (forall s x allowZero,
        BigNumber.of_string s = Ok x -> scaled x 9223372036854775808 ->
        Operation.isValidAmount (Str s) allowZero = false)
  /\ Operation.isValidAmount (Str "922337203685.4775807") false = true
  /\ Operation.isValidAmount (Str "922337203685.4775808") false = false
  /\ Operation.isValidAmount (Str "0") false = false
  /\ Operation.isValidAmount (Str "0") true = true.
Proof.
  split; [|split; [|split]].
  - intros v allowZero. split.
    + intros Hv. destruct (isValidAmount_isString _ _ Hv) as [s ->].
      apply isValidAmount_scaled in Hv as (x & n & Hx).
      exists s, x, n. split; [reflexivity|exact Hx].
    + intros (s & x & n & -> & Hx). apply isValidAmount_scaled. exists x, n. exact Hx.
  - intros s x allowZero Hs Hsc. apply isValidAmount_scaled.
    exists x, 9223372036854775807. split; [assumption|].
    split; [apply (scaled_positive_sign x _ (of_string_wf _ _ Hs) Hsc); lia|].
    split; [assumption|]. split; [lia|right; lia].
  - intros s x allowZero Hs Hsc.
    destruct (Operation.isValidAmount (Str s) allowZero) eqn:Hv; [|reflexivity].
    apply isValidAmount_scaled in Hv as (x' & n & Hx' & _ & Hsc' & Hle & _).
    rewrite Hs in Hx'. injection Hx' as <-.
    pose proof (scaled_unique x _ _ (of_string_wf _ _ Hs) Hsc Hsc'). lia.
  - repeat split; vm_compute; reflexivity.
Qed.


(** C10. A value that is not a string is no valid amount, whatever
    [allowZero] is; a constructor given an amount that is not a string
    throws. *)
Theorem isValidAmount_string_only :
  (forall (v : value) (allowZero : bool),
     isString v = false -> Operation.isValidAmount v allowZero = false)
  /\ (forall opts,
        isString (CreateAccountOpts.startingBalance opts) = false ->
        exists e, Operation.createAccount opts = Throw e)
  /\ (forall opts,
        isString (PaymentOpts.amount opts) = false ->
        exists e, Operation.payment opts = Throw e)
  /\ (forall opts,
        isString (PathPaymentOpts.sendMax opts) = false
        \/ isString (PathPaymentOpts.destAmount opts) = false ->
        exists e, Operation.pathPayment opts = Throw e)
  /\ (forall opts,
        isString (ChangeTrustOpts.limit opts) = false ->
        isUndefined (ChangeTrustOpts.limit opts) = false ->
        exists e, Operation.changeTrust opts = Throw e)
  /\ (forall opts,
        isString (ManageOfferOpts.amount opts) = false ->
        exists e, Operation.manageOffer opts = Throw e)
  /\ (forall opts,
        isString (CreatePassiveOfferOpts.amount opts) = false ->
        exists e, Operation.createPassiveOffer opts = Throw e).
Proof.
  assert (Hns : forall (v : value) (allowZero : bool),
            isString v = false -> Operation.isValidAmount v allowZero = false).
  { intros v allowZero Hv. unfold Operation.isValidAmount. rewrite Hv. reflexivity. }
  split; [exact Hns|].
  repeat split.
  - intros opts Hv. unfold Operation.createAccount. rewrite (Hns _ false Hv).
    destruct (isValidAccountId _); eexists; reflexivity.
  - intros opts Hv. unfold Operation.payment. rewrite (Hns _ false Hv).
    destruct (isValidAccountId _), (PaymentOpts.asset opts); eexists; reflexivity.
  - intros opts Hv. unfold Operation.pathPayment.
    destruct (PathPaymentOpts.sendAsset opts); [|eexists; reflexivity].
    destruct Hv as [Hv|Hv]; rewrite ?(Hns _ false Hv); cbn [negb].
    + eexists; reflexivity.
    + destruct (Operation.isValidAmount _ _), (isValidAccountId _),
        (PathPaymentOpts.destAsset opts); eexists; reflexivity.
  - intros opts Hv Hu. unfold Operation.changeTrust.
    rewrite Hu, (Hns _ true Hv).
    destruct (ChangeTrustOpts.asset opts); eexists; reflexivity.
  - intros opts Hv. unfold Operation.manageOffer. rewrite (Hns _ true Hv).
    destruct (Operation.method_toXdrObject (ManageOfferOpts.selling opts)),
      (Operation.method_toXdrObject (ManageOfferOpts.buying opts)); eexists; reflexivity.
  - intros opts Hv. unfold Operation.createPassiveOffer. rewrite (Hns _ false Hv).
    destruct (Operation.method_toXdrObject (CreatePassiveOfferOpts.selling opts)),
      (Operation.method_toXdrObject (CreatePassiveOfferOpts.buying opts)); eexists; reflexivity.
Qed.

End AmountTheorems.

(** * Prices *)

Section Prices.
Context `{Collaborators}.

Lemma bind_ok {A B : Type} (r : result A) (k : A -> result B) (b : B) :
  bind r k = Ok b -> exists a, r = Ok a /\ k a = Ok b.
Proof. destruct r as [a|e]; [|discriminate]. intros Hk. exists a. split; [reflexivity|exact Hk]. Qed.

Lemma prop_ratio_object (n d : Z) :
  prop (ratio_object n d) "n" = Ok (Number n) /\ prop (ratio_object n d) "d" = Ok (Number d).
Proof.
  unfold prop, ratio_object. split.
  - rewrite lookup_insert_eq. reflexivity.
  - rewrite lookup_insert_ne by discriminate. rewrite lookup_insert_eq. reflexivity.
Qed.

(** The explicit pair: used as it is when both parts are positive, refused
    when one is negative, and read as a decimal (which fails) when one is
    zero. *)
Lemma toXDRPrice_ratio_object (n d : Z) :
  Operation._toXDRPrice (ratio_object n d)
  = if (n =? 0) || (d =? 0)
    then Throw (BigNumber.not_a_number "[object Object]")
    else if (n <? 0) || (d <? 0) then Throw (Error "price must be positive")
    else Ok (xdr.Price.new n d).
Proof.
  unfold Operation._toXDRPrice.
  destruct (prop_ratio_object n d) as [-> ->]. cbn [bind truthy].
  destruct (Z.eqb_spec n 0) as [->|Hn]; [reflexivity|].
  destruct (Z.eqb_spec d 0) as [->|Hd]; [reflexivity|].
  reflexivity.
Qed.


End Prices.

(** * The constructors and the decoder *)

Ltac invert_ok H :=
  repeat match type of H with
         | (if negb ?b then Throw _ else _) = Ok _ =>
             let E := fresh "Hcheck" in destruct b eqn:E; [cbn [negb] in H|discriminate]
         | (if ?b then Throw _ else _) = Ok _ =>
             let E := fresh "Hcheck" in destruct b eqn:E; [discriminate|]
         | match ?x with Some _ => _ | None => Throw _ end = Ok _ =>
             let E := fresh "Hsome" in destruct x eqn:E; [|discriminate]
         | bind ?r _ = Ok _ =>
             let a := fresh "a" in
             let E := fresh "Hbind" in
             apply bind_ok in H as (a & E & H)
         end.

Ltac decode :=
  unfold Operation.operationToObject;
  cbn [xdr.Operation.sourceAccount xdr.Operation.body xdr.OperationBody.switch
       xdr.OperationBody.value String.eqb Ascii.eqb Bool.eqb
       xdr.OperationBody.createAccount xdr.OperationBody.payment
       xdr.OperationBody.pathPayment xdr.OperationBody.changeTrust
       xdr.OperationBody.allowTrust xdr.OperationBody.setOption
       xdr.OperationBody.manageOffer xdr.OperationBody.createPassiveOffer
       xdr.OperationBody.accountMerge xdr.OperationBody.inflation
       xdr.CreateAccountOp.destination xdr.CreateAccountOp.startingBalance
       xdr.PaymentOp.destination xdr.PaymentOp.asset xdr.PaymentOp.amount
       xdr.PathPaymentOp.sendAsset xdr.PathPaymentOp.sendMax xdr.PathPaymentOp.destination
       xdr.PathPaymentOp.destAsset xdr.PathPaymentOp.destAmount xdr.PathPaymentOp.path
       xdr.ChangeTrustOp.line xdr.ChangeTrustOp.limit
       xdr.AllowTrustOp.trustor xdr.AllowTrustOp.asset xdr.AllowTrustOp.authorize
       xdr.SetOptionsOp.inflationDest xdr.SetOptionsOp.clearFlags xdr.SetOptionsOp.setFlags
       xdr.SetOptionsOp.masterWeight xdr.SetOptionsOp.lowThreshold
       xdr.SetOptionsOp.medThreshold xdr.SetOptionsOp.highThreshold
       xdr.SetOptionsOp.homeDomain xdr.SetOptionsOp.signer
       xdr.Signer.pubKey xdr.Signer.weight
       xdr.ManageOfferOp.selling xdr.ManageOfferOp.buying xdr.ManageOfferOp.amount
       xdr.ManageOfferOp.price xdr.ManageOfferOp.offerId
       xdr.CreatePassiveOfferOp.selling xdr.CreatePassiveOfferOp.buying
       xdr.CreatePassiveOfferOp.amount xdr.CreatePassiveOfferOp.price];
  match goal with
  | |- context [match ?src with
                | Some account => <["source" := Str (Operation.accountIdtoAddress account)]> ∅
                | None => ∅
                end] => fold (source_field src)
  end.

Ltac field :=
  repeat first [rewrite lookup_insert_eq | rewrite lookup_insert_ne by discriminate].

Section Constructors.
Context `{Collaborators}.

Lemma isValidAccountId_inv (v : value) :
  isValidAccountId v = true ->
  exists s k, v = Str s /\ decodeCheck s = Some k /\ xdrAccountId v = Ok k.
Proof.
  destruct v; try discriminate. cbn [isValidAccountId xdrAccountId].
  destruct (decodeCheck s) as [k|] eqn:Hs; [|discriminate].
  intros _. exists s, k. rewrite Hs. repeat split.
Qed.

Lemma xdrAccountId_inv (v : value) (k : AccountID) :
  xdrAccountId v = Ok k -> exists s, v = Str s /\ decodeCheck s = Some k.
Proof.
  destruct v; try discriminate. cbn [xdrAccountId].
  destruct (decodeCheck s) as [k'|] eqn:Hs; [|discriminate].
  intros [= <-]. exists s. split; [reflexivity|assumption].
Qed.





(** A valid amount comes back as a text of the same decimal. *)
Lemma amount_roundtrip (v : value) (allowZero : bool) (n : Z) :
  Operation.isValidAmount v allowZero = true ->
  Operation._toXDRAmount v = Ok n ->
  exists s', Operation._fromXDRAmount n = Ok s' /\ same_amount v (Some (Str s')).
Proof.
  intros Hv Hn. destruct (isValidAmount_isString _ _ Hv) as [s ->].
  apply isValidAmount_scaled in Hv as (x & m & Hs & Hneg & Hsc & Hle & _).
  pose proof (of_string_wf _ _ Hs) as Hwf.
  assert (Hm : 0 <= m).
  { destruct x as [| |neg c e]; try contradiction. cbn in Hneg. subst neg.
    apply scaled_finite in Hsc as [He ->]; [|assumption].
    pose proof (pow10_pos (e + 7) ltac:(lia)). nia. }
  assert (Hrange : Hyper.MIN_VALUE <= m <= Hyper.MAX_VALUE)
    by (unfold Hyper.MIN_VALUE, Hyper.MAX_VALUE; lia).
  rewrite (toXDRAmount_scaled s x m Hs Hsc Hrange) in Hn. injection Hn as <-.
  destruct (fromXDRAmount_scaled m Hrange) as (x' & Hf & Hwf' & Hsc' & Hneg' & Hnz).
  assert (x' = x).
  { apply (scaled_inj x' x m); try assumption.
    rewrite Hneg, Hneg'. apply Z.ltb_ge. assumption. }
  subst x'. exists (BigNumber.toString x). split; [assumption|].
  exists s, (BigNumber.toString x), x. repeat split; try assumption.
  apply of_string_toString; assumption.
Qed.

Lemma createAccount_inv (opts : CreateAccountOpts.t) (op : xdr.Operation.t) :
  Operation.createAccount opts = Ok op ->
  exists destination startingBalance sourceAccount,
    xdrAccountId (CreateAccountOpts.destination opts) = Ok destination
    /\ Operation.isValidAmount (CreateAccountOpts.startingBalance opts) false = true
    /\ Operation._toXDRAmount (CreateAccountOpts.startingBalance opts) = Ok startingBalance
    /\ Operation.setSourceAccount (CreateAccountOpts.source opts) = Ok sourceAccount
    /\ op = xdr.Operation.new _ sourceAccount
              (xdr.OperationBody.createAccount
                 (xdr.CreateAccountOp.new _ destination startingBalance)).
Proof.
  unfold Operation.createAccount. intros Hop. invert_ok Hop. injection Hop as <-.
  eexists _, _, _. repeat split; eassumption.
Qed.


Lemma payment_inv (opts : PaymentOpts.t) (op : xdr.Operation.t) :
  Operation.payment opts = Ok op ->
  exists destination asset amount sourceAccount,
    xdrAccountId (PaymentOpts.destination opts) = Ok destination
    /\ PaymentOpts.asset opts = Some asset
    /\ Operation.isValidAmount (PaymentOpts.amount opts) false = true
    /\ Operation._toXDRAmount (PaymentOpts.amount opts) = Ok amount
    /\ Operation.setSourceAccount (PaymentOpts.source opts) = Ok sourceAccount
    /\ op = xdr.Operation.new _ sourceAccount
              (xdr.OperationBody.payment
                 (xdr.PaymentOp.new _ destination (toXdrObject asset) amount)).
Proof.
  unfold Operation.payment. intros Hop. invert_ok Hop. injection Hop as <-.
  eexists _, _, _, _. repeat split; eassumption.
Qed.



Lemma pathPayment_inv (opts : PathPaymentOpts.t) (op : xdr.Operation.t) :
  Operation.pathPayment opts = Ok op ->
  exists sendAsset sendMax destination destAsset destAmount sourceAccount,
    PathPaymentOpts.sendAsset opts = Some sendAsset
    /\ Operation.isValidAmount (PathPaymentOpts.sendMax opts) false = true
    /\ Operation._toXDRAmount (PathPaymentOpts.sendMax opts) = Ok sendMax
    /\ xdrAccountId (PathPaymentOpts.destination opts) = Ok destination
    /\ PathPaymentOpts.destAsset opts = Some destAsset
    /\ Operation.isValidAmount (PathPaymentOpts.destAmount opts) false = true
    /\ Operation._toXDRAmount (PathPaymentOpts.destAmount opts) = Ok destAmount
    /\ Operation.setSourceAccount (PathPaymentOpts.source opts) = Ok sourceAccount
    /\ op = xdr.Operation.new _ sourceAccount
              (xdr.OperationBody.pathPayment
                 (xdr.PathPaymentOp.new _ (toXdrObject sendAsset) sendMax destination
                    (toXdrObject destAsset) destAmount
                    (List.map toXdrObject
                       (match PathPaymentOpts.path opts with
                        | Some path => path
                        | None => []
                        end)))).
Proof.
  unfold Operation.pathPayment. intros Hop. invert_ok Hop. injection Hop as <-.
  eexists _, _, _, _, _, _. repeat split; eassumption.
Qed.


Lemma default_limit :
  Hyper.fromString (BigNumber.toString (Operation.big (Str MAX_INT64)))
  = Ok 9223372036854775807.
Proof. vm_compute. reflexivity. Qed.


(** A valid amount is a non-empty string. *)
Lemma isValidAmount_truthy (v : value) (allowZero : bool) :
  Operation.isValidAmount v allowZero = true -> truthy v = true.
Proof.
  intros Hv. destruct (isValidAmount_isString _ _ Hv) as [s ->].
  destruct s; [|reflexivity]. destruct allowZero; vm_compute in Hv; discriminate.
Qed.

Lemma changeTrust_inv (opts : ChangeTrustOpts.t) (op : xdr.Operation.t) :
  Operation.changeTrust opts = Ok op ->
  exists asset limit sourceAccount,
    ChangeTrustOpts.asset opts = Some asset
    /\ (if isUndefined (ChangeTrustOpts.limit opts) then limit = 9223372036854775807
        else Operation.isValidAmount (ChangeTrustOpts.limit opts) true = true
             /\ Operation._toXDRAmount (ChangeTrustOpts.limit opts) = Ok limit)
    /\ Operation.setSourceAccount (ChangeTrustOpts.source opts) = Ok sourceAccount
    /\ op = xdr.Operation.new _ sourceAccount
              (xdr.OperationBody.changeTrust
                 (xdr.ChangeTrustOp.new _ (toXdrObject asset) limit)).
Proof.
  unfold Operation.changeTrust. intros Hop.
  destruct (ChangeTrustOpts.asset opts) as [asset|]; [|discriminate Hop].
  destruct (isUndefined (ChangeTrustOpts.limit opts)) eqn:Hu.
  - destruct (ChangeTrustOpts.limit opts); try discriminate Hu.
    cbn [negb andb truthy] in Hop. rewrite default_limit in Hop. cbn [bind] in Hop.
    apply bind_ok in Hop as (src & Hsrc & Hop). injection Hop as <-.
    exists asset, 9223372036854775807, src. repeat split. exact Hsrc.
  - cbn [negb andb] in Hop.
    destruct (Operation.isValidAmount (ChangeTrustOpts.limit opts) true) eqn:Hv;
      [|discriminate Hop].
    cbn [negb] in Hop. rewrite (isValidAmount_truthy _ _ Hv) in Hop.
    apply bind_ok in Hop as (limit & Hlimit & Hop).
    apply bind_ok in Hop as (src & Hsrc & Hop). injection Hop as <-.
    exists asset, limit, src. repeat split; assumption.
Qed.


Lemma allowTrust_inv (opts : AllowTrustOpts.t) (op : xdr.Operation.t) :
  Operation.allowTrust opts = Ok op ->
  exists trustor sourceAccount,
    xdrAccountId (AllowTrustOpts.trustor opts) = Ok trustor
    /\ (String.length (AllowTrustOpts.assetCode opts) <= 12)%nat
    /\ Operation.setSourceAccount (AllowTrustOpts.source opts) = Ok sourceAccount
    /\ op = xdr.Operation.new _ sourceAccount
              (xdr.OperationBody.allowTrust
                 (xdr.AllowTrustOp.new _ trustor
                    (if (String.length (AllowTrustOpts.assetCode opts) <=? 4)%nat
                     then xdr.AllowTrustOpAsset.assetTypeCreditAlphanum4
                            (padEnd (AllowTrustOpts.assetCode opts) 4 NUL)
                     else xdr.AllowTrustOpAsset.assetTypeCreditAlphanum12
                            (padEnd (AllowTrustOpts.assetCode opts) 12 NUL))
                    (AllowTrustOpts.authorize opts))).
Proof.
  unfold Operation.allowTrust. intros Hop. invert_ok Hop.
  destruct (Nat.leb_spec (String.length (AllowTrustOpts.assetCode opts)) 4) as [H4|H4].
  - injection Hbind0 as <-. injection Hop as <-.
    eexists _, _. repeat split; try eassumption. lia.
  - destruct (Nat.leb_spec (String.length (AllowTrustOpts.assetCode opts)) 12) as [H12|H12];
      [|discriminate].
    injection Hbind0 as <-. injection Hop as <-.
    eexists _, _. repeat split; try eassumption.
Qed.

Lemma dropWhileEnd_replicate (p : ascii -> bool) (s : string) (k : nat) (ch : ascii) :
  p ch = true -> dropWhileEnd p (s ++ replicate_char k ch) = dropWhileEnd p s.
Proof.
  intros Hp. induction s as [|a s IH].
  - rewrite app_empty. induction k as [|k IHk]; [reflexivity|].
    cbn [replicate_char dropWhileEnd]. rewrite IHk, Hp. reflexivity.
  - rewrite app_cons. cbn [dropWhileEnd]. rewrite IH. reflexivity.
Qed.

(** Trimming takes the padding away again. *)
Lemma trimEnd_padEnd (s : string) (len : nat) :
  trimEnd (padEnd s len NUL) NUL = trimEnd s NUL.
Proof. unfold trimEnd, padEnd. apply dropWhileEnd_replicate. reflexivity. Qed.



Lemma setOptions_inv (opts : SetOptionsOpts.t) (op : xdr.Operation.t) :
  Operation.setOptions opts = Ok op ->
  exists inflationDest homeDomain signer sourceAccount,
    (if truthy (SetOptionsOpts.inflationDest opts)
     then exists k, xdrAccountId (SetOptionsOpts.inflationDest opts) = Ok k
                    /\ inflationDest = Some k
     else inflationDest = None)
    /\ Operation.out_of_range (SetOptionsOpts.masterWeight opts) = false
    /\ Operation.out_of_range (SetOptionsOpts.lowThreshold opts) = false
    /\ Operation.out_of_range (SetOptionsOpts.medThreshold opts) = false
    /\ Operation.out_of_range (SetOptionsOpts.highThreshold opts) = false
    /\ match SetOptionsOpts.homeDomain opts with
       | Undefined => homeDomain = None
       | Str s => homeDomain = Some s
       | _ => False
       end
    /\ match SetOptionsOpts.signer opts with
       | Some s =>
           exists k, xdrAccountId (SignerOpts.address s) = Ok k
                     /\ Operation.out_of_range (SignerOpts.weight s) = false
                     /\ signer = Some (xdr.Signer.new _ k (SignerOpts.weight s))
       | None => signer = None
       end
    /\ Operation.setSourceAccount (SetOptionsOpts.source opts) = Ok sourceAccount
    /\ op = xdr.Operation.new _ sourceAccount
              (xdr.OperationBody.setOption
                 (xdr.SetOptionsOp.new _ inflationDest
                    (SetOptionsOpts.clearFlags opts) (SetOptionsOpts.setFlags opts)
                    (SetOptionsOpts.masterWeight opts) (SetOptionsOpts.lowThreshold opts)
                    (SetOptionsOpts.medThreshold opts) (SetOptionsOpts.highThreshold opts)
                    homeDomain signer)).
Proof.
  unfold Operation.setOptions. intros Hop.
  apply bind_ok in Hop as (inflationDest & Hdest & Hop).
  destruct (Operation.out_of_range (SetOptionsOpts.masterWeight opts)); [discriminate|].
  destruct (Operation.out_of_range (SetOptionsOpts.lowThreshold opts)); [discriminate|].
  destruct (Operation.out_of_range (SetOptionsOpts.medThreshold opts)); [discriminate|].
  destruct (Operation.out_of_range (SetOptionsOpts.highThreshold opts)); [discriminate|].
  apply bind_ok in Hop as (homeDomain & Hhd & Hop).
  apply bind_ok in Hop as (signer & Hsg & Hop).
  apply bind_ok in Hop as (sourceAccount & Hsrc & Hop). injection Hop as <-.
  exists inflationDest, homeDomain, signer, sourceAccount.
  split; [|repeat split; try reflexivity; try assumption].
  - destruct (truthy (SetOptionsOpts.inflationDest opts)); [|injection Hdest as <-; reflexivity].
    invert_ok Hdest. injection Hdest as <-. eexists. split; [eassumption|reflexivity].
  - destruct (SetOptionsOpts.homeDomain opts); try discriminate;
      injection Hhd as <-; reflexivity.
  - destruct (SetOptionsOpts.signer opts) as [s|]; [|injection Hsg as <-; reflexivity].
    invert_ok Hsg. injection Hsg as <-.
    eexists. repeat split; eassumption.
Qed.


Lemma of_number_int32 (n : Z) :
  - 2 ^ 31 <= n < 2 ^ 31 -> exists x, BigNumber.of_number n = Ok x.
Proof.
  intros Hn. unfold BigNumber.of_number.
  destruct (BigNumber.make (n <? 0) (Number_value n) 0); try (eexists; reflexivity).
  assert (Hsafe : (BigNumber.MAX_SAFE_INTEGER <? Z.abs n) = false).
  { apply Z.ltb_ge. unfold BigNumber.MAX_SAFE_INTEGER.
    change (2 ^ 31) with 2147483648 in Hn. lia. }
  rewrite Hsafe, andb_false_r. eexists; reflexivity.
Qed.

(** A price of 32-bit integers is decoded without an error. *)
Lemma fromXDRPrice_int32 (p : xdr.Price.t) :
  int32_price p -> exists q, Operation._fromXDRPrice p = Ok q.
Proof.
  intros [Hn Hd]. unfold Operation._fromXDRPrice. cbn [BigNumber_new].
  destruct (of_number_int32 _ Hn) as [x ->]. destruct (of_number_int32 _ Hd) as [y ->].
  cbn [bind]. eexists; reflexivity.
Qed.

Lemma manageOffer_inv (opts : ManageOfferOpts.t) (op : xdr.Operation.t) :
  Operation.manageOffer opts = Ok op ->
  exists selling buying amount price offerId text sourceAccount,
    ManageOfferOpts.selling opts = Some selling
    /\ ManageOfferOpts.buying opts = Some buying
    /\ Operation.isValidAmount (ManageOfferOpts.amount opts) true = true
    /\ Operation._toXDRAmount (ManageOfferOpts.amount opts) = Ok amount
    /\ isUndefined (ManageOfferOpts.price opts) = false
    /\ Operation._toXDRPrice (ManageOfferOpts.price opts) = Ok price
    /\ (if isUndefined (ManageOfferOpts.offerId opts) then text = "0"
        else method_toString (ManageOfferOpts.offerId opts) = Ok text)
    /\ UnsignedHyper.fromString text = Ok offerId
    /\ Operation.setSourceAccount (ManageOfferOpts.source opts) = Ok sourceAccount
    /\ op = xdr.Operation.new _ sourceAccount
              (xdr.OperationBody.manageOffer
                 (xdr.ManageOfferOp.new _ (toXdrObject selling) (toXdrObject buying)
                    amount price offerId)).
Proof.
  unfold Operation.manageOffer, Operation.method_toXdrObject. intros Hop.
  destruct (ManageOfferOpts.selling opts) as [selling|]; [|discriminate].
  destruct (ManageOfferOpts.buying opts) as [buying|]; [|discriminate].
  cbn [bind] in Hop. invert_ok Hop. injection Hop as <-.
  eexists _, _, _, _, _, _, _. repeat split; try eassumption; try reflexivity.
  destruct (isUndefined (ManageOfferOpts.offerId opts)); cbn [negb] in *.
  - injection Hbind1 as <-. reflexivity.
  - assumption.
Qed.


Lemma createPassiveOffer_inv (opts : CreatePassiveOfferOpts.t) (op : xdr.Operation.t) :
  Operation.createPassiveOffer opts = Ok op ->
  exists selling buying amount price sourceAccount,
    CreatePassiveOfferOpts.selling opts = Some selling
    /\ CreatePassiveOfferOpts.buying opts = Some buying
    /\ Operation.isValidAmount (CreatePassiveOfferOpts.amount opts) false = true
    /\ Operation._toXDRAmount (CreatePassiveOfferOpts.amount opts) = Ok amount
    /\ isUndefined (CreatePassiveOfferOpts.price opts) = false
    /\ Operation._toXDRPrice (CreatePassiveOfferOpts.price opts) = Ok price
    /\ Operation.setSourceAccount (CreatePassiveOfferOpts.source opts) = Ok sourceAccount
    /\ op = xdr.Operation.new _ sourceAccount
              (xdr.OperationBody.createPassiveOffer
                 (xdr.CreatePassiveOfferOp.new _ (toXdrObject selling) (toXdrObject buying)
                    amount price)).
Proof.
  unfold Operation.createPassiveOffer, Operation.method_toXdrObject. intros Hop.
  destruct (CreatePassiveOfferOpts.selling opts) as [selling|]; [|discriminate].
  destruct (CreatePassiveOfferOpts.buying opts) as [buying|]; [|discriminate].
  cbn [bind] in Hop. invert_ok Hop. injection Hop as <-.
  eexists _, _, _, _, _. repeat split; try eassumption; reflexivity.
Qed.




End Constructors.

(** * The constructors, one by one *)

Section AllowTrust.
Context `{Collaborators}.

Lemma dropWhileEnd_last (p : ascii -> bool) (s : string) (a : ascii) :
  p a = false -> dropWhileEnd p (s ++ String a EmptyString) = s ++ String a EmptyString.
Proof.
  intros Hp. induction s as [|x s IH].
  - rewrite app_empty. cbn [dropWhileEnd]. rewrite Hp. reflexivity.
  - rewrite app_cons. cbn [dropWhileEnd]. rewrite IH.
    destruct s; reflexivity.
Qed.

Lemma length_padEnd (s : string) (len : nat) (ch : ascii) :
  (String.length s <= len)%nat -> String.length (padEnd s len ch) = len.
Proof. intros Hs. unfold padEnd. rewrite length_app, length_replicate. lia. Qed.

Lemma allowTrust_ok (opts : AllowTrustOpts.t) (src : option AccountID) :
  isValidAccountId (AllowTrustOpts.trustor opts) = true ->
  (String.length (AllowTrustOpts.assetCode opts) <= 12)%nat ->
  Operation.setSourceAccount (AllowTrustOpts.source opts) = Ok src ->
  exists trustor,
    xdrAccountId (AllowTrustOpts.trustor opts) = Ok trustor
    /\ Operation.allowTrust opts
       = Ok (xdr.Operation.new _ src
               (xdr.OperationBody.allowTrust
                  (xdr.AllowTrustOp.new _ trustor
                     (if (String.length (AllowTrustOpts.assetCode opts) <=? 4)%nat
                      then xdr.AllowTrustOpAsset.assetTypeCreditAlphanum4
                             (padEnd (AllowTrustOpts.assetCode opts) 4 NUL)
                      else xdr.AllowTrustOpAsset.assetTypeCreditAlphanum12
                             (padEnd (AllowTrustOpts.assetCode opts) 12 NUL))
                     (AllowTrustOpts.authorize opts)))).
Proof.
  intros Hv Hlen Hsrc. destruct (isValidAccountId_inv _ Hv) as (s & k & Hs & Hk & Hx).
  exists k. split; [assumption|].
  unfold Operation.allowTrust. rewrite Hv, Hx. cbn [negb bind].
  destruct (Nat.leb_spec (String.length (AllowTrustOpts.assetCode opts)) 4).
  - cbn [bind]. rewrite Hsrc. reflexivity.
  - destruct (Nat.leb_spec (String.length (AllowTrustOpts.assetCode opts)) 12); [|lia].
    cbn [bind]. rewrite Hsrc. reflexivity.
Qed.

Lemma allowTrust_decode (opts : AllowTrustOpts.t) (op : xdr.Operation.t) :
  Operation.allowTrust opts = Ok op ->
  exists res,
    Operation.operationToObject op = Ok res
    /\ res !! "assetCode" = Some (Str (trimEnd (AllowTrustOpts.assetCode opts) NUL)).
Proof.
  intros Hop. destruct (allowTrust_inv _ _ Hop) as (t & src & Ht & Hlen & Hs & ->).
  decode. eexists. split; [reflexivity|]. field.
  destruct (String.length (AllowTrustOpts.assetCode opts) <=? 4)%nat;
    cbn [xdr.AllowTrustOpAsset.value]; rewrite trimEnd_padEnd; reflexivity.
Qed.

(** C5. [allowTrust] encodes a code of at most four characters as the
    four-character code padded with NUL on the right, a code of five to
    twelve characters as the twelve-character padded code, and throws on a
    longer code; decoding strips the trailing NULs, which gives back a code
    that does not itself end in NUL (the code USD among them). *)
Theorem allowTrust_assetCode :
  (forall (opts : AllowTrustOpts.t) (src : option AccountID),
     isValidAccountId (AllowTrustOpts.trustor opts) = true ->
     Operation.setSourceAccount (AllowTrustOpts.source opts) = Ok src ->
     let code := AllowTrustOpts.assetCode opts in
     ((String.length code <= 4)%nat ->
      exists trustor,
        Operation.allowTrust opts
        = Ok (xdr.Operation.new _ src
                (xdr.OperationBody.allowTrust
                   (xdr.AllowTrustOp.new _ trustor
                      (xdr.AllowTrustOpAsset.assetTypeCreditAlphanum4
                         (code ++ replicate_char (4 - String.length code) NUL))
                      (AllowTrustOpts.authorize opts))))
        /\ String.length (code ++ replicate_char (4 - String.length code) NUL) = 4%nat)
     /\ ((4 < String.length code <= 12)%nat ->
         exists trustor,
           Operation.allowTrust opts
           = Ok (xdr.Operation.new _ src
                   (xdr.OperationBody.allowTrust
                      (xdr.AllowTrustOp.new _ trustor
                         (xdr.AllowTrustOpAsset.assetTypeCreditAlphanum12
                            (code ++ replicate_char (12 - String.length code) NUL))
                         (AllowTrustOpts.authorize opts))))
           /\ String.length (code ++ replicate_char (12 - String.length code) NUL) = 12%nat)
     /\ ((12 < String.length code)%nat ->
         Operation.allowTrust opts = Throw (Error "Asset code must be 12 characters at max.")))
  /\ (forall opts : AllowTrustOpts.t,
        (12 < String.length (AllowTrustOpts.assetCode opts))%nat ->
        exists e, Operation.allowTrust opts = Throw e)
  /\ (forall (opts : AllowTrustOpts.t) (op : xdr.Operation.t),
        Operation.allowTrust opts = Ok op ->
        exists res,
          Operation.operationToObject op = Ok res
          /\ res !! "assetCode" = Some (Str (trimEnd (AllowTrustOpts.assetCode opts) NUL)))
  /\ (forall (code : string) (a : ascii),
        a <> NUL ->
        trimEnd (code ++ String a EmptyString) NUL = code ++ String a EmptyString)
  /\ padEnd "USD" 4 NUL = String "U" (String "S" (String "D" (String NUL EmptyString)))
  /\ trimEnd (padEnd "USD" 4 NUL) NUL = "USD".
Proof.
  split; [|split; [|split; [|split; [|split]]]].
  - intros opts src Hv Hsrc code. subst code. split; [|split].
    + intros Hlen. destruct (allowTrust_ok opts src Hv ltac:(lia) Hsrc) as (k & _ & Hop).
      exists k. split; [|apply (length_padEnd _ 4 NUL Hlen)].
      rewrite Hop. destruct (Nat.leb_spec (String.length (AllowTrustOpts.assetCode opts)) 4);
        [reflexivity|lia].
    + intros Hlen. destruct (allowTrust_ok opts src Hv ltac:(lia) Hsrc) as (k & _ & Hop).
      exists k. split; [|apply (length_padEnd _ 12 NUL); lia].
      rewrite Hop. destruct (Nat.leb_spec (String.length (AllowTrustOpts.assetCode opts)) 4);
        [lia|reflexivity].
    + intros Hlen. destruct (isValidAccountId_inv _ Hv) as (s & k & _ & _ & Hx).
      unfold Operation.allowTrust. rewrite Hv, Hx. cbn [negb bind].
      destruct (Nat.leb_spec (String.length (AllowTrustOpts.assetCode opts)) 4); [lia|].
      destruct (Nat.leb_spec (String.length (AllowTrustOpts.assetCode opts)) 12); [lia|].
      reflexivity.
  - intros opts Hlen. destruct (Operation.allowTrust opts) as [op|e] eqn:Hop;
      [|eexists; reflexivity].
    destruct (allowTrust_inv _ _ Hop) as (_ & _ & _ & Hle & _). lia.
  - apply allowTrust_decode.
  - intros code a Ha. apply dropWhileEnd_last.
    destruct (Ascii.eqb_spec NUL a) as [<-|]; [contradiction|reflexivity].
  - reflexivity.
  - reflexivity.
Qed.

End AllowTrust.

Section ChangeTrust.
Context `{Collaborators}.

(** What [_toXDRAmount] makes of a valid amount. *)
Lemma valid_amount_scaled (v : value) (allowZero : bool) :
  Operation.isValidAmount v allowZero = true ->
  exists s x n,
    v = Str s /\ BigNumber.of_string s = Ok x /\ BigNumber.isNegative x = false
    /\ scaled x n /\ 0 <= n <= 9223372036854775807
    /\ (allowZero = true \/ n <> 0)
    /\ Operation._toXDRAmount v = Ok n.
Proof.
  intros Hv. destruct (isValidAmount_isString _ _ Hv) as [s ->].
  apply isValidAmount_scaled in Hv as (x & n & Hs & Hneg & Hsc & Hle & Hz).
  pose proof (of_string_wf _ _ Hs) as Hwf.
  assert (Hn : 0 <= n).
  { destruct x as [| |neg c e]; try contradiction. cbn in Hneg. subst neg.
    apply scaled_finite in Hsc as [He ->]; [|assumption].
    pose proof (pow10_pos (e + 7) ltac:(lia)). nia. }
  exists s, x, n. repeat split; try assumption.
  apply (toXDRAmount_scaled s x n); try assumption.
  unfold Hyper.MIN_VALUE, Hyper.MAX_VALUE; lia.
Qed.

Lemma changeTrust_ok (opts : ChangeTrustOpts.t) (asset : Asset) (limit : Hyper.t)
    (src : option AccountID) :
  ChangeTrustOpts.asset opts = Some asset ->
  (if isUndefined (ChangeTrustOpts.limit opts) then limit = 9223372036854775807
   else Operation.isValidAmount (ChangeTrustOpts.limit opts) true = true
        /\ Operation._toXDRAmount (ChangeTrustOpts.limit opts) = Ok limit) ->
  Operation.setSourceAccount (ChangeTrustOpts.source opts) = Ok src ->
  Operation.changeTrust opts
  = Ok (xdr.Operation.new _ src
          (xdr.OperationBody.changeTrust
             (xdr.ChangeTrustOp.new _ (toXdrObject asset) limit))).
Proof.
  intros Ha Hl Hsrc. unfold Operation.changeTrust. rewrite Ha.
  destruct (isUndefined (ChangeTrustOpts.limit opts)) eqn:Hu.
  - destruct (ChangeTrustOpts.limit opts); try discriminate Hu.
    cbn [negb andb truthy]. rewrite default_limit. cbn [bind]. rewrite Hsrc. subst limit.
    reflexivity.
  - destruct Hl as [Hv Hn]. rewrite Hv, (isValidAmount_truthy _ _ Hv), Hn.
    cbn [negb andb bind]. rewrite Hsrc. reflexivity.
Qed.

(** C6. Without a limit, [changeTrust] encodes the largest signed 64-bit
    integer; a limit that is given must be a valid amount, zero allowed: the
    text 0 is accepted and encoded as zero, a valid text is encoded as the
    integer it scales to, and anything else makes the constructor throw. *)
Theorem changeTrust_limit :
  (forall (opts : ChangeTrustOpts.t) (asset : Asset) (src : option AccountID),
     ChangeTrustOpts.asset opts = Some asset ->
     Operation.setSourceAccount (ChangeTrustOpts.source opts) = Ok src ->
     (ChangeTrustOpts.limit opts = Undefined ->
      Operation.changeTrust opts
      = Ok (xdr.Operation.new _ src
              (xdr.OperationBody.changeTrust
                 (xdr.ChangeTrustOp.new _ (toXdrObject asset) 9223372036854775807))))
     /\ (ChangeTrustOpts.limit opts = Str "0" ->
         Operation.changeTrust opts
         = Ok (xdr.Operation.new _ src
                 (xdr.OperationBody.changeTrust
                    (xdr.ChangeTrustOp.new _ (toXdrObject asset) 0))))
     /\ (Operation.isValidAmount (ChangeTrustOpts.limit opts) true = true ->
         exists s x n,
           ChangeTrustOpts.limit opts = Str s /\ BigNumber.of_string s = Ok x
           /\ scaled x n /\ 0 <= n <= 9223372036854775807
           /\ Operation.changeTrust opts
              = Ok (xdr.Operation.new _ src
                      (xdr.OperationBody.changeTrust
                         (xdr.ChangeTrustOp.new _ (toXdrObject asset) n)))))
  /\ (forall opts : ChangeTrustOpts.t,
        isUndefined (ChangeTrustOpts.limit opts) = false ->
        Operation.isValidAmount (ChangeTrustOpts.limit opts) true = false ->
        exists e, Operation.changeTrust opts = Throw e)
  /\ (forall (opts : ChangeTrustOpts.t) (asset : Asset),
        ChangeTrustOpts.asset opts = Some asset ->
        isUndefined (ChangeTrustOpts.limit opts) = false ->
        Operation.isValidAmount (ChangeTrustOpts.limit opts) true = false ->
        Operation.changeTrust opts
        = Throw (TypeError "limit argument must be of type String and represent a number"))
  /\ Operation.isValidAmount (Str "0") true = true
  /\ Operation._fromXDRAmount 0 = Ok "0".
Proof.
  split; [|split; [|split; [|split]]].
  - intros opts asset src Ha Hsrc. split; [|split].
    + intros Hl. apply changeTrust_ok; try assumption. rewrite Hl. reflexivity.
    + intros Hl. apply changeTrust_ok; try assumption. rewrite Hl.
      split; vm_compute; reflexivity.
    + intros Hv. destruct (valid_amount_scaled _ _ Hv) as (s & x & n & Hs & Hx & _ & Hsc & Hn & _ & Hto).
      exists s, x, n. repeat split; try assumption; try apply Hn.
      apply changeTrust_ok; try assumption. rewrite Hs. cbn [isUndefined].
      rewrite <- Hs. split; assumption.
  - intros opts Hu Hv. unfold Operation.changeTrust.
    destruct (ChangeTrustOpts.asset opts); [|eexists; reflexivity].
    rewrite Hu, Hv. eexists; reflexivity.
  - intros opts asset Ha Hu Hv. unfold Operation.changeTrust. rewrite Ha, Hu, Hv. reflexivity.
  - vm_compute. reflexivity.
  - vm_compute. reflexivity.
Qed.

End ChangeTrust.

Section SetOptions.
Context `{Collaborators}.

Lemma out_of_range_outside (w : option Z) :
  Operation.out_of_range w = true <-> outside_range w.
Proof.
  unfold Operation.out_of_range, outside_range. destruct w as [n|].
  - split.
    + intros [Hn|Hn]%orb_prop; exists n; split; try reflexivity; [left|right];
        [apply Z.ltb_lt|apply Z.ltb_lt]; assumption.
    + intros (m & [= <-] & [Hn|Hn]); apply orb_true_iff; [left|right]; apply Z.ltb_lt; assumption.
  - split; [discriminate|]. intros (m & Hm & _). discriminate.
Qed.

Lemma out_of_range_within (w : option Z) :
  Operation.out_of_range w = false <-> within_range w.
Proof.
  unfold Operation.out_of_range, within_range. destruct w as [n|].
  - split.
    + intros [Hl Hh]%orb_false_elim m [= <-]. apply Z.ltb_ge in Hl, Hh. lia.
    + intros Hn. specialize (Hn n eq_refl).
      apply orb_false_intro; apply Z.ltb_ge; lia.
  - split; [intros _ n Hn; discriminate|reflexivity].
Qed.

(** What [setOptions] accepts. *)
Lemma setOptions_ok (opts : SetOptionsOpts.t) (src : option AccountID) :
  (truthy (SetOptionsOpts.inflationDest opts) = true ->
   isValidAccountId (SetOptionsOpts.inflationDest opts) = true) ->
  within_range (SetOptionsOpts.masterWeight opts) ->
  within_range (SetOptionsOpts.lowThreshold opts) ->
  within_range (SetOptionsOpts.medThreshold opts) ->
  within_range (SetOptionsOpts.highThreshold opts) ->
  isUndefined (SetOptionsOpts.homeDomain opts) = true
  \/ isString (SetOptionsOpts.homeDomain opts) = true ->
  (forall s, SetOptionsOpts.signer opts = Some s ->
             isValidAccountId (SignerOpts.address s) = true
             /\ within_range (SignerOpts.weight s)) ->
  Operation.setSourceAccount (SetOptionsOpts.source opts) = Ok src ->
  exists op, Operation.setOptions opts = Ok op.
Proof.
  intros Hdest Hm Hl Hmd Hh Hhd Hsg Hsrc. unfold Operation.setOptions.
  apply out_of_range_within in Hm, Hl, Hmd, Hh. rewrite Hm, Hl, Hmd, Hh, Hsrc.
  assert (Hd : exists d,
             (if truthy (SetOptionsOpts.inflationDest opts)
              then if negb (isValidAccountId (SetOptionsOpts.inflationDest opts))
                   then Throw (Error "inflationDest is invalid")
                   else let* account := xdrAccountId (SetOptionsOpts.inflationDest opts) in
                        Ok (Some account)
              else Ok None) = Ok d).
  { destruct (truthy (SetOptionsOpts.inflationDest opts)); [|eexists; reflexivity].
    specialize (Hdest eq_refl). rewrite Hdest.
    destruct (isValidAccountId_inv _ Hdest) as (s & k & _ & _ & ->). eexists; reflexivity. }
  destruct Hd as [d ->]. cbn [bind].
  assert (Hhd' : exists hd,
             match SetOptionsOpts.homeDomain opts with
             | Undefined => Ok None
             | Str s => Ok (Some s)
             | _ => Throw (TypeError "homeDomain argument must be of type String")
             end = Ok hd).
  { destruct (SetOptionsOpts.homeDomain opts); destruct Hhd as [Hhd|Hhd];
      try discriminate Hhd; eexists; reflexivity. }
  destruct Hhd' as [hd ->]. cbn [bind].
  destruct (SetOptionsOpts.signer opts) as [s|]; [|eexists; reflexivity].
  destruct (Hsg s eq_refl) as [Hv Hw]. apply out_of_range_within in Hw.
  rewrite Hv, Hw. destruct (isValidAccountId_inv _ Hv) as (a & k & _ & _ & ->).
  eexists; reflexivity.
Qed.

(** C7. [setOptions] throws when the master weight, a threshold or the
    weight of the signer is present and outside of [0, 255], and accepts
    every value of these fields within the range (the other options being
    acceptable); 256 is refused as a master weight and 255 is accepted. *)
Theorem setOptions_range :
  (forall opts : SetOptionsOpts.t,
     outside_range (SetOptionsOpts.masterWeight opts)
     \/ outside_range (SetOptionsOpts.lowThreshold opts)
     \/ outside_range (SetOptionsOpts.medThreshold opts)
     \/ outside_range (SetOptionsOpts.highThreshold opts)
     \/ (exists s, SetOptionsOpts.signer opts = Some s
                   /\ outside_range (SignerOpts.weight s)) ->
     exists e, Operation.setOptions opts = Throw e)
  /\ (forall (opts : SetOptionsOpts.t) (src : option AccountID),
        (truthy (SetOptionsOpts.inflationDest opts) = true ->
         isValidAccountId (SetOptionsOpts.inflationDest opts) = true) ->
        isUndefined (SetOptionsOpts.homeDomain opts) = true
        \/ isString (SetOptionsOpts.homeDomain opts) = true ->
        (forall s, SetOptionsOpts.signer opts = Some s ->
                   isValidAccountId (SignerOpts.address s) = true) ->
        Operation.setSourceAccount (SetOptionsOpts.source opts) = Ok src ->
        within_range (SetOptionsOpts.masterWeight opts) ->
        within_range (SetOptionsOpts.lowThreshold opts) ->
        within_range (SetOptionsOpts.medThreshold opts) ->
        within_range (SetOptionsOpts.highThreshold opts) ->
        (forall s, SetOptionsOpts.signer opts = Some s -> within_range (SignerOpts.weight s)) ->
        exists op, Operation.setOptions opts = Ok op)
  /\ (forall opts : SetOptionsOpts.t,
        truthy (SetOptionsOpts.inflationDest opts) = false ->
        outside_range (SetOptionsOpts.masterWeight opts) ->
        Operation.setOptions opts
        = Throw (Error "masterWeight value must be between 0 and 255"))
  /\ outside_range (Some 256) /\ within_range (Some 255).
Proof.
  split; [|split; [|split; [|split]]].
  - intros opts Hout. destruct (Operation.setOptions opts) as [op|e] eqn:Hop;
      [|eexists; reflexivity].
    exfalso. destruct (setOptions_inv _ _ Hop)
      as (d & hd & sg & src & _ & Hm & Hl & Hmd & Hh & _ & Hsg & _).
    destruct Hout as [Ho|[Ho|[Ho|[Ho|(s & Hs & Ho)]]]];
      apply out_of_range_outside in Ho; try congruence.
    rewrite Hs in Hsg. destruct Hsg as (k & _ & Hw & _). congruence.
  - intros opts src Hdest Hhd Hsg Hsrc Hm Hl Hmd Hh Hw.
    apply (setOptions_ok opts src); try assumption.
    intros s Hs. split; [apply Hsg|apply Hw]; assumption.
  - intros opts Hd Ho. apply out_of_range_outside in Ho.
    unfold Operation.setOptions. rewrite Hd. cbn [bind]. rewrite Ho. reflexivity.
  - exists 256. split; [reflexivity|lia].
  - intros n [= <-]. lia.
Qed.

End SetOptions.

Section Decoder.
Context `{Collaborators}.

(** C8. An operation whose discriminant is none of the ten that
    [operationToObject] knows makes it throw the error Unknown operation:
    no object is returned. *)
Theorem operationToObject_unknown (operation : xdr.Operation.t) :
  ~ In (xdr.OperationBody.switch (xdr.Operation.body operation)) known_operations ->
  Operation.operationToObject operation = Throw (Error "Unknown operation").
Proof.
  intros Hn. unfold Operation.operationToObject.
  set (name := xdr.OperationBody.switch (xdr.Operation.body operation)) in *.
  assert (Hne : forall k : string, In k known_operations -> (name =? k)%string = false).
  { intros k Hk. apply String.eqb_neq. intros ->. contradiction. }
  cbv zeta.
  rewrite !Hne by (unfold known_operations; simpl; tauto).
  reflexivity.
Qed.

End Decoder.

Section ManageOffer.
Context `{Collaborators}.

Lemma UnsignedHyper_fromString_nonneg (n : Z) :
  0 <= n -> UnsignedHyper.fromString (Z_toString n) = Ok (n mod 2 ^ 64).
Proof.
  intros Hn. unfold UnsignedHyper.fromString, UnsignedHyper.wrap.
  rewrite (Z_toString_nonneg n Hn), is_digits_N_toString, N_toString_val.
  rewrite Z2N.id by assumption. reflexivity.
Qed.

Lemma UnsignedHyper_fromString_negative (n : Z) :
  n < 0 -> exists e, UnsignedHyper.fromString (Z_toString n) = Throw e.
Proof.
  intros Hn. unfold UnsignedHyper.fromString.
  rewrite (Z_toString_neg n Hn). eexists; reflexivity.
Qed.

Lemma UnsignedHyper_fromString_inv (s : string) (id : Z) :
  UnsignedHyper.fromString s = Ok id ->
  is_digits s = true /\ id = Z.of_N (digits_val s) mod 2 ^ 64.
Proof.
  unfold UnsignedHyper.fromString, UnsignedHyper.wrap.
  destruct (is_digits s); [|discriminate]. intros [= <-]. split; reflexivity.
Qed.

Lemma manageOffer_ok (opts : ManageOfferOpts.t) (selling buying : Asset) (amount : Hyper.t)
    (price : xdr.Price.t) (text : string) (offerId : UnsignedHyper.t)
    (src : option AccountID) :
  ManageOfferOpts.selling opts = Some selling ->
  ManageOfferOpts.buying opts = Some buying ->
  Operation.isValidAmount (ManageOfferOpts.amount opts) true = true ->
  Operation._toXDRAmount (ManageOfferOpts.amount opts) = Ok amount ->
  isUndefined (ManageOfferOpts.price opts) = false ->
  Operation._toXDRPrice (ManageOfferOpts.price opts) = Ok price ->
  (if isUndefined (ManageOfferOpts.offerId opts) then text = "0"
   else method_toString (ManageOfferOpts.offerId opts) = Ok text) ->
  UnsignedHyper.fromString text = Ok offerId ->
  Operation.setSourceAccount (ManageOfferOpts.source opts) = Ok src ->
  Operation.manageOffer opts
  = Ok (xdr.Operation.new _ src
          (xdr.OperationBody.manageOffer
             (xdr.ManageOfferOp.new _ (toXdrObject selling) (toXdrObject buying)
                amount price offerId))).
Proof.
  intros Hs Hb Hv Hn Hu Hp Ht Hid Hsrc.
  unfold Operation.manageOffer, Operation.method_toXdrObject.
  rewrite Hs, Hb. cbn [bind]. rewrite Hv, Hn. cbn [negb bind]. rewrite Hu, Hp. cbn [bind].
  destruct (isUndefined (ManageOfferOpts.offerId opts)); cbn [negb].
  - subst text. cbn [bind]. rewrite Hid. cbn [bind]. rewrite Hsrc. reflexivity.
  - rewrite Ht. cbn [bind]. rewrite Hid. cbn [bind]. rewrite Hsrc. reflexivity.
Qed.

Lemma isValidAmount_negative (s : string) (x : BigNumber.t) (allowZero : bool) :
  BigNumber.of_string s = Ok x -> BigNumber.isNegative x = true ->
  Operation.isValidAmount (Str s) allowZero = false.
Proof.
  intros Hs Hneg. destruct (Operation.isValidAmount (Str s) allowZero) eqn:Hv; [|reflexivity].
  apply isValidAmount_scaled in Hv as (x' & n & Hs' & Hneg' & _).
  rewrite Hs in Hs'. injection Hs' as <-. congruence.
Qed.

(** C9. [manageOffer] accepts the amount 0 and refuses an amount with a
    minus sign, -1 among them; without an offer id it encodes the id 0, and
    an id that is given is encoded from the text its [toString] gives,
    which has to be a string of digits: a number from 0 to 2^53 is encoded
    as itself and a string of digits as the number it denotes (modulo
    2^64), while the number 1e21, written [1e+21], is refused. *)
Theorem manageOffer_amount_and_offerId :
  (forall (opts : ManageOfferOpts.t) (selling buying : Asset) (price : xdr.Price.t)
          (src : option AccountID),
     ManageOfferOpts.selling opts = Some selling ->
     ManageOfferOpts.buying opts = Some buying ->
     isUndefined (ManageOfferOpts.price opts) = false ->
     Operation._toXDRPrice (ManageOfferOpts.price opts) = Ok price ->
     Operation.setSourceAccount (ManageOfferOpts.source opts) = Ok src ->
     ManageOfferOpts.amount opts = Str "0" ->
     (ManageOfferOpts.offerId opts = Undefined ->
      Operation.manageOffer opts
      = Ok (xdr.Operation.new _ src
              (xdr.OperationBody.manageOffer
                 (xdr.ManageOfferOp.new _ (toXdrObject selling) (toXdrObject buying)
                    0 price 0))))
     /\ (forall n, ManageOfferOpts.offerId opts = Number n -> 0 <= n <= 2 ^ 53 ->
         Operation.manageOffer opts
         = Ok (xdr.Operation.new _ src
                 (xdr.OperationBody.manageOffer
                    (xdr.ManageOfferOp.new _ (toXdrObject selling) (toXdrObject buying)
                       0 price n))))
     /\ (forall s, ManageOfferOpts.offerId opts = Str s -> is_digits s = true ->
         Operation.manageOffer opts
         = Ok (xdr.Operation.new _ src
                 (xdr.OperationBody.manageOffer
                    (xdr.ManageOfferOp.new _ (toXdrObject selling) (toXdrObject buying)
                       0 price (Z.of_N (digits_val s) mod 2 ^ 64)))))
     /\ (ManageOfferOpts.offerId opts = Number (10 ^ 21) ->
         Operation.manageOffer opts = Throw (Error "Invalid hyper string: 1e+21")))
  /\ (forall (opts : ManageOfferOpts.t) (s : string) (x : BigNumber.t),
        ManageOfferOpts.amount opts = Str s ->
        BigNumber.of_string s = Ok x -> BigNumber.isNegative x = true ->
        exists e, Operation.manageOffer opts = Throw e)
  /\ (forall opts : ManageOfferOpts.t,
        ManageOfferOpts.amount opts = Str "-1" ->
        exists e, Operation.manageOffer opts = Throw e)
  /\ (forall (opts : ManageOfferOpts.t) (op : xdr.Operation.t),
        Operation.manageOffer opts = Ok op ->
        exists selling buying amount price offerId src,
          op = xdr.Operation.new _ src
                 (xdr.OperationBody.manageOffer
                    (xdr.ManageOfferOp.new _ selling buying amount price offerId))
          /\ (ManageOfferOpts.offerId opts = Undefined -> offerId = 0)
          /\ (isUndefined (ManageOfferOpts.offerId opts) = false ->
              exists text,
                method_toString (ManageOfferOpts.offerId opts) = Ok text
                /\ is_digits text = true
                /\ offerId = Z.of_N (digits_val text) mod 2 ^ 64)
          /\ (forall n, ManageOfferOpts.offerId opts = Number n -> Z.abs n <= 2 ^ 53 ->
                        0 <= n /\ offerId = n)
          /\ (forall s, ManageOfferOpts.offerId opts = Str s ->
                        is_digits s = true /\ offerId = Z.of_N (digits_val s) mod 2 ^ 64)
          /\ (int32_price price ->
              exists res,
                Operation.operationToObject op = Ok res
                /\ res !! "offerId" = Some (Str (Z_toString offerId)))).
Proof.
  assert (Hneg : forall (opts : ManageOfferOpts.t) (s : string) (x : BigNumber.t),
            ManageOfferOpts.amount opts = Str s ->
            BigNumber.of_string s = Ok x -> BigNumber.isNegative x = true ->
            exists e, Operation.manageOffer opts = Throw e).
  { intros opts s x Ha Hs Hx. unfold Operation.manageOffer.
    rewrite Ha, (isValidAmount_negative s x true Hs Hx).
    destruct (Operation.method_toXdrObject (ManageOfferOpts.selling opts)),
      (Operation.method_toXdrObject (ManageOfferOpts.buying opts)); eexists; reflexivity. }
  assert (Hsmall : forall n, 0 <= n <= 2 ^ 53 -> n mod 2 ^ 64 = n).
  { intros n Hn. apply Z.mod_small. change (2 ^ 53) with 9007199254740992 in Hn.
    change (2 ^ 64) with 18446744073709551616. lia. }
  split; [|split; [exact Hneg|split]].
  - intros opts selling buying price src Hs Hb Hu Hp Hsrc Ha.
    assert (Hv : Operation.isValidAmount (ManageOfferOpts.amount opts) true = true)
      by (rewrite Ha; vm_compute; reflexivity).
    assert (Hn : Operation._toXDRAmount (ManageOfferOpts.amount opts) = Ok 0)
      by (rewrite Ha; vm_compute; reflexivity).
    split; [|split; [|split]].
    + intros Hid. apply (manageOffer_ok opts selling buying 0 price "0"); try assumption.
      * rewrite Hid. reflexivity.
      * reflexivity.
    + intros n Hid Hn0.
      apply (manageOffer_ok opts selling buying 0 price (Z_toString n)); try assumption.
      * rewrite Hid. cbn [isUndefined method_toString js_toString].
        rewrite Number_toString_safe by lia. reflexivity.
      * rewrite UnsignedHyper_fromString_nonneg by lia. rewrite Hsmall by assumption.
        reflexivity.
    + intros s Hid Hds.
      apply (manageOffer_ok opts selling buying 0 price s); try assumption.
      * rewrite Hid. reflexivity.
      * unfold UnsignedHyper.fromString. rewrite Hds. reflexivity.
    + intros Hid. unfold Operation.manageOffer.
      rewrite Hs, Hb. cbn [Operation.method_toXdrObject bind]. rewrite Hv, Hn.
      cbn [negb bind]. rewrite Hu, Hp. cbn [bind]. rewrite Hid. reflexivity.
  - intros opts Ha. apply (Hneg opts "-1" (BigNumber.Finite true 1 0) Ha); reflexivity.
  - intros opts op Hop.
    pose proof (manageOffer_inv _ _ Hop)
      as (a & b & n & p & id & text & src & Ha & Hb & Hv & Hn & Hu & Hp & Htext & Hid & Hs & Hop').
    exists (toXdrObject a), (toXdrObject b), n, p, id, src.
    split; [assumption|]. split; [|split; [|split; [|split]]].
    + intros Hund. rewrite Hund in Htext. cbn in Htext. subst text.
      vm_compute in Hid. injection Hid as <-. reflexivity.
    + intros Hdef. rewrite Hdef in Htext. exists text. split; [assumption|].
      apply UnsignedHyper_fromString_inv, Hid.
    + intros k Hk Hsafe. rewrite Hk in Htext. cbn [isUndefined method_toString js_toString] in Htext.
      rewrite Number_toString_safe in Htext by assumption. injection Htext as <-.
      destruct (Z.lt_ge_cases k 0) as [Hlt|Hge].
      * destruct (UnsignedHyper_fromString_negative k Hlt) as [e He]. congruence.
      * split; [assumption|]. rewrite (UnsignedHyper_fromString_nonneg k Hge) in Hid.
        injection Hid as <-. apply Hsmall. lia.
    + intros s Hk. rewrite Hk in Htext. cbn in Htext. injection Htext as <-.
      apply UnsignedHyper_fromString_inv, Hid.
    + intros H32. destruct (fromXDRPrice_int32 p H32) as [q Hq].
      destruct (amount_roundtrip _ _ _ Hv Hn) as (s' & Hf & _).
      subst op. decode. rewrite Hf. cbn [bind]. rewrite Hq. cbn [bind].
      eexists. split; [reflexivity|]. field. reflexivity.
Qed.

End ManageOffer.

Section RoundTrip.
Context `{Collaborators}.


End RoundTrip.

(** * The statements on the reference instance *)


(** * Further properties of the constructors *)

Section Outcomes.
Context `{Collaborators}.

Lemma setSourceAccount_accepts (source : value) :
  (exists src, Operation.setSourceAccount source = Ok src)
  <-> (truthy source = true -> isValidAccountId source = true).
Proof.
  unfold Operation.setSourceAccount. destruct (truthy source).
  - destruct (isValidAccountId source) eqn:Hv; cbn [negb].
    + destruct (isValidAccountId_inv _ Hv) as (s & k & _ & _ & ->).
      split; [reflexivity|]. intros _. eexists; reflexivity.
    + split; [intros [src Hs]; discriminate Hs|]. intros Hs. discriminate (Hs eq_refl).
  - split; [intros _ Hf; discriminate Hf|]. intros _. eexists; reflexivity.
Qed.

Lemma setSourceAccount_invalid (source : value) :
  truthy source = true -> isValidAccountId source = false ->
  Operation.setSourceAccount source = Throw (Error "Source address is invalid").
Proof. intros Ht Hv. unfold Operation.setSourceAccount. rewrite Ht, Hv. reflexivity. Qed.

Lemma setSourceAccount_falsy (source : value) :
  truthy source = false -> Operation.setSourceAccount source = Ok None.
Proof. intros Ht. unfold Operation.setSourceAccount. rewrite Ht. reflexivity. Qed.

Lemma toXDRAmount_valid (v : value) (allowZero : bool) :
  Operation.isValidAmount v allowZero = true -> exists n, Operation._toXDRAmount v = Ok n.
Proof.
  intros Hv. destruct (valid_amount_scaled _ _ Hv) as (s & x & n & _ & _ & _ & _ & _ & _ & Hn).
  exists n. exact Hn.
Qed.

(** [inflation] and the source of an operation: a source that is falsy
    (undefined, null, the empty string, zero) is ignored without being
    checked; any other source must be a valid account id. *)
Theorem inflation_source (opts : InflationOpts.t) :
  (truthy (InflationOpts.source opts) = false ->
   Operation.inflation opts = Ok (xdr.Operation.new _ None xdr.OperationBody.inflation))
  /\ (truthy (InflationOpts.source opts) = true ->
      isValidAccountId (InflationOpts.source opts) = false ->
      Operation.inflation opts = Throw (Error "Source address is invalid"))
  /\ (truthy (InflationOpts.source opts) = true ->
      isValidAccountId (InflationOpts.source opts) = true ->
      exists s k,
        InflationOpts.source opts = Str s /\ decodeCheck s = Some k
        /\ Operation.inflation opts
           = Ok (xdr.Operation.new _ (Some k) xdr.OperationBody.inflation)).
Proof.
  unfold Operation.inflation. split; [|split].
  - intros Ht. rewrite (setSourceAccount_falsy _ Ht). reflexivity.
  - intros Ht Hv. rewrite (setSourceAccount_invalid _ Ht Hv). reflexivity.
  - intros Ht Hv. destruct (isValidAccountId_inv _ Hv) as (s & k & Hs & Hk & Hx).
    exists s, k. split; [assumption|]. split; [assumption|].
    unfold Operation.setSourceAccount. rewrite Ht, Hv, Hx. reflexivity.
Qed.

(** [createAccount] returns an operation exactly when the destination is a
    valid account id, the starting balance a valid amount other than zero
    and the source falsy or a valid account id; the checks are made in this
    order, each with its own error. *)
Theorem createAccount_accepts (opts : CreateAccountOpts.t) :
  ((exists op, Operation.createAccount opts = Ok op)
   <-> isValidAccountId (CreateAccountOpts.destination opts) = true
       /\ Operation.isValidAmount (CreateAccountOpts.startingBalance opts) false = true
       /\ (truthy (CreateAccountOpts.source opts) = true ->
           isValidAccountId (CreateAccountOpts.source opts) = true))
  /\ (isValidAccountId (CreateAccountOpts.destination opts) = false ->
      Operation.createAccount opts = Throw (Error "destination is invalid"))
  /\ (isValidAccountId (CreateAccountOpts.destination opts) = true ->
      Operation.isValidAmount (CreateAccountOpts.startingBalance opts) false = false ->
      Operation.createAccount opts
      = Throw (TypeError
          "startingBalance argument must be of type String and represent a positive number"))
  /\ (isValidAccountId (CreateAccountOpts.destination opts) = true ->
      Operation.isValidAmount (CreateAccountOpts.startingBalance opts) false = true ->
      truthy (CreateAccountOpts.source opts) = true ->
      isValidAccountId (CreateAccountOpts.source opts) = false ->
      Operation.createAccount opts = Throw (Error "Source address is invalid")).
Proof.
  split; [|split; [|split]].
  - split.
    + intros [op Hop]. destruct (createAccount_inv _ _ Hop) as (d & b & src & Hd & Hv & _ & Hs & _).
      split; [|split; [assumption|]].
      * destruct (xdrAccountId_inv _ _ Hd) as (s & Hs' & Hk).
        rewrite Hs'. cbn [isValidAccountId]. rewrite Hk. reflexivity.
      * apply setSourceAccount_accepts. exists src. assumption.
    + intros (Hd & Hv & Hs). destruct (isValidAccountId_inv _ Hd) as (s & k & _ & _ & Hx).
      destruct (toXDRAmount_valid _ _ Hv) as [n Hn].
      apply setSourceAccount_accepts in Hs as [src Hs].
      unfold Operation.createAccount. rewrite Hd, Hv, Hx, Hn. cbn [negb bind]. rewrite Hs.
      eexists; reflexivity.
  - intros Hd. unfold Operation.createAccount. rewrite Hd. reflexivity.
  - intros Hd Hv. unfold Operation.createAccount. rewrite Hd, Hv. reflexivity.
  - intros Hd Hv Ht Hs. destruct (isValidAccountId_inv _ Hd) as (s & k & _ & _ & Hx).
    destruct (toXDRAmount_valid _ _ Hv) as [n Hn].
    unfold Operation.createAccount. rewrite Hd, Hv, Hx, Hn. cbn [negb bind].
    rewrite (setSourceAccount_invalid _ Ht Hs). reflexivity.
Qed.

(** [payment] returns an operation exactly when the destination is valid,
    an asset is given, the amount is a valid amount other than zero and the
    source is acceptable; the destination is checked first, then the asset,
    then the amount. *)
Theorem payment_accepts (opts : PaymentOpts.t) :
  ((exists op, Operation.payment opts = Ok op)
   <-> isValidAccountId (PaymentOpts.destination opts) = true
       /\ PaymentOpts.asset opts <> None
       /\ Operation.isValidAmount (PaymentOpts.amount opts) false = true
       /\ (truthy (PaymentOpts.source opts) = true ->
           isValidAccountId (PaymentOpts.source opts) = true))
  /\ (isValidAccountId (PaymentOpts.destination opts) = false ->
      Operation.payment opts = Throw (Error "destination is invalid"))
  /\ (isValidAccountId (PaymentOpts.destination opts) = true ->
      PaymentOpts.asset opts = None ->
      Operation.payment opts = Throw (Error "Must provide an asset for a payment operation"))
  /\ (isValidAccountId (PaymentOpts.destination opts) = true ->
      PaymentOpts.asset opts <> None ->
      Operation.isValidAmount (PaymentOpts.amount opts) false = false ->
      Operation.payment opts
      = Throw (TypeError
          "amount argument must be of type String and represent a positive number")).
Proof.
  split; [|split; [|split]].
  - split.
    + intros [op Hop].
      destruct (payment_inv _ _ Hop) as (d & a & n & src & Hd & Ha & Hv & _ & Hs & _).
      split; [|split; [congruence|split; [assumption|]]].
      * destruct (xdrAccountId_inv _ _ Hd) as (s & Hs' & Hk).
        rewrite Hs'. cbn [isValidAccountId]. rewrite Hk. reflexivity.
      * apply setSourceAccount_accepts. exists src. assumption.
    + intros (Hd & Ha & Hv & Hs). destruct (isValidAccountId_inv _ Hd) as (s & k & _ & _ & Hx).
      destruct (toXDRAmount_valid _ _ Hv) as [n Hn].
      apply setSourceAccount_accepts in Hs as [src Hs].
      unfold Operation.payment. rewrite Hd, Hv, Hx, Hn.
      destruct (PaymentOpts.asset opts); [|contradiction].
      cbn [negb bind]. rewrite Hs. eexists; reflexivity.
  - intros Hd. unfold Operation.payment. rewrite Hd. reflexivity.
  - intros Hd Ha. unfold Operation.payment. rewrite Hd, Ha. reflexivity.
  - intros Hd Ha Hv. unfold Operation.payment. rewrite Hd, Hv.
    destruct (PaymentOpts.asset opts); [reflexivity|contradiction].
Qed.

(** [pathPayment] checks, in this order, the send asset, the maximum to
    send, the destination, the destination asset and the destination
    amount, and returns an operation exactly when all are acceptable and so
    is the source. *)
Theorem pathPayment_accepts (opts : PathPaymentOpts.t) :
  ((exists op, Operation.pathPayment opts = Ok op)
   <-> PathPaymentOpts.sendAsset opts <> None
       /\ Operation.isValidAmount (PathPaymentOpts.sendMax opts) false = true
       /\ isValidAccountId (PathPaymentOpts.destination opts) = true
       /\ PathPaymentOpts.destAsset opts <> None
       /\ Operation.isValidAmount (PathPaymentOpts.destAmount opts) false = true
       /\ (truthy (PathPaymentOpts.source opts) = true ->
           isValidAccountId (PathPaymentOpts.source opts) = true))
  /\ (PathPaymentOpts.sendAsset opts = None ->
      Operation.pathPayment opts = Throw (Error "Must specify a send asset"))
  /\ (PathPaymentOpts.sendAsset opts <> None ->
      Operation.isValidAmount (PathPaymentOpts.sendMax opts) false = false ->
      Operation.pathPayment opts
      = Throw (TypeError
          "sendMax argument must be of type String and represent a positive number"))
  /\ (PathPaymentOpts.sendAsset opts <> None ->
      Operation.isValidAmount (PathPaymentOpts.sendMax opts) false = true ->
      isValidAccountId (PathPaymentOpts.destination opts) = false ->
      Operation.pathPayment opts = Throw (Error "destination is invalid"))
  /\ (PathPaymentOpts.sendAsset opts <> None ->
      Operation.isValidAmount (PathPaymentOpts.sendMax opts) false = true ->
      isValidAccountId (PathPaymentOpts.destination opts) = true ->
      PathPaymentOpts.destAsset opts = None ->
      Operation.pathPayment opts
      = Throw (Error "Must provide a destAsset for a payment operation"))
  /\ (PathPaymentOpts.sendAsset opts <> None ->
      Operation.isValidAmount (PathPaymentOpts.sendMax opts) false = true ->
      isValidAccountId (PathPaymentOpts.destination opts) = true ->
      PathPaymentOpts.destAsset opts <> None ->
      Operation.isValidAmount (PathPaymentOpts.destAmount opts) false = false ->
      Operation.pathPayment opts
      = Throw (TypeError
          "destAmount argument must be of type String and represent a positive number")).
Proof.
  split; [|split; [|split; [|split; [|split]]]].
  - split.
    + intros [op Hop].
      destruct (pathPayment_inv _ _ Hop)
        as (sa & sm & d & da & dm & src & Hsa & Hv1 & _ & Hd & Hda & Hv2 & _ & Hs & _).
      split; [congruence|]. split; [assumption|]. split; [|split; [congruence|split; [assumption|]]].
      * destruct (xdrAccountId_inv _ _ Hd) as (s & Hs' & Hk).
        rewrite Hs'. cbn [isValidAccountId]. rewrite Hk. reflexivity.
      * apply setSourceAccount_accepts. exists src. assumption.
    + intros (Hsa & Hv1 & Hd & Hda & Hv2 & Hs).
      destruct (isValidAccountId_inv _ Hd) as (s & k & _ & _ & Hx).
      destruct (toXDRAmount_valid _ _ Hv1) as [n1 Hn1].
      destruct (toXDRAmount_valid _ _ Hv2) as [n2 Hn2].
      apply setSourceAccount_accepts in Hs as [src Hs].
      unfold Operation.pathPayment. rewrite Hv1, Hd, Hv2, Hx, Hn1, Hn2.
      destruct (PathPaymentOpts.sendAsset opts); [|contradiction].
      destruct (PathPaymentOpts.destAsset opts); [|contradiction].
      cbn [negb bind]. rewrite Hs. eexists; reflexivity.
  - intros Hsa. unfold Operation.pathPayment. rewrite Hsa. reflexivity.
  - intros Hsa Hv. unfold Operation.pathPayment. rewrite Hv.
    destruct (PathPaymentOpts.sendAsset opts); [reflexivity|contradiction].
  - intros Hsa Hv Hd. unfold Operation.pathPayment. rewrite Hv, Hd.
    destruct (PathPaymentOpts.sendAsset opts); [reflexivity|contradiction].
  - intros Hsa Hv Hd Hda. unfold Operation.pathPayment. rewrite Hv, Hd, Hda.
    destruct (PathPaymentOpts.sendAsset opts); [reflexivity|contradiction].
  - intros Hsa Hv Hd Hda Hv2. unfold Operation.pathPayment. rewrite Hv, Hd, Hv2.
    destruct (PathPaymentOpts.sendAsset opts); [|contradiction].
    destruct (PathPaymentOpts.destAsset opts); [reflexivity|contradiction].
Qed.

(** [accountMerge] returns an operation exactly when the destination is a
    valid account id and the source is acceptable; the body of the
    operation is the account the destination decodes to. *)
Theorem accountMerge_accepts (opts : AccountMergeOpts.t) :
  ((exists op, Operation.accountMerge opts = Ok op)
   <-> isValidAccountId (AccountMergeOpts.destination opts) = true
       /\ (truthy (AccountMergeOpts.source opts) = true ->
           isValidAccountId (AccountMergeOpts.source opts) = true))
  /\ (isValidAccountId (AccountMergeOpts.destination opts) = false ->
      Operation.accountMerge opts = Throw (Error "destination is invalid"))
  /\ (forall op,
        Operation.accountMerge opts = Ok op ->
        exists s k,
          AccountMergeOpts.destination opts = Str s /\ decodeCheck s = Some k
          /\ xdr.Operation.body op = xdr.OperationBody.accountMerge k).
Proof.
  split; [|split].
  - split.
    + intros [op Hop]. unfold Operation.accountMerge in Hop.
      destruct (isValidAccountId (AccountMergeOpts.destination opts)); [|discriminate Hop].
      cbn [negb] in Hop. apply bind_ok in Hop as (d & _ & Hop).
      apply bind_ok in Hop as (src & Hs & _).
      split; [reflexivity|]. apply setSourceAccount_accepts. exists src. assumption.
    + intros [Hd Hs]. destruct (isValidAccountId_inv _ Hd) as (s & k & _ & _ & Hx).
      apply setSourceAccount_accepts in Hs as [src Hs].
      unfold Operation.accountMerge. rewrite Hd, Hx. cbn [negb bind]. rewrite Hs.
      eexists; reflexivity.
  - intros Hd. unfold Operation.accountMerge. rewrite Hd. reflexivity.
  - intros op Hop. unfold Operation.accountMerge in Hop.
    destruct (isValidAccountId (AccountMergeOpts.destination opts)); [|discriminate Hop].
    cbn [negb] in Hop. apply bind_ok in Hop as (d & Hd & Hop).
    apply bind_ok in Hop as (src & Hs & Hop). injection Hop as <-.
    destruct (xdrAccountId_inv _ _ Hd) as (s & Hs' & Hk).
    exists s, d. repeat split; assumption.
Qed.

End Outcomes.

(** * Amounts outside the validated range *)

Lemma magnitude_lower (c : N) (k : Z) :
  (0 < c)%N -> 0 <= k -> 10 ^ (k + BigNumber.ndigits c - 1) <= Z.of_N c * 10 ^ k.
Proof.
  intros Hc Hk. pose proof (ndigits_lower c Hc) as Hlo. pose proof (ndigits_pos c) as Hn.
  replace (k + BigNumber.ndigits c - 1) with ((BigNumber.ndigits c - 1) + k) by lia.
  rewrite Z.pow_add_r by lia. pose proof (pow10_pos k Hk). nia.
Qed.

Lemma magnitude_upper (c : N) (k : Z) :
  0 <= k -> Z.of_N c * 10 ^ k < 10 ^ (k + BigNumber.ndigits c).
Proof.
  intros Hk. pose proof (ndigits_upper c) as Hup. pose proof (ndigits_pos c) as Hn.
  replace (k + BigNumber.ndigits c) with (BigNumber.ndigits c + k) by lia.
  rewrite Z.pow_add_r by lia. pose proof (pow10_pos k Hk). nia.
Qed.

Lemma Hyper_fromString_not_digits (neg : bool) (d : ascii) (r : string) :
  isDigit d = true -> all_digits r = false ->
  exists e, Hyper.fromString (if neg then String "-" (String d r) else String d r) = Throw e.
Proof.
  intros Hd Hr. unfold Hyper.fromString. destruct neg.
  - cbn [split_minus]. change (("-" =? "-")%char) with true. cbv iota.
    cbn [is_digits all_digits]. rewrite Hd, Hr. eexists; reflexivity.
  - rewrite split_minus_digit by assumption.
    cbn [is_digits all_digits]. rewrite Hd, Hr. eexists; reflexivity.
Qed.

Lemma toExponential_shape (ds : string) (sci : Z) :
  is_digits ds = true ->
  exists d r, BigNumber.toExponential ds sci = String d r /\ isDigit d = true
              /\ all_digits r = false.
Proof.
  intros Hds. unfold BigNumber.toExponential.
  destruct ds as [|a r0]; [discriminate Hds|].
  cbn [is_digits all_digits] in Hds. apply andb_true_iff in Hds as [Ha Hr0].
  assert (Hsuffix : forall t : string,
            all_digits (t ++ (if sci <? 0 then "e" else "e+") ++ Z_toString sci) = false).
  { intros t. rewrite all_digits_app. apply andb_false_iff. right.
    destruct (sci <? 0); rewrite app_cons; reflexivity. }
  destruct r0 as [|b r1].
  - exists a, (EmptyString ++ (if sci <? 0 then "e" else "e+") ++ Z_toString sci).
    split; [apply app_cons|]. split; [assumption|]. apply Hsuffix.
  - exists a, (String "." (String b r1) ++ (if sci <? 0 then "e" else "e+") ++ Z_toString sci).
    split; [apply app_cons|]. split; [assumption|]. apply Hsuffix.
Qed.

Lemma toFixedPoint_shape (ds : string) (sci : Z) :
  is_digits ds = true -> sci + 1 < strlen ds ->
  exists d r, BigNumber.toFixedPoint ds sci = String d r /\ isDigit d = true
              /\ all_digits r = false.
Proof.
  intros Hds Hlen. unfold BigNumber.toFixedPoint.
  destruct (Z.ltb_spec sci 0) as [Hneg|Hpos].
  - exists "0"%char, (String "." (zeros (Z.to_nat (- sci - 1)) ++ ds)).
    split; [|split; reflexivity]. rewrite !app_cons, app_empty. reflexivity.
  - destruct (Z.ltb_spec (strlen ds) (sci + 1)) as [|_]; [lia|].
    destruct (Z.ltb_spec (sci + 1) (strlen ds)) as [_|]; [|lia].
    destruct ds as [|a r0]; [discriminate Hds|].
    cbn [is_digits all_digits] in Hds. apply andb_true_iff in Hds as [Ha Hr0].
    replace (Z.to_nat (sci + 1)) with (S (Z.to_nat sci)) by lia. cbn [take].
    exists a, (take (Z.to_nat sci) r0 ++ "." ++ drop (S (Z.to_nat sci)) (String a r0)).
    split; [apply app_cons|]. split; [assumption|].
    rewrite all_digits_app. apply andb_false_iff. right. rewrite app_cons. reflexivity.
Qed.

(** The text of a number that is no integer, or has 22 digits or more, is
    no text [Hyper.fromString] reads. *)
Lemma toString_not_integer (neg : bool) (c : N) (e : Z) :
  c <> 0%N -> e < 0 \/ BigNumber.TO_EXP_POS <= e + BigNumber.ndigits c - 1 ->
  exists err, Hyper.fromString (BigNumber.toString (BigNumber.Finite neg c e)) = Throw err.
Proof.
  intros Hc Hcase. unfold BigNumber.toString, BigNumber.ndigits in *.
  pose proof (is_digits_N_toString c) as Hnd. pose proof (N_toString_length c) as Hl.
  destruct (N.eqb_spec c 0) as [|_]; [contradiction|]. cbn [negb]. rewrite andb_true_r.
  revert Hnd Hl Hcase. generalize (N_toString c) as ds. intros ds Hnd Hl Hcase.
  cbv zeta. set (sci := e + strlen ds - 1) in *.
  assert (Hshape : exists d r,
            (if (sci <=? BigNumber.TO_EXP_NEG) || (BigNumber.TO_EXP_POS <=? sci)
             then BigNumber.toExponential ds sci else BigNumber.toFixedPoint ds sci)
            = String d r /\ isDigit d = true /\ all_digits r = false).
  { destruct ((sci <=? BigNumber.TO_EXP_NEG) || (BigNumber.TO_EXP_POS <=? sci)) eqn:Hexp.
    - apply toExponential_shape. assumption.
    - apply orb_false_iff in Hexp as [_ Hhi]. apply Z.leb_gt in Hhi.
      apply toFixedPoint_shape; [assumption|]. unfold sci in *. lia. }
  destruct Hshape as (d & r & -> & Hd & Hr).
  apply Hyper_fromString_not_digits; assumption.
Qed.

Section Exactness.
Context `{Collaborators}.

(** [_toXDRAmount] never rounds: a text is turned into a 64-bit integer
    exactly when it denotes a multiple [m] of 0.0000001 below 10^21 in
    absolute value, and the integer is [m], wrapped around where it does not
    fit in 64 bits. *)
Theorem toXDRAmount_exact (s : string) (n : Z) :
  Operation._toXDRAmount (Str s) = Ok n
  <-> exists x m,
        BigNumber.of_string s = Ok x /\ scaled x m
        /\ Z.abs m < 10 ^ 21 /\ n = Hyper.wrap m.
Proof.
  unfold Operation._toXDRAmount. cbn [BigNumber_new js_toString].
  destruct (BigNumber.of_string s) as [x|err] eqn:Hs; cbn [bind].
  2:{ split; [discriminate|]. intros (x & m & Hx & _). discriminate Hx. }
  pose proof (of_string_wf _ _ Hs) as Hwf. rewrite big_ONE.
  destruct x as [|neg|neg c e].
  - split; [discriminate|]. intros (x & m & Hx & Hsc & _). injection Hx as <-. contradiction.
  - split; [destruct neg; discriminate|].
    intros (x & m & Hx & Hsc & _). injection Hx as <-. contradiction.
  - destruct (N.eq_dec c 0%N) as [->|Hc].
    { rewrite times_zero.
      replace (Hyper.fromString (BigNumber.toString (BigNumber.Finite neg 0 0))) with (Ok 0)
        by (destruct neg; reflexivity).
      destruct Hwf as [[_ ->]|[? _]]; [|contradiction].
      split.
      - intros Hn. injection Hn as <-. exists (BigNumber.Finite neg 0 0), 0.
        split; [reflexivity|]. split; [destruct neg; reflexivity|]. split; reflexivity.
      - intros (x & m & Hx & Hsc & _ & ->). injection Hx as <-.
        apply scaled_finite in Hsc; [|left; split; reflexivity]. destruct Hsc as [_ ->].
        destruct neg; reflexivity. }
    pose proof Hwf as [[? _]|(_ & Hm & Hlo & Hhi)]; [contradiction|].
    assert (Hpos : (0 < c)%N) by lia. pose proof (ndigits_pos c) as Hnd.
    rewrite times_pow10 by assumption.
    assert (Hrhs : forall P : Prop,
              (-7 <= e -> Z.abs ((if neg then - Z.of_N c else Z.of_N c) * 10 ^ (e + 7)) < 10 ^ 21
               -> P) ->
              (exists x m,
                  Ok (BigNumber.Finite neg c e) = Ok x /\ scaled x m
                  /\ Z.abs m < 10 ^ 21 /\ n = Hyper.wrap m) -> P).
    { intros P HP (x & m & Hx & Hsc & Hm21 & _). injection Hx as <-.
      apply scaled_finite in Hsc; [|assumption]. destruct Hsc as [He ->]. auto. }
    assert (Habs : -7 <= e ->
              Z.abs ((if neg then - Z.of_N c else Z.of_N c) * 10 ^ (e + 7))
              = Z.of_N c * 10 ^ (e + 7)).
    { intros He. pose proof (pow10_pos (e + 7) ltac:(lia)). destruct neg; nia. }
    destruct (Z.ltb_spec BigNumber.MAX_EXP (e + 7 + BigNumber.ndigits c - 1)) as [Hbig|Hle].
    { split; [destruct neg; discriminate|]. apply Hrhs. intros He Hlt. rewrite Habs in Hlt by lia.
      pose proof (magnitude_lower c (e + 7) Hpos ltac:(lia)) as Hmag.
      assert (10 ^ 21 <= 10 ^ (e + 7 + BigNumber.ndigits c - 1)).
      { apply Z.pow_le_mono_r; unfold BigNumber.MAX_EXP in Hbig; lia. }
      lia. }
    destruct (Z.ltb_spec (e + 7 + BigNumber.ndigits c - 1) BigNumber.MIN_EXP) as [Hsm|_].
    { unfold BigNumber.MIN_EXP in *. lia. }
    destruct (Z_lt_le_dec e (-7)) as [Hfrac|He].
    { destruct (toString_not_integer neg c (e + 7) Hc ltac:(left; lia)) as [err ->].
      split; [discriminate|]. apply Hrhs. lia. }
    destruct (Z_lt_le_dec (e + 7 + BigNumber.ndigits c - 1) BigNumber.TO_EXP_POS) as [Hfit|Hexp].
    + rewrite toString_integer; [|right; repeat split; try assumption; lia|lia|assumption].
      split.
      * intros Hn. injection Hn as <-.
        exists (BigNumber.Finite neg c e), ((if neg then - Z.of_N c else Z.of_N c) * 10 ^ (e + 7)).
        split; [reflexivity|]. split; [apply scaled_finite; [assumption|]; split; [lia|reflexivity]|].
        split; [|reflexivity]. rewrite Habs by lia.
        pose proof (magnitude_upper c (e + 7) ltac:(lia)) as Hmag.
        assert (10 ^ (e + 7 + BigNumber.ndigits c) <= 10 ^ 21).
        { apply Z.pow_le_mono_r; unfold BigNumber.TO_EXP_POS in Hfit; lia. }
        lia.
      * intros (x & m & Hx & Hsc & _ & ->). injection Hx as <-.
        apply scaled_finite in Hsc; [|assumption]. destruct Hsc as [_ ->]. reflexivity.
    + destruct (toString_not_integer neg c (e + 7) Hc ltac:(right; lia)) as [err ->].
      split; [discriminate|]. apply Hrhs. intros _ Hlt. rewrite Habs in Hlt by lia.
      pose proof (magnitude_lower c (e + 7) Hpos ltac:(lia)) as Hmag.
      assert (10 ^ 21 <= 10 ^ (e + 7 + BigNumber.ndigits c - 1)).
      { apply Z.pow_le_mono_r; unfold BigNumber.TO_EXP_POS in Hexp; lia. }
      lia.
Qed.

End Exactness.

(** * Zero amounts *)

Section Zero.
Context `{Collaborators}.

Lemma isValidAmount_zero (s : string) (x : BigNumber.t) :
  BigNumber.of_string s = Ok x -> BigNumber.isZero x = true ->
  Operation.isValidAmount (Str s) false = false.
Proof.
  intros Hs Hz. unfold Operation.isValidAmount. cbn [isString negb BigNumber_new js_toString].
  rewrite Hs, Hz. reflexivity.
Qed.

(** [allowZero] matters for zero only: an amount valid without it is valid
    with it, and the two answers differ exactly on the texts that denote
    zero without a minus sign. *)
Theorem allowZero_only_zero (v : value) :
  (Operation.isValidAmount v false = true -> Operation.isValidAmount v true = true)
  /\ (Operation.isValidAmount v true = true /\ Operation.isValidAmount v false = false
      <-> exists s, v = Str s /\ BigNumber.of_string s = Ok (BigNumber.Finite false 0 0)).
Proof.
  split.
  - intros Hv. destruct (isValidAmount_isString _ _ Hv) as [s ->].
    destruct (BigNumber.of_string s) as [x|err] eqn:Hs.
    2:{ rewrite (isValidAmount_throw _ _ _ Hs) in Hv. discriminate Hv. }
    destruct x as [| |neg c e];
      try (rewrite (isValidAmount_nonfinite _ _ _ Hs eq_refl) in Hv; discriminate Hv).
    pose proof (proj1 (isValidAmount_finite _ _ _ _ _ Hs) Hv) as (Hn & _ & He & Hb).
    apply (isValidAmount_finite _ _ _ _ _ Hs). repeat split; try assumption. right; reflexivity.
  - split.
    + intros [Ht Hf]. destruct (isValidAmount_isString _ _ Ht) as [s ->]. exists s.
      split; [reflexivity|].
      destruct (BigNumber.of_string s) as [x|err] eqn:Hs.
      2:{ rewrite (isValidAmount_throw _ _ _ Hs) in Ht. discriminate Ht. }
      pose proof (of_string_wf _ _ Hs) as Hwf.
      destruct x as [| |neg c e];
        try (rewrite (isValidAmount_nonfinite _ _ _ Hs eq_refl) in Ht; discriminate Ht).
      pose proof (proj1 (isValidAmount_finite _ _ _ _ _ Hs) Ht) as (Hn & _ & He & Hb).
      subst neg.
      destruct (N.eq_dec c 0%N) as [->|Hc].
      * destruct Hwf as [[_ ->]|[? _]]; [reflexivity|contradiction].
      * assert (Hv : Operation.isValidAmount (Str s) false = true).
        { apply (isValidAmount_finite _ _ _ _ _ Hs). repeat split; try assumption.
          left; assumption. }
        rewrite Hv in Hf. discriminate Hf.
    + intros (s & -> & Hs). split.
      * apply (isValidAmount_finite _ _ _ _ _ Hs).
        split; [reflexivity|]. split; [right; reflexivity|]. split; lia.
      * apply (isValidAmount_zero _ _ Hs). reflexivity.
Qed.

(** The constructors that check their amount without [allowZero] refuse a
    zero amount: [createAccount], [payment], [pathPayment] (both amounts)
    and [createPassiveOffer], whose documentation says a zero amount
    deletes the offer. *)
Theorem zero_amount_refused (s : string) (x : BigNumber.t) :
  BigNumber.of_string s = Ok x -> BigNumber.isZero x = true ->
  (forall opts, CreateAccountOpts.startingBalance opts = Str s ->
                exists e, Operation.createAccount opts = Throw e)
  /\ (forall opts, PaymentOpts.amount opts = Str s ->
                   exists e, Operation.payment opts = Throw e)
  /\ (forall opts, PathPaymentOpts.sendMax opts = Str s \/ PathPaymentOpts.destAmount opts = Str s ->
                   exists e, Operation.pathPayment opts = Throw e)
  /\ (forall opts, CreatePassiveOfferOpts.amount opts = Str s ->
                   exists e, Operation.createPassiveOffer opts = Throw e)
  /\ (forall opts selling buying,
        CreatePassiveOfferOpts.amount opts = Str s ->
        CreatePassiveOfferOpts.selling opts = Some selling ->
        CreatePassiveOfferOpts.buying opts = Some buying ->
        Operation.createPassiveOffer opts
        = Throw (TypeError
            "amount argument must be of type String and represent a positive number")).
Proof.
  intros Hs Hz. pose proof (isValidAmount_zero _ _ Hs Hz) as Hv.
  assert (Hthrow : forall (A : Type) (r : result A),
            (forall a, r = Ok a -> False) -> exists e, r = Throw e).
  { intros A [a|e] Hr; [destruct (Hr a eq_refl)|exists e; reflexivity]. }
  split; [|split; [|split; [|split]]].
  - intros opts Hop. apply Hthrow. intros op Hok.
    destruct (createAccount_inv _ _ Hok) as (d & b & src & _ & Hv' & _).
    rewrite Hop, Hv in Hv'. discriminate Hv'.
  - intros opts Hop. apply Hthrow. intros op Hok.
    destruct (payment_inv _ _ Hok) as (d & a & n & src & _ & _ & Hv' & _).
    rewrite Hop, Hv in Hv'. discriminate Hv'.
  - intros opts Hop. apply Hthrow. intros op Hok.
    destruct (pathPayment_inv _ _ Hok)
      as (sa & sm & d & da & dm & src & _ & Hv1 & _ & _ & _ & Hv2 & _).
    destruct Hop as [Hop|Hop].
    + rewrite Hop, Hv in Hv1. discriminate Hv1.
    + rewrite Hop, Hv in Hv2. discriminate Hv2.
  - intros opts Hop. apply Hthrow. intros op Hok.
    destruct (createPassiveOffer_inv _ _ Hok) as (se & bu & a & p & src & _ & _ & Hv' & _).
    rewrite Hop, Hv in Hv'. discriminate Hv'.
  - intros opts selling buying Hop Hse Hbu. unfold Operation.createPassiveOffer.
    rewrite Hse, Hbu, Hop, Hv. reflexivity.
Qed.

End Zero.

(** * Prices *)

Lemma of_number_int32_make (n : Z) :
  - 2 ^ 31 <= n < 2 ^ 31 ->
  BigNumber.of_number n = Ok (BigNumber.make (n <? 0) (Z.abs_N n) 0).
Proof.
  intros Hn. unfold BigNumber.of_number.
  rewrite Number_value_safe
    by (change (2 ^ 31) with 2147483648 in Hn; change (2 ^ 53) with 9007199254740992; lia).
  destruct (BigNumber.make (n <? 0) (Z.abs_N n) 0); try reflexivity.
  assert (Hsafe : (BigNumber.MAX_SAFE_INTEGER <? Z.abs n) = false).
  { apply Z.ltb_ge. unfold BigNumber.MAX_SAFE_INTEGER.
    change (2 ^ 31) with 2147483648 in Hn. lia. }
  rewrite Hsafe, andb_false_r. reflexivity.
Qed.

(** A number of at most [b] digits is kept as it is, without its trailing
    zeros. *)
Lemma make_bounded (neg : bool) (c : N) (e b : Z) :
  c <> 0%N -> Z.of_N c < 10 ^ b -> 0 <= b ->
  BigNumber.MIN_EXP <= e -> e + b <= BigNumber.MAX_EXP ->
  exists c' e',
    BigNumber.make neg c e = BigNumber.Finite neg c' e'
    /\ c' <> 0%N /\ e <= e' /\ Z.of_N c = Z.of_N c' * 10 ^ (e' - e)
    /\ e' + BigNumber.ndigits c' - 1 < e + b
    /\ BigNumber.wf (BigNumber.Finite neg c' e').
Proof.
  intros Hc Hb Hb0 Hlo Hhi.
  destruct (make_cases neg c e Hc) as (c' & e' & H1 & H2 & H3 & H4 & Hcases).
  assert (Hpos : (0 < c')%N) by lia. pose proof (ndigits_pos c') as Hnd.
  assert (Hsci : e' + BigNumber.ndigits c' - 1 < e + b).
  { pose proof (magnitude_lower c' (e' - e) Hpos ltac:(lia)) as Hmag.
    rewrite <- H4 in Hmag.
    assert (Hlt : 10 ^ (e' - e + BigNumber.ndigits c' - 1) < 10 ^ b) by lia.
    apply Z.pow_lt_mono_r_iff in Hlt; lia. }
  destruct Hcases as [[Hbig _]|[[Hsm _]|[_ Hmk]]]; [lia|lia|].
  exists c', e'. repeat split; try assumption.
  right. repeat split; try assumption; lia.
Qed.

Lemma of_number_positive (n : Z) :
  0 < n < 2 ^ 31 ->
  exists c e,
    BigNumber.of_number n = Ok (BigNumber.Finite false c e)
    /\ c <> 0%N /\ 0 <= e < 10 /\ n = Z.of_N c * 10 ^ e.
Proof.
  intros Hn. rewrite of_number_int32_make by lia.
  destruct (Z.ltb_spec n 0) as [|_]; [lia|].
  destruct (make_bounded false (Z.abs_N n) 0 10) as (c & e & Hmk & Hc & He & Hv & Hsci & _).
  - lia.
  - change (2 ^ 31) with 2147483648 in Hn. change (10 ^ 10) with 10000000000. lia.
  - lia.
  - unfold BigNumber.MIN_EXP. lia.
  - unfold BigNumber.MAX_EXP. lia.
  - exists c, e. rewrite Hmk. pose proof (ndigits_pos c). rewrite Z.sub_0_r in Hv.
    repeat split; try assumption; lia.
Qed.

(** Half-up rounding of a quotient is within half a unit of it. *)
Lemma half_up_close (num den : Z) :
  0 < den -> 2 * Z.abs (((2 * num + den) / (2 * den)) * den - num) <= den.
Proof.
  intros Hden.
  pose proof (Z.div_mod (2 * num + den) (2 * den) ltac:(lia)) as Hdm.
  pose proof (Z.mod_pos_bound (2 * num + den) (2 * den) ltac:(lia)) as Hb.
  generalize dependent ((2 * num + den) mod (2 * den)). intros r Hdm Hb.
  generalize dependent ((2 * num + den) / (2 * den)). intros q Hdm.
  lia.
Qed.

Section Prices.
Context `{Collaborators}.

(** [_fromXDRPrice] is accurate to twenty decimal places: the text it
    returns for a ratio of two positive 32-bit integers denotes a decimal
    within half a unit of the twentieth place of the ratio, and the ratio
    itself when that has at most twenty places. *)
Theorem fromXDRPrice_accuracy (n d : Z) :
  0 < n < 2 ^ 31 -> 0 < d < 2 ^ 31 ->
  exists text c e,
    Operation._fromXDRPrice (xdr.Price.new n d) = Ok text
    /\ BigNumber.of_string text = Ok (BigNumber.Finite false c e)
    /\ -20 <= e
    /\ 2 * Z.abs (Z.of_N c * 10 ^ (e + 20) * d - n * 10 ^ 20) <= d
    /\ ((n * 10 ^ 20) mod d = 0 -> Z.of_N c * 10 ^ (e + 20) * d = n * 10 ^ 20).
Proof.
  intros Hn Hd. unfold Operation._fromXDRPrice. cbn [xdr.Price.n xdr.Price.d BigNumber_new].
  destruct (of_number_positive n Hn) as (c1 & e1 & -> & Hc1 & He1 & Hv1).
  destruct (of_number_positive d Hd) as (c2 & e2 & -> & Hc2 & He2 & Hv2).
  cbn [bind]. unfold BigNumber.div.
  destruct (N.eqb_spec c2 0) as [|_]; [contradiction|].
  destruct (N.eqb_spec c1 0) as [|_]; [contradiction|].
  cbn [xorb]. unfold BigNumber.quotient, BigNumber.DECIMAL_PLACES. cbv zeta.
  destruct (Z.leb_spec 0 (e1 - e2 + 20)) as [_|]; [|lia].
  set (k := e1 - e2 + 20). set (num := Z.of_N c1 * 10 ^ k).
  set (q := (2 * num + Z.of_N c2) / (2 * Z.of_N c2)).
  assert (Hk : 11 <= k <= 29) by (unfold k; lia).
  assert (Hc1' : 0 < Z.of_N c1) by lia. assert (Hc2' : 0 < Z.of_N c2) by lia.
  pose proof (pow10_pos e1 ltac:(lia)) as Hp1. pose proof (pow10_pos e2 ltac:(lia)) as Hp2.
  pose proof (pow10_pos k ltac:(lia)) as Hpk.
  assert (Hc2d : Z.of_N c2 <= d) by nia.
  assert (Hc1n : Z.of_N c1 <= n) by nia.
  change (2 ^ 31) with 2147483648 in *.
  assert (Hnum : 10 ^ 11 <= num).
  { unfold num. assert (10 ^ 11 <= 10 ^ k) by (apply Z.pow_le_mono_r; lia). nia. }
  change (10 ^ 11) with 100000000000 in Hnum.
  assert (Hq1 : 1 <= q).
  { unfold q. apply Z.div_le_lower_bound; lia. }
  assert (Hq2 : q < 10 ^ 40).
  { unfold q. apply Z.div_lt_upper_bound; [lia|].
    assert (10 ^ k <= 10 ^ 29) by (apply Z.pow_le_mono_r; lia).
    assert (num <= 2147483648 * 10 ^ 29) by (unfold num; nia).
    change (10 ^ 29) with 100000000000000000000000000000 in *.
    change (10 ^ 40) with 10000000000000000000000000000000000000000. lia. }
  destruct (make_bounded false (Z.to_N q) (-20) 40)
    as (c & e & Hmk & Hc & He & Hv & Hsci & Hwf).
  { lia. } { rewrite Z2N.id by lia. assumption. } { lia. }
  { unfold BigNumber.MIN_EXP. lia. } { unfold BigNumber.MAX_EXP. lia. }
  change (Z.opp 20) with (-20). rewrite Hmk. rewrite Z2N.id in Hv by lia.
  replace (e - -20) with (e + 20) in Hv by lia.
  exists (BigNumber.toString (BigNumber.Finite false c e)), c, e.
  split; [reflexivity|]. split; [apply of_string_toString; [assumption|discriminate]|].
  split; [assumption|].
  rewrite <- Hv.
  assert (Hscale : n * 10 ^ 20 = num * 10 ^ e2).
  { unfold num, k. rewrite Hv1, <- !Z.mul_assoc, <- !Z.pow_add_r by lia.
    do 2 f_equal. lia. }
  pose proof (half_up_close num (Z.of_N c2) Hc2') as Hclose. fold q in Hclose.
  assert (Hdiff : q * d - n * 10 ^ 20 = (q * Z.of_N c2 - num) * 10 ^ e2).
  { rewrite Hscale, Hv2. ring. }
  split.
  - rewrite Hdiff, Z.abs_mul, (Z.abs_eq (10 ^ e2)) by lia. rewrite Hv2. nia.
  - intros Hdiv. apply Z.mod_divide in Hdiv; [|lia]. destruct Hdiv as [m Hm].
    assert (Hzero : q * d - n * 10 ^ 20 = (q - m) * d) by (rewrite Hm; ring).
    assert (Hsmall : 2 * Z.abs ((q - m) * d) <= d).
    { rewrite <- Hzero, Hdiff, Z.abs_mul, (Z.abs_eq (10 ^ e2)) by lia. rewrite Hv2. nia. }
    rewrite Z.abs_mul, (Z.abs_eq d) in Hsmall by lia.
    assert (Hqm : q = m).
    { destruct (Z.eq_dec q m) as [|Hne]; [assumption|]. exfalso.
      assert (Hone : 1 <= Z.abs (q - m)) by lia.
      clear - Hone Hsmall Hd. nia. }
    subst m. symmetry. assumption.
Qed.

(** A price whose denominator is zero is decoded without an error: the
    text is [Infinity], [-Infinity], or [NaN] when the numerator is zero
    as well. *)
Theorem fromXDRPrice_zero_denominator (n : Z) :
  - 2 ^ 31 <= n < 2 ^ 31 ->
  Operation._fromXDRPrice (xdr.Price.new n 0)
  = Ok (if n =? 0 then "NaN" else if n <? 0 then "-Infinity" else "Infinity").
Proof.
  intros Hn. unfold Operation._fromXDRPrice. cbn [xdr.Price.n xdr.Price.d BigNumber_new].
  rewrite of_number_int32_make by assumption.
  destruct (Z.eqb_spec n 0) as [->|Hnz]; [reflexivity|].
  change (BigNumber.of_number 0) with (Ok (BigNumber.Finite false 0 0)).
  destruct (make_bounded (n <? 0) (Z.abs_N n) 0 10) as (c & e & -> & Hc & _).
  - lia.
  - change (2 ^ 31) with 2147483648 in Hn. change (10 ^ 10) with 10000000000. lia.
  - lia.
  - unfold BigNumber.MIN_EXP. lia.
  - unfold BigNumber.MAX_EXP. lia.
  - cbn [bind]. unfold BigNumber.div. change (0 =? 0)%N with true. cbv iota.
    destruct (N.eqb_spec c 0) as [|_]; [contradiction|].
    destruct (n <? 0); reflexivity.
Qed.

(** A pair with a zero component is no explicit price: zero is falsy, the
    pair is handed to [BigNumber] as it is and the error is the
    library's, not the one for a price that is not positive; a pair
    without a zero and with a negative component has that error. *)
Theorem toXDRPrice_pair_errors (n d : Z) :
  (n = 0 \/ d = 0 ->
   Operation._toXDRPrice (ratio_object n d)
   = Throw (BigNumber.not_a_number "[object Object]"))
  /\ (n <> 0 -> d <> 0 -> n < 0 \/ d < 0 ->
      Operation._toXDRPrice (ratio_object n d) = Throw (Error "price must be positive")).
Proof.
  rewrite toXDRPrice_ratio_object. split.
  - intros Hz. assert (Hb : (n =? 0) || (d =? 0) = true).
    { apply orb_true_iff. destruct Hz; [left|right]; apply Z.eqb_eq; assumption. }
    rewrite Hb. reflexivity.
  - intros Hn Hd Hneg.
    destruct (Z.eqb_spec n 0) as [|_]; [contradiction|].
    destruct (Z.eqb_spec d 0) as [|_]; [contradiction|]. cbn [orb].
    assert (Hb : (n <? 0) || (d <? 0) = true).
    { apply orb_true_iff. destruct Hneg; [left|right]; apply Z.ltb_lt; assumption. }
    rewrite Hb. reflexivity.
Qed.

End Prices.

(** * The text of a decoded amount *)

Lemma toFixedPoint_plain (ds : string) (sci : Z) :
  all_digits ds = true ->
  string_all (fun a => isDigit a || BigNumber.isDot a) (BigNumber.toFixedPoint ds sci) = true.
Proof.
  intros Hds.
  assert (Hq : forall ch, isDigit ch = true -> isDigit ch || BigNumber.isDot ch = true).
  { intros ch ->. reflexivity. }
  unfold BigNumber.toFixedPoint.
  destruct (sci <? 0).
  - rewrite !string_all_app, (string_all_digits _ _ Hq (all_digits_replicate _)),
      (string_all_digits _ _ Hq Hds). reflexivity.
  - destruct (strlen ds <? sci + 1).
    + rewrite string_all_app, (string_all_digits _ _ Hq (all_digits_replicate _)),
        (string_all_digits _ _ Hq Hds). reflexivity.
    + destruct (sci + 1 <? strlen ds).
      * rewrite !string_all_app, (string_all_digits _ _ Hq (all_digits_take _ _ Hds)),
          (string_all_digits _ _ Hq (all_digits_drop _ _ Hds)). reflexivity.
      * apply (string_all_digits _ _ Hq Hds).
Qed.

Section Notation.
Context `{Collaborators}.

(** The amounts below 0.000001 are decoded in exponent notation, [1e-7]
    to [9e-7]; every other positive amount is decoded as digits with at
    most a decimal point. *)
Theorem fromXDRAmount_notation (h : Hyper.t) :
  (1 <= h <= 9 -> Operation._fromXDRAmount h = Ok (N_toString (Z.to_N h) ++ "e-7"))
  /\ (10 <= h <= Hyper.MAX_VALUE ->
      exists text,
        Operation._fromXDRAmount h = Ok text
        /\ string_all (fun a => isDigit a || BigNumber.isDot a) text = true).
Proof.
  split.
  - intros Hh.
    assert (Hcases : h = 1 \/ h = 2 \/ h = 3 \/ h = 4 \/ h = 5 \/ h = 6 \/ h = 7 \/ h = 8
                     \/ h = 9) by lia.
    repeat (destruct Hcases as [->|Hcases]; [vm_compute; reflexivity|]).
    subst h. vm_compute; reflexivity.
  - intros Hh.
    destruct (fromXDRAmount_scaled h) as (x & Htext & Hwf & Hsc & Hneg & _).
    { unfold Hyper.MIN_VALUE. lia. }
    exists (BigNumber.toString x). split; [assumption|].
    destruct x as [| |neg c e]; try contradiction.
    apply scaled_finite in Hsc; [|assumption]. destruct Hsc as [He Hv].
    cbn [BigNumber.isNegative] in Hneg.
    destruct (Z.ltb_spec h 0) as [|_]; [lia|]. subst neg.
    assert (Hc : c <> 0%N) by (intros ->; lia).
    unfold BigNumber.toString. cbn [andb].
    pose proof (magnitude_upper c (e + 7) ltac:(lia)) as Hup.
    pose proof (magnitude_lower c (e + 7) ltac:(lia) ltac:(lia)) as Hlo.
    rewrite <- Hv in Hup, Hlo. unfold BigNumber.ndigits in Hup, Hlo.
    pose proof (N_toString_digits c) as Hds.
    revert Hup Hlo Hds. generalize (N_toString c) as ds. intros ds Hup Hlo Hds. cbv zeta.
    assert (Hsci1 : -7 < e + strlen ds - 1).
    { assert (Hlt : 10 ^ 1 < 10 ^ (e + 7 + strlen ds)) by (change (10 ^ 1) with 10; lia).
      apply Z.pow_lt_mono_r_iff in Hlt; unfold strlen in *; lia. }
    assert (Hsci2 : e + strlen ds - 1 < 21).
    { assert (Hlt : 10 ^ (e + 7 + strlen ds - 1) < 10 ^ 19).
      { unfold Hyper.MAX_VALUE in Hh. change (10 ^ 19) with 10000000000000000000. lia. }
      apply Z.pow_lt_mono_r_iff in Hlt; unfold strlen in *; lia. }
    assert (Hfix : (e + strlen ds - 1 <=? BigNumber.TO_EXP_NEG)
                   || (BigNumber.TO_EXP_POS <=? e + strlen ds - 1) = false).
    { apply orb_false_intro; apply Z.leb_gt;
        unfold BigNumber.TO_EXP_NEG, BigNumber.TO_EXP_POS; lia. }
    rewrite Hfix. apply toFixedPoint_plain. assumption.
Qed.

End Notation.

(** * Offers, trust lines and options *)

Section Offers.
Context `{Collaborators}.




End Offers.

Section Trust.
Context `{Collaborators}.

(** [changeTrust] returns an operation exactly when the asset is given,
    the limit is undefined or a valid amount (zero included) and the
    source is acceptable.  A limit that is not undefined is validated even
    when it is falsy, so that null and the empty string are refused rather
    than replaced by the maximum. *)
Theorem changeTrust_accepts (opts : ChangeTrustOpts.t) :
  ((exists op, Operation.changeTrust opts = Ok op)
   <-> ChangeTrustOpts.asset opts <> None
       /\ (isUndefined (ChangeTrustOpts.limit opts) = true
           \/ Operation.isValidAmount (ChangeTrustOpts.limit opts) true = true)
       /\ (truthy (ChangeTrustOpts.source opts) = true ->
           isValidAccountId (ChangeTrustOpts.source opts) = true))
  /\ (ChangeTrustOpts.asset opts = None ->
      Operation.changeTrust opts
      = Throw (TypeError "Cannot read property 'toXdrObject' of undefined"))
  /\ (ChangeTrustOpts.asset opts <> None ->
      ChangeTrustOpts.limit opts = Null \/ ChangeTrustOpts.limit opts = Str EmptyString ->
      Operation.changeTrust opts
      = Throw (TypeError "limit argument must be of type String and represent a number")).
Proof.
  split; [|split].
  - split.
    + intros [op Hop].
      destruct (changeTrust_inv _ _ Hop) as (a & l & src & Ha & Hl & Hs & _).
      split; [congruence|]. split.
      * destruct (isUndefined (ChangeTrustOpts.limit opts)); [left; reflexivity|].
        right. apply Hl.
      * apply setSourceAccount_accepts. exists src. assumption.
    + intros (Ha & Hl & Hs).
      destruct (ChangeTrustOpts.asset opts) as [a|] eqn:Ea; [|contradiction].
      apply setSourceAccount_accepts in Hs as [src Hs].
      destruct (isUndefined (ChangeTrustOpts.limit opts)) eqn:Hu.
      * eexists. apply (changeTrust_ok opts a 9223372036854775807 src); try assumption.
        rewrite Hu. reflexivity.
      * destruct Hl as [Hl|Hl]; [discriminate Hl|].
        destruct (toXDRAmount_valid _ _ Hl) as [l Hx].
        eexists. apply (changeTrust_ok opts a l src); try assumption.
        rewrite Hu. split; assumption.
  - intros Ha. unfold Operation.changeTrust. rewrite Ha. reflexivity.
  - intros Ha Hl. unfold Operation.changeTrust.
    destruct (ChangeTrustOpts.asset opts) as [a|]; [|contradiction].
    destruct Hl as [->| ->]; reflexivity.
Qed.

(** [allowTrust] returns an operation exactly when the trustor is a valid
    account id, the asset code has at most twelve characters and the
    source is acceptable; the trustor is checked before the asset code. *)
Theorem allowTrust_accepts (opts : AllowTrustOpts.t) :
  ((exists op, Operation.allowTrust opts = Ok op)
   <-> isValidAccountId (AllowTrustOpts.trustor opts) = true
       /\ (String.length (AllowTrustOpts.assetCode opts) <= 12)%nat
       /\ (truthy (AllowTrustOpts.source opts) = true ->
           isValidAccountId (AllowTrustOpts.source opts) = true))
  /\ (isValidAccountId (AllowTrustOpts.trustor opts) = false ->
      Operation.allowTrust opts = Throw (Error "trustor is invalid"))
  /\ (AllowTrustOpts.assetCode opts = EmptyString ->
      forall op, Operation.allowTrust opts = Ok op ->
        exists trustor,
          xdr.Operation.body op
          = xdr.OperationBody.allowTrust
              (xdr.AllowTrustOp.new _ trustor
                 (xdr.AllowTrustOpAsset.assetTypeCreditAlphanum4
                    (String NUL (String NUL (String NUL (String NUL EmptyString)))))
                 (AllowTrustOpts.authorize opts))).
Proof.
  split; [|split].
  - split.
    + intros [op Hop].
      destruct (allowTrust_inv _ _ Hop) as (t & src & Ht & Hlen & Hs & _).
      split; [|split; [assumption|]].
      * destruct (xdrAccountId_inv _ _ Ht) as (s & Hs' & Hk).
        rewrite Hs'. cbn [isValidAccountId]. rewrite Hk. reflexivity.
      * apply setSourceAccount_accepts. exists src. assumption.
    + intros (Ht & Hlen & Hs). apply setSourceAccount_accepts in Hs as [src Hs].
      destruct (allowTrust_ok opts src Ht Hlen Hs) as (t & _ & Hop).
      eexists. exact Hop.
  - intros Ht. unfold Operation.allowTrust. rewrite Ht. reflexivity.
  - intros Hcode op Hop.
    destruct (allowTrust_inv _ _ Hop) as (t & src & _ & _ & _ & ->).
    exists t. rewrite Hcode. reflexivity.
Qed.

(** The checks of [setOptions] and their order: the inflation destination,
    the master weight, the low, medium and high thresholds, the home
    domain, the address and the weight of the signer, and the source last;
    each has its own error, and the operation is returned exactly when all
    of them pass. *)
Theorem setOptions_checks (opts : SetOptionsOpts.t) :
  ((exists op, Operation.setOptions opts = Ok op)
   <-> (truthy (SetOptionsOpts.inflationDest opts) = true ->
        isValidAccountId (SetOptionsOpts.inflationDest opts) = true)
       /\ (within_range (SetOptionsOpts.masterWeight opts)
           /\ within_range (SetOptionsOpts.lowThreshold opts)
           /\ within_range (SetOptionsOpts.medThreshold opts)
           /\ within_range (SetOptionsOpts.highThreshold opts))
       /\ (isUndefined (SetOptionsOpts.homeDomain opts) = true
           \/ isString (SetOptionsOpts.homeDomain opts) = true)
       /\ (forall s, SetOptionsOpts.signer opts = Some s ->
                     isValidAccountId (SignerOpts.address s) = true
                     /\ within_range (SignerOpts.weight s))
       /\ (truthy (SetOptionsOpts.source opts) = true ->
           isValidAccountId (SetOptionsOpts.source opts) = true))
  /\ (truthy (SetOptionsOpts.inflationDest opts) = true ->
      isValidAccountId (SetOptionsOpts.inflationDest opts) = false ->
      Operation.setOptions opts = Throw (Error "inflationDest is invalid"))
  /\ ((truthy (SetOptionsOpts.inflationDest opts) = true ->
       isValidAccountId (SetOptionsOpts.inflationDest opts) = true) ->
      within_range (SetOptionsOpts.masterWeight opts) ->
      outside_range (SetOptionsOpts.lowThreshold opts) ->
      Operation.setOptions opts = Throw (Error "lowThreshold value must be between 0 and 255"))
  /\ ((truthy (SetOptionsOpts.inflationDest opts) = true ->
       isValidAccountId (SetOptionsOpts.inflationDest opts) = true) ->
      within_range (SetOptionsOpts.masterWeight opts) ->
      within_range (SetOptionsOpts.lowThreshold opts) ->
      outside_range (SetOptionsOpts.medThreshold opts) ->
      Operation.setOptions opts = Throw (Error "medThreshold value must be between 0 and 255"))
  /\ ((truthy (SetOptionsOpts.inflationDest opts) = true ->
       isValidAccountId (SetOptionsOpts.inflationDest opts) = true) ->
      within_range (SetOptionsOpts.masterWeight opts) ->
      within_range (SetOptionsOpts.lowThreshold opts) ->
      within_range (SetOptionsOpts.medThreshold opts) ->
      outside_range (SetOptionsOpts.highThreshold opts) ->
      Operation.setOptions opts
      = Throw (Error "highThreshold value must be between 0 and 255"))
  /\ ((truthy (SetOptionsOpts.inflationDest opts) = true ->
       isValidAccountId (SetOptionsOpts.inflationDest opts) = true) ->
      within_range (SetOptionsOpts.masterWeight opts)
      /\ within_range (SetOptionsOpts.lowThreshold opts)
      /\ within_range (SetOptionsOpts.medThreshold opts)
      /\ within_range (SetOptionsOpts.highThreshold opts) ->
      isUndefined (SetOptionsOpts.homeDomain opts) = false ->
      isString (SetOptionsOpts.homeDomain opts) = false ->
      Operation.setOptions opts
      = Throw (TypeError "homeDomain argument must be of type String"))
  /\ (forall s,
        (truthy (SetOptionsOpts.inflationDest opts) = true ->
         isValidAccountId (SetOptionsOpts.inflationDest opts) = true) ->
        within_range (SetOptionsOpts.masterWeight opts)
        /\ within_range (SetOptionsOpts.lowThreshold opts)
        /\ within_range (SetOptionsOpts.medThreshold opts)
        /\ within_range (SetOptionsOpts.highThreshold opts) ->
        isUndefined (SetOptionsOpts.homeDomain opts) = true
        \/ isString (SetOptionsOpts.homeDomain opts) = true ->
        SetOptionsOpts.signer opts = Some s ->
        isValidAccountId (SignerOpts.address s) = false ->
        Operation.setOptions opts = Throw (Error "signer.address is invalid"))
  /\ (forall s,
        (truthy (SetOptionsOpts.inflationDest opts) = true ->
         isValidAccountId (SetOptionsOpts.inflationDest opts) = true) ->
        within_range (SetOptionsOpts.masterWeight opts)
        /\ within_range (SetOptionsOpts.lowThreshold opts)
        /\ within_range (SetOptionsOpts.medThreshold opts)
        /\ within_range (SetOptionsOpts.highThreshold opts) ->
        isUndefined (SetOptionsOpts.homeDomain opts) = true
        \/ isString (SetOptionsOpts.homeDomain opts) = true ->
        SetOptionsOpts.signer opts = Some s ->
        isValidAccountId (SignerOpts.address s) = true ->
        outside_range (SignerOpts.weight s) ->
        Operation.setOptions opts
        = Throw (Error "signer.weight value must be between 0 and 255")).
Proof.
  set (dest_ok := truthy (SetOptionsOpts.inflationDest opts) = true ->
                  isValidAccountId (SetOptionsOpts.inflationDest opts) = true).
  set (weights_ok := within_range (SetOptionsOpts.masterWeight opts)
                     /\ within_range (SetOptionsOpts.lowThreshold opts)
                     /\ within_range (SetOptionsOpts.medThreshold opts)
                     /\ within_range (SetOptionsOpts.highThreshold opts)).
  set (domain_ok := isUndefined (SetOptionsOpts.homeDomain opts) = true
                    \/ isString (SetOptionsOpts.homeDomain opts) = true).
  assert (Hdest : dest_ok ->
            exists d,
              (if truthy (SetOptionsOpts.inflationDest opts)
               then if negb (isValidAccountId (SetOptionsOpts.inflationDest opts))
                    then Throw (Error "inflationDest is invalid")
                    else bind (xdrAccountId (SetOptionsOpts.inflationDest opts))
                           (fun account => Ok (Some account))
               else Ok None) = Ok d).
  { intros Hd. unfold dest_ok in Hd.
    destruct (truthy (SetOptionsOpts.inflationDest opts)); [|eexists; reflexivity].
    rewrite (Hd eq_refl). destruct (isValidAccountId_inv _ (Hd eq_refl)) as (s & k & _ & _ & ->).
    eexists; reflexivity. }
  assert (Hdomain : domain_ok ->
            exists h,
              match SetOptionsOpts.homeDomain opts with
              | Undefined => Ok None
              | Str s => Ok (Some s)
              | _ => Throw (TypeError "homeDomain argument must be of type String")
              end = Ok h).
  { intros Hd. unfold domain_ok in Hd.
    destruct (SetOptionsOpts.homeDomain opts);
      try (eexists; reflexivity); destruct Hd as [Hd|Hd]; discriminate Hd. }
  split; [|split; [|split; [|split; [|split; [|split; [|split]]]]]].
  - split.
    + intros [op Hop].
      destruct (setOptions_inv _ _ Hop)
        as (d & h & sg & src & Hd & Hm & Hl & Hmd & Hh & Hdom & Hsg & Hs & _).
      split; [|split; [|split; [|split]]].
      * intros Ht. rewrite Ht in Hd. destruct Hd as (k & Hk & _).
        destruct (xdrAccountId_inv _ _ Hk) as (s & Hs' & Hds).
        rewrite Hs'. cbn [isValidAccountId]. rewrite Hds. reflexivity.
      * unfold weights_ok. split; [|split; [|split]]; apply out_of_range_within; assumption.
      * unfold domain_ok. destruct (SetOptionsOpts.homeDomain opts); try contradiction;
          [left|right]; reflexivity.
      * intros s Hsome. rewrite Hsome in Hsg. destruct Hsg as (k & Hk & Hw & _).
        split; [|apply out_of_range_within; assumption].
        destruct (xdrAccountId_inv _ _ Hk) as (a & Ha & Hda).
        rewrite Ha. cbn [isValidAccountId]. rewrite Hda. reflexivity.
      * apply setSourceAccount_accepts. exists src. assumption.
    + intros (Hd & (Hm & Hl & Hmd & Hh) & Hdom & Hsg & Hs).
      apply setSourceAccount_accepts in Hs as [src Hs].
      apply (setOptions_ok opts src); assumption.
  - intros Ht Hv. unfold Operation.setOptions. rewrite Ht, Hv. reflexivity.
  - intros Hd Hm Hl. destruct (Hdest Hd) as [d Hd'].
    apply out_of_range_within in Hm. apply out_of_range_outside in Hl.
    unfold Operation.setOptions. rewrite Hd'. cbn [bind]. rewrite Hm, Hl. reflexivity.
  - intros Hd Hm Hl Hmd. destruct (Hdest Hd) as [d Hd'].
    apply out_of_range_within in Hm, Hl. apply out_of_range_outside in Hmd.
    unfold Operation.setOptions. rewrite Hd'. cbn [bind]. rewrite Hm, Hl, Hmd. reflexivity.
  - intros Hd Hm Hl Hmd Hh. destruct (Hdest Hd) as [d Hd'].
    apply out_of_range_within in Hm, Hl, Hmd. apply out_of_range_outside in Hh.
    unfold Operation.setOptions. rewrite Hd'. cbn [bind]. rewrite Hm, Hl, Hmd, Hh.
    reflexivity.
  - intros Hd (Hm & Hl & Hmd & Hh) Hu Hstr. destruct (Hdest Hd) as [d Hd'].
    apply out_of_range_within in Hm, Hl, Hmd, Hh.
    unfold Operation.setOptions. rewrite Hd'. cbn [bind]. rewrite Hm, Hl, Hmd, Hh.
    destruct (SetOptionsOpts.homeDomain opts); try reflexivity;
      [discriminate Hu|discriminate Hstr].
  - intros s Hd (Hm & Hl & Hmd & Hh) Hdom Hsome Hv.
    destruct (Hdest Hd) as [d Hd']. destruct (Hdomain Hdom) as [h Hh'].
    apply out_of_range_within in Hm, Hl, Hmd, Hh.
    unfold Operation.setOptions. rewrite Hd'. cbn [bind]. rewrite Hm, Hl, Hmd, Hh, Hh'.
    cbn [bind]. rewrite Hsome, Hv. reflexivity.
  - intros s Hd (Hm & Hl & Hmd & Hh) Hdom Hsome Hv Hw.
    destruct (Hdest Hd) as [d Hd']. destruct (Hdomain Hdom) as [h Hh'].
    apply out_of_range_within in Hm, Hl, Hmd, Hh. apply out_of_range_outside in Hw.
    unfold Operation.setOptions. rewrite Hd'. cbn [bind]. rewrite Hm, Hl, Hmd, Hh, Hh'.
    cbn [bind]. rewrite Hsome, Hv, Hw. reflexivity.
Qed.

End Trust.

(** * The decoder on any operation *)

Section Decoder.
Context `{Collaborators}.

Lemma source_field_source (src : option AccountID) :
  source_field src !! "source"
  = option_map (fun account => Str (Operation.accountIdtoAddress account)) src.
Proof.
  destruct src; cbn [source_field option_map]; [apply lookup_insert_eq|apply lookup_empty].
Qed.

Lemma fromXDRAmount_total (h : Hyper.t) :
  Hyper.MIN_VALUE <= h <= Hyper.MAX_VALUE -> exists s, Operation._fromXDRAmount h = Ok s.
Proof.
  intros Hh. destruct (fromXDRAmount_scaled h Hh) as (x & Hx & _). eexists. exact Hx.
Qed.

(** Whatever operation is decoded, the object carries the source exactly
    when the operation has one, as the address of that account, and its
    [type] is the name of the discriminant, but for [setOption], which is
    reported as [setOptions]. *)
Theorem operationToObject_tags (operation : xdr.Operation.t) (res : gmap string value) :
  Operation.operationToObject operation = Ok res ->
  res !! "source"
  = option_map (fun account => Str (encodeCheck account))
      (xdr.Operation.sourceAccount operation)
  /\ res !! "type"
     = Some (Str (if (xdr.OperationBody.switch (xdr.Operation.body operation) =? "setOption")%string
                  then "setOptions"
                  else xdr.OperationBody.switch (xdr.Operation.body operation))).
Proof.
  destruct operation as [src [name arm]]. intros Hop.
  unfold Operation.operationToObject in Hop.
  cbn [xdr.Operation.sourceAccount xdr.Operation.body xdr.OperationBody.switch
       xdr.OperationBody.value] in *.
  fold (source_field src) in Hop.
  change (option_map (fun account => Str (encodeCheck account)) src)
    with (option_map (fun account => Str (Operation.accountIdtoAddress account)) src).
  rewrite <- source_field_source.
  repeat match type of Hop with
         | (if (name =? ?k)%string then _ else _) = Ok _ =>
             let E := fresh "Hname" in
             destruct (name =? k)%string eqn:E;
             [apply String.eqb_eq in E; subst name;
              destruct arm; try discriminate Hop;
              invert_ok Hop; injection Hop as <-;
              repeat match goal with
                     | |- context [match ?o with Some _ => _ | None => _ end] => destruct o
                     end;
              (split; [field; reflexivity|field; reflexivity])
             |]
         end.
  discriminate Hop.
Qed.

(** The decoder returns an object for every operation whose arm is the
    one of its discriminant, whose amounts are 64-bit integers and whose
    prices are pairs of 32-bit integers: it does not throw on what the XDR
    layer can hold. *)
Theorem operationToObject_total (operation : xdr.Operation.t) :
  representable (xdr.Operation.body operation) ->
  exists res, Operation.operationToObject operation = Ok res.
Proof.
  destruct operation as [src [name arm]].
  unfold representable, int64_amount.
  cbn [xdr.Operation.body xdr.OperationBody.switch xdr.OperationBody.value]. cbv zeta.
  unfold Operation.operationToObject.
  cbn [xdr.Operation.sourceAccount xdr.Operation.body xdr.OperationBody.switch
       xdr.OperationBody.value].
  destruct arm as [op|op|op|op|op|op|op|op|account|]; intros Hwf.
  - destruct Hwf as [-> Hh]. destruct (fromXDRAmount_total _ Hh) as [s Hs].
    cbn [String.eqb Ascii.eqb Bool.eqb]. rewrite Hs. eexists; reflexivity.
  - destruct Hwf as [-> Hh]. destruct (fromXDRAmount_total _ Hh) as [s Hs].
    cbn [String.eqb Ascii.eqb Bool.eqb]. rewrite Hs. eexists; reflexivity.
  - destruct Hwf as (-> & Hh1 & Hh2). destruct (fromXDRAmount_total _ Hh1) as [s1 Hs1].
    destruct (fromXDRAmount_total _ Hh2) as [s2 Hs2].
    cbn [String.eqb Ascii.eqb Bool.eqb]. rewrite Hs1. cbn [bind]. rewrite Hs2.
    eexists; reflexivity.
  - destruct Hwf as [-> Hh]. destruct (fromXDRAmount_total _ Hh) as [s Hs].
    cbn [String.eqb Ascii.eqb Bool.eqb]. rewrite Hs. eexists; reflexivity.
  - subst name. cbn [String.eqb Ascii.eqb Bool.eqb]. eexists; reflexivity.
  - subst name. cbn [String.eqb Ascii.eqb Bool.eqb]. eexists; reflexivity.
  - destruct Hwf as (-> & Hh & Hp). destruct (fromXDRAmount_total _ Hh) as [s Hs].
    destruct (fromXDRPrice_int32 _ Hp) as [q Hq].
    cbn [String.eqb Ascii.eqb Bool.eqb]. rewrite Hs. cbn [bind]. rewrite Hq.
    eexists; reflexivity.
  - destruct Hwf as (-> & Hh & Hp). destruct (fromXDRAmount_total _ Hh) as [s Hs].
    destruct (fromXDRPrice_int32 _ Hp) as [q Hq].
    cbn [String.eqb Ascii.eqb Bool.eqb]. rewrite Hs. cbn [bind]. rewrite Hq.
    eexists; reflexivity.
  - subst name. cbn [String.eqb Ascii.eqb Bool.eqb]. eexists; reflexivity.
  - subst name. cbn [String.eqb Ascii.eqb Bool.eqb]. eexists; reflexivity.
Qed.

End Decoder.

(** * Amounts and integers correspond one to one *)

Section Correspondence.
Context `{Collaborators}.


(** Two different 64-bit integers are decoded to different texts. *)
Theorem fromXDRAmount_injective (h1 h2 : Hyper.t) :
  Hyper.MIN_VALUE <= h1 <= Hyper.MAX_VALUE ->
  Hyper.MIN_VALUE <= h2 <= Hyper.MAX_VALUE ->
  h1 <> h2 -> Operation._fromXDRAmount h1 <> Operation._fromXDRAmount h2.
Proof.
  intros Hh1 Hh2 Hne Heq. apply Hne.
  destruct (fromXDRAmount_scaled h1 Hh1) as (x1 & Hx1 & Hwf1 & Hsc1 & _ & Hnz1).
  destruct (fromXDRAmount_scaled h2 Hh2) as (x2 & Hx2 & Hwf2 & Hsc2 & _ & Hnz2).
  rewrite Hx1, Hx2 in Heq. injection Heq as Heq.
  pose proof (of_string_toString x1 Hwf1 Hnz1) as Hb1.
  pose proof (of_string_toString x2 Hwf2 Hnz2) as Hb2.
  rewrite Heq, Hb2 in Hb1. injection Hb1 as <-.
  apply (scaled_unique x2); assumption.
Qed.

(** The text a 64-bit integer is decoded to is a valid amount exactly when
    the integer is not negative (and not zero, where zero is not
    allowed): what the decoder returns for an operation the constructors
    made can be given to the constructors again. *)
Theorem fromXDRAmount_revalidates (h : Hyper.t) (allowZero : bool) :
  Hyper.MIN_VALUE <= h <= Hyper.MAX_VALUE ->
  exists text,
    Operation._fromXDRAmount h = Ok text
    /\ (Operation.isValidAmount (Str text) allowZero = true
        <-> 0 <= h /\ (allowZero = true \/ h <> 0)).
Proof.
  intros Hh.
  destruct (fromXDRAmount_scaled h Hh) as (x & Hx & Hwf & Hsc & Hneg & Hnz).
  exists (BigNumber.toString x). split; [assumption|].
  pose proof (of_string_toString x Hwf Hnz) as Hback.
  rewrite isValidAmount_scaled. split.
  - intros (y & n & Hy & Hpos & Hscy & _ & Hzero).
    rewrite Hback in Hy. injection Hy as <-.
    assert (n = h) by (apply (scaled_unique x); assumption). subst n.
    rewrite Hneg in Hpos. apply Z.ltb_ge in Hpos. split; assumption.
  - intros [Hpos Hzero]. exists x, h. split; [assumption|].
    split; [rewrite Hneg; apply Z.ltb_ge; assumption|].
    split; [assumption|]. split; [unfold Hyper.MAX_VALUE in Hh; lia|assumption].
Qed.

End Correspondence.

Import Reference.






Lemma isValidAmount_spec_witness :
  exists s x n,
    @Str Reference.collaborators "10.5" = Str s /\ BigNumber.of_string s = Ok x
    /\ BigNumber.isNegative x = false /\ scaled x n
    /\ n <= 9223372036854775807 /\ (false = true \/ n <> 0).
Proof.
  apply (proj1 (proj1 (@isValidAmount_spec Reference.collaborators) (Str "10.5") false)).
  vm_compute; reflexivity.
Defined.

(** C2. The text [-0] is a decimal literal that denotes zero: it is not
    below zero, has no decimal places and scales to zero.  [isValidAmount]
    refuses it even when zero is allowed, because the check commented
    [< 0] asks the library for the sign, and the library keeps the sign of
    a zero. *)
Theorem isValidAmount_negative_zero :
  BigNumber.of_string "-0" = Ok (BigNumber.Finite true 0 0)
  /\ BigNumber.isZero (BigNumber.Finite true 0 0) = true
  /\ scaled (BigNumber.Finite true 0 0) 0
  /\ BigNumber.isNegative (BigNumber.Finite true 0 0) = true
  /\ @Operation.isValidAmount Reference.collaborators (Str "-0") true = false
  /\ @Operation.isValidAmount Reference.collaborators (Str "0") true = true.
Proof. repeat split; vm_compute; reflexivity. Qed.



Lemma allowTrust_assetCode_witness :
  exists trustor,
    Operation.allowTrust
      (AllowTrustOpts.new Reference.collaborators (Str "Gkey") "USD" true Undefined)
    = Ok (xdr.Operation.new _ None
            (xdr.OperationBody.allowTrust
               (xdr.AllowTrustOp.new _ trustor
                  (xdr.AllowTrustOpAsset.assetTypeCreditAlphanum4
                     ("USD" ++ replicate_char (4 - String.length "USD") NUL))
                  true)))
    /\ String.length ("USD" ++ replicate_char (4 - String.length "USD") NUL) = 4%nat.
Proof.
  apply (proj1 (proj1 (@allowTrust_assetCode Reference.collaborators)
                  (AllowTrustOpts.new Reference.collaborators (Str "Gkey") "USD" true
                     Undefined)
                  None eq_refl eq_refl)).
  vm_compute. lia.
Defined.

Lemma changeTrust_limit_witness :
  Operation.changeTrust
    (ChangeTrustOpts.new Reference.collaborators (Some "USD") Undefined (Str "Gkey"))
  = Ok (xdr.Operation.new _ (Some "key")
          (xdr.OperationBody.changeTrust
             (xdr.ChangeTrustOp.new _ "USD" 9223372036854775807))).
Proof.
  apply (proj1 (proj1 (@changeTrust_limit Reference.collaborators)
                  (ChangeTrustOpts.new Reference.collaborators (Some "USD") Undefined
                     (Str "Gkey"))
                  "USD" (Some "key") eq_refl eq_refl)).
  reflexivity.
Defined.

Lemma setOptions_range_witness :
  exists e,
    Operation.setOptions
      (SetOptionsOpts.new Reference.collaborators Undefined None None (Some 256) None None
         None None Undefined Undefined)
    = Throw e.
Proof.
  apply (proj1 (@setOptions_range Reference.collaborators)).
  left. exists 256. split; [reflexivity|right; lia].
Defined.

Lemma operationToObject_unknown_witness :
  Operation.operationToObject
    (xdr.Operation.new Reference.collaborators None
       (xdr.OperationBody.new _ "manageData" xdr.OperationBody.Void))
  = Throw (Error "Unknown operation").
Proof.
  apply operationToObject_unknown. unfold known_operations. cbn.
  intros Hin. repeat destruct Hin as [Hin|Hin]; try discriminate Hin. exact Hin.
Defined.

Lemma manageOffer_amount_and_offerId_witness :
  Operation.manageOffer
    (ManageOfferOpts.new Reference.collaborators (Some "USD") (Some "EUR") (Str "0")
       (ratio_object 1 2) Undefined Undefined)
  = Ok (xdr.Operation.new _ None
          (xdr.OperationBody.manageOffer
             (xdr.ManageOfferOp.new _ "USD" "EUR" 0 (xdr.Price.new 1 2) 0))).
Proof.
  apply (proj1 (proj1 (@manageOffer_amount_and_offerId Reference.collaborators)
                  (ManageOfferOpts.new Reference.collaborators (Some "USD") (Some "EUR")
                     (Str "0") (ratio_object 1 2) Undefined Undefined)
                  "USD" "EUR" (xdr.Price.new 1 2) None
                  eq_refl eq_refl eq_refl ltac:(vm_compute; reflexivity) eq_refl eq_refl)).
  reflexivity.
Defined.

Lemma isValidAmount_string_only_witness :
  @Operation.isValidAmount Reference.collaborators (Number 5) true = false.
Proof.
  apply (proj1 (@isValidAmount_string_only Reference.collaborators)).
  reflexivity.
Defined.

(** * The further properties at concrete inputs *)

Lemma zero_amount_refused_witness :
  Operation.createPassiveOffer
    (CreatePassiveOfferOpts.new Reference.collaborators (Some "USD") (Some "EUR") (Str "0")
       (ratio_object 1 2) Undefined)
  = Throw (TypeError "amount argument must be of type String and represent a positive number").
Proof.
  apply (proj2 (proj2 (proj2 (proj2
           (@zero_amount_refused Reference.collaborators "0" (BigNumber.Finite false 0 0)
              ltac:(vm_compute; reflexivity) eq_refl))))
           (CreatePassiveOfferOpts.new Reference.collaborators (Some "USD") (Some "EUR")
              (Str "0") (ratio_object 1 2) Undefined)
           "USD" "EUR"); reflexivity.
Defined.

Lemma fromXDRPrice_accuracy_witness :
  exists text c e,
    @Operation._fromXDRPrice Reference.collaborators (xdr.Price.new 1 3) = Ok text
    /\ BigNumber.of_string text = Ok (BigNumber.Finite false c e)
    /\ -20 <= e
    /\ 2 * Z.abs (Z.of_N c * 10 ^ (e + 20) * 3 - 1 * 10 ^ 20) <= 3
    /\ ((1 * 10 ^ 20) mod 3 = 0 -> Z.of_N c * 10 ^ (e + 20) * 3 = 1 * 10 ^ 20).
Proof.
  apply (@fromXDRPrice_accuracy Reference.collaborators 1 3); split; reflexivity.
Defined.

Lemma fromXDRPrice_zero_denominator_witness :
  @Operation._fromXDRPrice Reference.collaborators (xdr.Price.new 1 0) = Ok "Infinity".
Proof.
  apply (@fromXDRPrice_zero_denominator Reference.collaborators 1).
  split; [discriminate|reflexivity].
Defined.

Lemma operationToObject_tags_witness :
  (<["type" := @Str Reference.collaborators "inflation"]>
     (<["source" := @Str Reference.collaborators "GABC"]> ∅) : gmap string value) !! "source"
  = Some (@Str Reference.collaborators "GABC")
  /\ (<["type" := @Str Reference.collaborators "inflation"]>
        (<["source" := @Str Reference.collaborators "GABC"]> ∅) : gmap string value) !! "type"
     = Some (@Str Reference.collaborators "inflation").
Proof.
  exact (@operationToObject_tags Reference.collaborators
           (xdr.Operation.new Reference.collaborators (Some "ABC") xdr.OperationBody.inflation)
           _ eq_refl).
Defined.

Lemma operationToObject_total_witness :
  exists res,
    Operation.operationToObject
      (xdr.Operation.new Reference.collaborators None
         (xdr.OperationBody.payment (xdr.PaymentOp.new Reference.collaborators "KEY" "USD" 5)))
    = Ok res.
Proof.
  apply (@operationToObject_total Reference.collaborators).
  split; [reflexivity|]. split; discriminate.
Defined.


Lemma fromXDRAmount_injective_witness :
  @Operation._fromXDRAmount Reference.collaborators 1
  <> @Operation._fromXDRAmount Reference.collaborators 10.
Proof.
  apply (@fromXDRAmount_injective Reference.collaborators 1 10).
  - split; discriminate.
  - split; discriminate.
  - discriminate.
Defined.

Lemma fromXDRAmount_revalidates_witness :
  exists text,
    @Operation._fromXDRAmount Reference.collaborators 15000000 = Ok text
    /\ (@Operation.isValidAmount Reference.collaborators (Str text) false = true
        <-> 0 <= 15000000 /\ (false = true \/ 15000000 <> 0)).
Proof.
  apply (@fromXDRAmount_revalidates Reference.collaborators 15000000 false).
  split; discriminate.
Defined.


